(** * Uranium settings core: container stacks, definition containers and
    setting definitions

    A shallow embedding of [UM/Settings/SettingDefinition.py],
    [UM/Settings/DefinitionContainer.py] and [UM/Settings/ContainerStack.py].

    Conventions of the embedding.
    - A method [def m(self, x)] that mutates [self] becomes a function
      [m self x : run S]: the object after the call, the [Logger.log] entries
      written during the call and the exception that ended it, if any.  The
      object is returned also when the call raises, so that what a failed call
      has already changed can be read off.
    - A method that only reads returns [result A]: a value or an exception.
    - Python dictionaries keep insertion order, and the code depends on it (the
      first missing required property, the order of function properties), so a
      dictionary with string keys is an association list, read by its first
      binding for a key.
    - Values decoded by [json.loads] are terms of [json]; floating point
      numbers are left out of the embedding.
    - Collaborators that are not part of these three files (the JSON and INI
      codecs, [str] and [int], the resource loader, the container registry,
      the expression compiler) are fields of an environment record, or
      variables of a section, that the functions take; the module [Sample]
      gives concrete ones, on which the examples run. *)

From Stdlib Require Import ZArith List String Ascii Bool Lia PeanoNat DecimalString.
Import ListNotations.
Open Scope string_scope.

#[local] Set Warnings "-register-all".

(* ===================================================================== *)
(** ** Python values, exceptions and dictionaries *)
(* ===================================================================== *)

Module Py.

(** What [json.loads] returns: [None], [bool], [int], [str], [list] and
    (through [object_pairs_hook]) an [OrderedDict]. *)
Inductive json :=
| JNull
| JBool (b : bool)
| JInt (z : Z)
| JStr (s : string)
| JList (l : list json)
| JObj (items : list (string * json)).

(** The message of an [AttributeError]. *)
Inductive attribute_error :=
| NoAttribute (name : string)
| MissingRequiredProperty (setting property : string).

Inductive exn :=
| IndexError
| TypeError
| KeyError (key : string)
| ValueError
| RecursionError
| AttributeError (why : attribute_error)
| NotImplementedError
| InvalidContainerStackError
| IncorrectVersionError
| InvalidDefinitionError (msg : string)
| IncorrectDefinitionVersionError (found : json) (expected : Z)
| Exception_ (msg : string)
(** raised by a collaborator (a codec, the resource loader, the compiler) *)
| CollaboratorError (what : string)
(** stands for the outcome of a built-in on an argument the embedding does
    not cover; see [py_update] *)
| OutsideModel (what : string).

Inductive result (A : Type) :=
| Ok (a : A)
| Raise (e : exn).
Arguments Ok {A} a.
Arguments Raise {A} e.

(** One call of [Logger.log(level, format, *args)]. *)
Record log_entry := Log { level : string; format : string; args : list string }.

(** The outcome of a mutating method. *)
Record run (S : Type) := Run {
  state : S;
  logged : list log_entry;
  raised : option exn }.
Arguments Run {S} state logged raised.
Arguments state {S} r.
Arguments logged {S} r.
Arguments raised {S} r.

Definition done {S} (s : S) : run S := Run s [] None.
Definition fail {S} (s : S) (e : exn) : run S := Run s [] (Some e).
Definition warn {S} (s : S) (l : log_entry) : run S := Run s [l] None.

(** Sequencing: the second step runs on the state the first left, unless the
    first raised. *)
Definition and_then {S} (r : run S) (k : S -> run S) : run S :=
  match raised r with
  | Some e => r
  | None => let r' := k (state r) in
            Run (state r') (logged r ++ logged r') (raised r')
  end.

(** [for x in l: body], stopping at the first exception. *)
Definition for_each {S A} (body : A -> S -> run S) : list A -> S -> run S :=
  fix loop (l : list A) (s : S) {struct l} : run S :=
    match l with
    | [] => done s
    | x :: l' => and_then (body x s) (loop l')
    end.

(** The same loop when the body needs the position of [x] in the list; [i]
    is the position of the head of [l]. *)
Definition for_each_from {S A} (body : nat -> A -> S -> run S) : nat -> list A -> S -> run S :=
  fix loop (i : nat) (l : list A) (s : S) {struct l} : run S :=
    match l with
    | [] => done s
    | x :: l' => and_then (body i x s) (loop (Datatypes.S i) l')
    end.

(** *** Dictionaries with string keys, in insertion order *)

Definition dict (A : Type) := list (string * A).

Fixpoint dict_get {A} (k : string) (d : dict A) : option A :=
  match d with
  | [] => None
  | (k', v) :: d' => if k' =? k then Some v else dict_get k d'
  end.

Definition dict_in {A} (k : string) (d : dict A) : bool :=
  match dict_get k d with Some _ => true | None => false end.

(** [d[k] = v]: an existing key keeps its place, a new one goes last. *)
Fixpoint dict_set {A} (k : string) (v : A) (d : dict A) : dict A :=
  match d with
  | [] => [(k, v)]
  | (k', v') :: d' => if k' =? k then (k, v) :: d' else (k', v') :: dict_set k v d'
  end.

(** [d.update(other)] for a mapping [other]. *)
Definition dict_update {A} (d other : dict A) : dict A :=
  fold_left (fun acc kv => dict_set (fst kv) (snd kv) acc) other d.

Definition keys {A} (d : dict A) : list string := map fst d.

(** [text.split(sep)] for a separator of one character: never empty, and
    one word longer than the number of separators in [text]. *)
Fixpoint split_char (sep : ascii) (text : string) : list string :=
  match text with
  | EmptyString => [EmptyString]
  | String c rest =>
      if Ascii.eqb c sep then EmptyString :: split_char sep rest
      else match split_char sep rest with
           | [] => [String c EmptyString]
           | word :: words => String c word :: words
           end
  end.

(** [needle in haystack] for two strings. *)
Definition substring_in (needle haystack : string) : bool :=
  match index 0 needle haystack with Some _ => true | None => false end.

Definition json_is_str (k : string) (j : json) : bool :=
  match j with JStr s => s =? k | _ => false end.

(** [key in obj] for a string [key]. *)
Definition py_in (key : string) (obj : json) : result bool :=
  match obj with
  | JObj items => Ok (dict_in key items)
  | JList l => Ok (existsb (json_is_str key) l)
  | JStr s => Ok (substring_in key s)
  | JNull | JBool _ | JInt _ => Raise TypeError
  end.

(** [obj[key]] for a string [key]. *)
Definition py_getitem (obj : json) (key : string) : result json :=
  match obj with
  | JObj items =>
      match dict_get key items with
      | Some v => Ok v
      | None => Raise (KeyError key)
      end
  | _ => Raise TypeError
  end.

(** [obj[key] = value] for a string [key]. *)
Definition py_setitem (obj : json) (key : string) (value : json) : result json :=
  match obj with
  | JObj items => Ok (JObj (dict_set key value items))
  | _ => Raise TypeError
  end.

(** [obj.items()]: only a dictionary has the method. *)
Definition py_items (obj : json) : result (dict json) :=
  match obj with
  | JObj items => Ok items
  | _ => Raise (AttributeError (NoAttribute "items"))
  end.

(** [d.update(other)] on a dictionary [d].  A mapping is merged in; a value
    that cannot be iterated raises [TypeError]; an empty sequence changes
    nothing; a non-empty string yields one-character items, which are no
    pairs ([ValueError]).  A non-empty list of pairs may bind keys that are
    not strings and is not covered. *)
Definition py_update (d : dict json) (other : json) : result (dict json) :=
  match other with
  | JObj items => Ok (dict_update d items)
  | JNull | JBool _ | JInt _ => Raise TypeError
  | JStr EmptyString => Ok d
  | JStr _ => Raise ValueError
  | JList [] => Ok d
  | JList _ => Raise (OutsideModel "dict.update with a list of pairs")
  end.

(** [a == b] on decoded JSON values: structural, except that [bool] is a
    subtype of [int] ([True == 1], [False == 0]). *)
Definition Z_of_bool (b : bool) : Z := if b then 1%Z else 0%Z.

Fixpoint py_eq (a b : json) {struct a} : bool :=
  match a, b with
  | JNull, JNull => true
  | JBool x, JBool y => Bool.eqb x y
  | JBool x, JInt y => Z.eqb (Z_of_bool x) y
  | JInt x, JBool y => Z.eqb x (Z_of_bool y)
  | JInt x, JInt y => Z.eqb x y
  | JStr x, JStr y => x =? y
  | JList x, JList y =>
      (fix all2 (x y : list json) {struct x} : bool :=
         match x, y with
         | [], [] => true
         | u :: x', v :: y' => py_eq u v && all2 x' y'
         | _, _ => false
         end) x y
  | JObj x, JObj y =>
      (fix all2 (x y : list (string * json)) {struct x} : bool :=
         match x, y with
         | [], [] => true
         | (k, u) :: x', (k', v) :: y' => (k =? k') && py_eq u v && all2 x' y'
         | _, _ => false
         end) x y
  | _, _ => false
  end.

End Py.

(* ===================================================================== *)
(** ** Collaborators of the settings core that are not part of it *)
(* ===================================================================== *)

(** Modelled from the spec: [SettingFunction] (UM/Settings/SettingFunction.py
    is not among the files embedded here).  The spec's expression evaluator
    compiles the text of an expression and computes the set of setting keys
    it refers to once, at compile time; [getUsedSettings] reads that set.  The
    compiler itself is a field of [SettingDefinition.Env]. *)
Module SettingFunction.

Record SettingFunction := Build { _code : string; _settings : list string }.

Definition getUsedSettings (self : SettingFunction) : list string := _settings self.

End SettingFunction.

(** Modelled from the spec: [SettingRelation] (UM/Settings/SettingRelation.py
    is not among the files embedded here): an edge [{owner, target, kind,
    viaProperty}] built by
    [SettingRelation(owner, target, relation_type, role)].  [owner] and
    [target] are references to definition objects. *)
Module SettingRelation.

(** A reference to a [SettingDefinition] object of a container: its index in
    the container's [_definitions], then the index of a child in each
    [_children] list on the way down.  Two references are the same object
    exactly when they are the same path. *)
Definition ref := list nat.

Definition ref_eqb (p q : ref) : bool :=
  if list_eq_dec Nat.eq_dec p q then true else false.

(** An object found relative to the [i]-th element of a list, as seen from
    the holder of the list. *)
Definition below {B} (i : nat) (found : ref * B) : ref * B := (i :: fst found, snd found).

(** What [visit] finds in each element of a list, in order; [i] is the
    index of the head of the list. *)
Definition each_at {A B} (visit : A -> list (ref * B)) : nat -> list A -> list (ref * B) :=
  fix over (i : nat) (l : list A) {struct l} : list (ref * B) :=
    match l with
    | [] => []
    | x :: l' => (map (below i) (visit x) ++ over (S i) l')%list
    end.

Inductive RelationType := RequiresTarget | RequiredByTarget.

Definition RelationType_eqb (a b : RelationType) : bool :=
  match a, b with
  | RequiresTarget, RequiresTarget | RequiredByTarget, RequiredByTarget => true
  | _, _ => false
  end.

Record SettingRelation := Build {
  owner : ref;
  target : ref;
  type : RelationType;
  role : string }.

End SettingRelation.

(* ===================================================================== *)
(** ** UM/Settings/SettingDefinition.py *)
(* ===================================================================== *)

Module SettingDefinition.
Import Py.

Inductive DefinitionPropertyType :=
| Any               (* = 1 *)
| String_           (* = 2, [String] in the source *)
| TranslatedString  (* = 3 *)
| Function.         (* = 4 *)

Definition DefinitionPropertyType_eqb (a b : DefinitionPropertyType) : bool :=
  match a, b with
  | Any, Any | String_, String_ | TranslatedString, TranslatedString
  | Function, Function => true
  | _, _ => false
  end.

(** An entry of [__property_definitions]. *)
Record PropertyDefinition := Property {
  type : DefinitionPropertyType;
  required : bool;
  read_only : bool }.

(** The converters that [__type_definitions] names. *)
Inductive converter :=
| conv_str                 (* [str] *)
| conv_literal_eval        (* [ast.literal_eval] *)
| conv_float_literal_eval. (* [lambda v: ast.literal_eval(v.replace(",", "."))] *)

(** An entry of [__type_definitions]. *)
Record TypeDefinition := SettingType {
  from : option converter;
  to : option converter }.

(** The value of a property of a definition: a decoded JSON value (a string
    among them) or a compiled function. *)
Inductive value :=
| VJson (j : json)
| VFunction (f : SettingFunction.SettingFunction).

Definition None_ : value := VJson JNull.

Definition is_None (v : value) : bool :=
  match v with VJson JNull => true | _ => false end.

(** [a != b] as [findDefinitions] uses it; a function object equals no
    decoded value. *)
Definition value_eqb (a b : value) : bool :=
  match a, b with
  | VJson x, VJson y => py_eq x y
  | _, _ => false
  end.

(** A translation catalogue: its [i18n] method. *)
Definition i18nCatalog := string -> string.

(** The object.  [_container] and [_parent] are back references that no
    method embedded here reads; they are left out.  [_type] does not exist
    before the first [_deserialize_dict]. *)
Inductive SettingDefinition := Build {
  _key : string;
  _i18n_catalog : option i18nCatalog;
  _children : list SettingDefinition;
  _relations : list SettingRelation.SettingRelation;
  _type : option string;
  property_values : dict value }.

Definition __init__ (key : string) (i18n_catalog : option i18nCatalog) : SettingDefinition :=
  {| _key := key;
     _i18n_catalog := i18n_catalog;
     _children := [];
     _relations := [];
     _type := None;
     property_values := [] |}.

Definition key (self : SettingDefinition) : string := _key self.
Definition children (self : SettingDefinition) : list SettingDefinition := _children self.
Definition relations (self : SettingDefinition) : list SettingRelation.SettingRelation :=
  _relations self.

(** The class-level tables as the source initialises them. *)
Definition default_property_definitions : dict PropertyDefinition :=
  [ ("label", Property TranslatedString true true);
    ("type", Property String_ true true);
    ("icon", Property String_ false true);
    ("unit", Property String_ false true);
    ("description", Property TranslatedString true true);
    ("warning_description", Property TranslatedString false true);
    ("error_description", Property TranslatedString false true);
    ("default_value", Property Any false true);
    ("value", Property Function false false);
    ("enabled", Property Function false false);
    ("minimum_value", Property Function false false);
    ("maximum_value", Property Function false false);
    ("minimum_value_warning", Property Function false false);
    ("maximum_value_warning", Property Function false false);
    ("options", Property Any false true);
    ("comments", Property String_ false true) ].

Definition default_type_definitions : dict TypeDefinition :=
  [ ("int", SettingType (Some conv_str) (Some conv_literal_eval));
    ("bool", SettingType (Some conv_str) (Some conv_literal_eval));
    ("category", SettingType None None);
    ("str", SettingType None None);
    ("enum", SettingType None None);
    ("float", SettingType (Some conv_str) (Some conv_float_literal_eval));
    ("polygon", SettingType None None);
    ("polygons", SettingType None None);
    ("vec3", SettingType None None) ].

(** What the class reads from outside itself. *)
Record Env := {
  (** the current contents of the class attribute [__property_definitions] *)
  __property_definitions : dict PropertyDefinition;
  (** the current contents of the class attribute [__type_definitions] *)
  __type_definitions : dict TypeDefinition;
  (** [json.loads(text, object_pairs_hook = collections.OrderedDict)] *)
  json_loads : string -> result json;
  (** [str(value)] on a decoded value *)
  str : json -> string;
  (** [SettingFunction.SettingFunction(code)] *)
  new_SettingFunction : string -> result SettingFunction.SettingFunction }.

Section Class.
Variable E : Env.

(** [addSupportedProperty]: the table after the call. *)
Definition addSupportedProperty (name : string) (property_type : DefinitionPropertyType)
    (required read_only : bool) : dict PropertyDefinition :=
  dict_set name (Property property_type required read_only) (__property_definitions E).

Definition getPropertyNames (type_ : option DefinitionPropertyType) : list string :=
  map fst
    (filter (fun kv =>
               match type_ with
               | None => true
               | Some t => DefinitionPropertyType_eqb (type (snd kv)) t
               end)
            (__property_definitions E)).

Definition hasProperty (name : string) : bool := dict_in name (__property_definitions E).

Definition isRequiredProperty (name : string) : bool :=
  match dict_get name (__property_definitions E) with
  | Some d => required d
  | None => false
  end.

Definition isReadOnlyProperty (name : string) : bool :=
  match dict_get name (__property_definitions E) with
  | Some d => read_only d
  | None => false
  end.

(** [__getattr__], which Python calls for a name that normal lookup does not
    find. *)
Definition __getattr__ (self : SettingDefinition) (name : string) : result value :=
  match dict_in name (__property_definitions E), dict_get name (property_values self) with
  | true, Some v => Ok v
  | _, _ => Raise (AttributeError (NoAttribute name))
  end.

(** [getattr(self, name)] for the names the code of these files looks up
    by name: [key], which is a property of the class and found by normal
    lookup, and the names of definition properties, which normal lookup
    does not find and which go through [__getattr__].  The other names
    that normal lookup finds (the instance attributes, the properties
    [container], [parent], [children] and [relations], the methods) are
    not covered: the code never asks for them by name, and a caller's
    criterion of [findDefinitions] on one of them is outside the
    embedding. *)
Definition getattr (self : SettingDefinition) (name : string) : result value :=
  if name =? "key" then Ok (VJson (JStr (_key self))) else __getattr__ self name.

Definition hasattr (self : SettingDefinition) (name : string) : bool :=
  match getattr self name with
  | Ok _ => true
  | Raise _ => false
  end.


(** The loop of [findDefinitions] over the criteria: the flag
    [has_properties] starts [True] and is cleared by a criterion that the
    object does not meet or has no attribute for.  The criteria covered are
    those on the names that [getattr] above covers. *)
Definition has_properties (self : SettingDefinition) (kwargs : dict value) : bool :=
  fold_left
    (fun flag kv =>
       match getattr self (fst kv) with
       | Ok v => if value_eqb v (snd kv) then flag else false
       | Raise _ => false
       end)
    kwargs true.

(** [findDefinitions] with keyword arguments [kwargs]: the objects found,
    in the order the source appends them, each with its reference relative
    to [self] ([[]] is [self], [i :: p] is found at [p] below the [i]-th
    child). *)
Fixpoint findDefinitions (self : SettingDefinition) (kwargs : dict value) {struct self}
    : list (SettingRelation.ref * SettingDefinition) :=
  ((if has_properties self kwargs then [([], self)] else [])
   ++ SettingRelation.each_at (fun child => findDefinitions child kwargs) 0%nat
        (_children self))%list.

(** *** Deserialisation *)

(** [self._children = []; self._relations = []; self._type = "unknown"] *)
Definition reset (self : SettingDefinition) : SettingDefinition :=
  {| _key := _key self;
     _i18n_catalog := _i18n_catalog self;
     _children := [];
     _relations := [];
     _type := Some "unknown";
     property_values := property_values self |}.

(** [self.__property_values[key] = v] *)
Definition set_property (self : SettingDefinition) (key : string) (v : value) : SettingDefinition :=
  {| _key := _key self;
     _i18n_catalog := _i18n_catalog self;
     _children := _children self;
     _relations := _relations self;
     _type := _type self;
     property_values := dict_set key v (property_values self) |}.

(** [self._children.append(child)] *)
Definition append_child (self child : SettingDefinition) : SettingDefinition :=
  {| _key := _key self;
     _i18n_catalog := _i18n_catalog self;
     _children := _children self ++ [child];
     _relations := _relations self;
     _type := _type self;
     property_values := property_values self |}.

(** [self._relations.append(relation)] *)
Definition append_relation (self : SettingDefinition) (relation : SettingRelation.SettingRelation)
    : SettingDefinition :=
  {| _key := _key self;
     _i18n_catalog := _i18n_catalog self;
     _children := _children self;
     _relations := _relations self ++ [relation];
     _type := _type self;
     property_values := property_values self |}.

(** [if value not in self.__type_definitions: raise ValueError(...)]: the
    exception raised, if any.  A list or a dictionary is not hashable, so the
    membership test itself raises [TypeError]. *)
Definition check_type (value : json) : option exn :=
  match value with
  | JStr s => if dict_in s (__type_definitions E) then None else Some ValueError
  | JList _ | JObj _ => Some TypeError
  | JNull | JBool _ | JInt _ => Some ValueError
  end.

(** The body of the loop of [_deserialize_dict] for a key other than
    [children]. *)
Definition store_property (self : SettingDefinition) (key : string) (value : json)
    : run SettingDefinition :=
  match dict_get key (__property_definitions E) with
  | None => warn self (Log "w" "Unrecognised property %s in setting %s" [key; _key self])
  | Some definition =>
      match (if key =? "type" then check_type value else None) with
      | Some e => fail self e
      | None =>
          match type definition with
          | Any => done (set_property self key (VJson value))
          | String_ => done (set_property self key (VJson (JStr (str E value))))
          | TranslatedString =>
              done (set_property self key
                      (VJson (match _i18n_catalog self with
                              | Some catalog => JStr (catalog (str E value))
                              | None => value
                              end)))
          | Function =>
              match new_SettingFunction E (str E value) with
              | Ok f => done (set_property self key (VFunction f))
              | Raise e => fail self e
              end
          end
      end
  end.

(** The loop over [value.items()] for the key [children].  [dict_case] is
    [child._deserialize_dict] and [text_case] is what [child.deserialize]
    does with a string; any other value makes [json.loads] raise
    [TypeError].  A child is appended only after it has been deserialised. *)
Definition deserialize_children
    (dict_case : SettingDefinition -> json -> run SettingDefinition)
    (text_case : SettingDefinition -> string -> run SettingDefinition)
    : dict json -> SettingDefinition -> run SettingDefinition :=
  fix loop (items : dict json) (self : SettingDefinition) {struct items} :=
    match items with
    | [] => done self
    | (child_key, child_dict) :: rest =>
        let child := __init__ child_key (_i18n_catalog self) in
        let r := match child_dict with
                 | JObj _ => dict_case child child_dict
                 | JStr text => text_case child text
                 | JNull | JBool _ | JInt _ | JList _ => fail child TypeError
                 end in
        match raised r with
        | Some e => Run self (logged r) (Some e)
        | None =>
            let r' := loop rest (append_child self (state r)) in
            Run (state r') (logged r ++ logged r') (raised r')
        end
    end.

(** The loop [for key, value in serialized.items()]. *)
Definition deserialize_items
    (dict_case : SettingDefinition -> json -> run SettingDefinition)
    (text_case : SettingDefinition -> string -> run SettingDefinition)
    : dict json -> SettingDefinition -> run SettingDefinition :=
  fix loop (items : dict json) (self : SettingDefinition) {struct items} :=
    match items with
    | [] => done self
    | (key, value) :: rest =>
        let r := if key =? "children" then
                   match value with
                   | JObj children => deserialize_children dict_case text_case children self
                   | _ => fail self (AttributeError (NoAttribute "items"))
                   end
                 else store_property self key value in
        match raised r with
        | Some e => r
        | None =>
            let r' := loop rest (state r) in
            Run (state r') (logged r ++ logged r') (raised r')
        end
    end.

(** The first key of [filter(lambda i: defs[i]["required"], defs)] that is
    not in [self.__property_values]. *)
Definition first_missing_required (self : SettingDefinition) : option string :=
  find (fun key => negb (dict_in key (property_values self)))
       (filter isRequiredProperty (keys (__property_definitions E))).

(** The check that ends [_deserialize_dict]. *)
Definition check_required (r : run SettingDefinition) : run SettingDefinition :=
  match raised r with
  | Some e => r
  | None =>
      match first_missing_required (state r) with
      | Some key =>
          Run (state r) (logged r)
              (Some (AttributeError (MissingRequiredProperty (_key (state r)) key)))
      | None => r
      end
  end.

Fixpoint _deserialize_dict (text_case : SettingDefinition -> string -> run SettingDefinition)
    (self : SettingDefinition) (serialized : json) {struct serialized}
    : run SettingDefinition :=
  match serialized with
  | JObj items =>
      check_required
        (deserialize_items (_deserialize_dict text_case) text_case items (reset self))
  | _ => fail (reset self) (AttributeError (NoAttribute "items"))
  end.

(** [deserialize] of a string: [json.loads], then [_deserialize_dict].  A
    string inside the decoded document that stands for a child is decoded in
    turn; [depth] bounds how deep such strings nest, as the interpreter's
    recursion limit does, and [RecursionError] is raised past it. *)
Fixpoint deserialize_text (depth : nat) (self : SettingDefinition) (text : string)
    {struct depth} : run SettingDefinition :=
  match json_loads E text with
  | Raise e => fail self e
  | Ok parsed =>
      _deserialize_dict
        (match depth with
         | O => fun child _ => fail child RecursionError
         | S depth' => deserialize_text depth'
         end)
        self parsed
  end.

(** What [child.deserialize] does with a string when [depth] more levels of
    strings may follow. *)
Definition text_case (depth : nat) : SettingDefinition -> string -> run SettingDefinition :=
  match depth with
  | O => fun child _ => fail child RecursionError
  | S depth' => deserialize_text depth'
  end.

Definition deserialize (depth : nat) (self : SettingDefinition) (serialized : json)
    : run SettingDefinition :=
  match serialized with
  | JObj _ => _deserialize_dict (text_case depth) self serialized
  | JStr text => deserialize_text depth self text
  | JNull | JBool _ | JInt _ | JList _ => fail self TypeError
  end.

(** The loop of [_deserialize_dict] over the keys of a document, from the
    reset object: what [deserialize] runs before it checks the required
    properties. *)
Definition process_keys (depth : nat) (self : SettingDefinition) (items : dict json)
    : run SettingDefinition :=
  deserialize_items (_deserialize_dict (text_case depth)) (text_case depth) items (reset self).

End Class.
End SettingDefinition.

(* ===================================================================== *)
(** ** UM/Settings/DefinitionContainer.py *)
(* ===================================================================== *)

Module DefinitionContainer.
Import Py.

Definition Version : Z := 2.

(** The object.  [_name] is the constructor's [container_id] until
    [deserialize] stores the document's [name], which is any decoded value;
    so is [_metadata]. *)
Record DefinitionContainer := Build {
  _id : string;
  _name : json;
  _metadata : json;
  _definitions : list SettingDefinition.SettingDefinition;
  _i18n_catalog : option SettingDefinition.i18nCatalog }.

Definition __init__ (container_id : string) (i18n_catalog : option SettingDefinition.i18nCatalog)
    : DefinitionContainer :=
  {| _id := container_id;
     _name := JStr container_id;
     _metadata := JObj [];
     _definitions := [];
     _i18n_catalog := i18n_catalog |}.

Definition getId (self : DefinitionContainer) : string := _id self.
Definition getName (self : DefinitionContainer) : json := _name self.
Definition getMetaData (self : DefinitionContainer) : json := _metadata self.

(** *** References to definition objects *)

(** The object that a reference relative to [self] leads to. *)
Fixpoint descend (self : SettingDefinition.SettingDefinition) (p : SettingRelation.ref)
    : option SettingDefinition.SettingDefinition :=
  match p with
  | [] => Some self
  | i :: q =>
      match nth_error (SettingDefinition._children self) i with
      | Some child => descend child q
      | None => None
      end
  end.

(** The object that a reference leads to in a list of root definitions. *)
Definition deref (definitions : list SettingDefinition.SettingDefinition)
    (p : SettingRelation.ref) : option SettingDefinition.SettingDefinition :=
  match p with
  | [] => None
  | i :: q =>
      match nth_error definitions i with
      | Some root => descend root q
      | None => None
      end
  end.

(** [l] with [f] applied to its element at index [i]. *)
Fixpoint change_nth {A} (f : A -> A) (i : nat) (l : list A) : list A :=
  match l, i with
  | [], _ => []
  | x :: l', O => f x :: l'
  | x :: l', S j => x :: change_nth f j l'
  end.

Definition with_children (self : SettingDefinition.SettingDefinition)
    (children : list SettingDefinition.SettingDefinition) : SettingDefinition.SettingDefinition :=
  {| SettingDefinition._key := SettingDefinition._key self;
     SettingDefinition._i18n_catalog := SettingDefinition._i18n_catalog self;
     SettingDefinition._children := children;
     SettingDefinition._relations := SettingDefinition._relations self;
     SettingDefinition._type := SettingDefinition._type self;
     SettingDefinition.property_values := SettingDefinition.property_values self |}.

(** The tree below [self] after the object at the relative reference [p] has
    been mutated by [f]. *)
Fixpoint mutate_below (f : SettingDefinition.SettingDefinition -> SettingDefinition.SettingDefinition)
    (p : SettingRelation.ref) (self : SettingDefinition.SettingDefinition)
    : SettingDefinition.SettingDefinition :=
  match p with
  | [] => f self
  | i :: q => with_children self (change_nth (mutate_below f q) i (SettingDefinition._children self))
  end.

Definition mutate (f : SettingDefinition.SettingDefinition -> SettingDefinition.SettingDefinition)
    (p : SettingRelation.ref) (definitions : list SettingDefinition.SettingDefinition)
    : list SettingDefinition.SettingDefinition :=
  match p with
  | [] => definitions
  | i :: q => change_nth (mutate_below f q) i definitions
  end.

Definition with_definitions (self : DefinitionContainer)
    (definitions : list SettingDefinition.SettingDefinition) : DefinitionContainer :=
  {| _id := _id self;
     _name := _name self;
     _metadata := _metadata self;
     _definitions := definitions;
     _i18n_catalog := _i18n_catalog self |}.

(** [target.relations.append(relation)] for the object [target] of [self]. *)
Definition append_relation (self : DefinitionContainer) (target : SettingRelation.ref)
    (relation : SettingRelation.SettingRelation) : DefinitionContainer :=
  with_definitions self
    (mutate (fun d => SettingDefinition.append_relation d relation) target (_definitions self)).

(** The relation list of the object at a reference ([[]] when the reference
    leads nowhere). *)
Definition relations_at (self : DefinitionContainer) (p : SettingRelation.ref)
    : list SettingRelation.SettingRelation :=
  match deref (_definitions self) p with
  | Some d => SettingDefinition._relations d
  | None => []
  end.

Section Class.
Variable E : SettingDefinition.Env.
(** [json.load] of the file that
    [Resources.getPath(Resources.DefinitionContainers, name)] names. *)
Variable read_resource : string -> result json.

(** [findDefinitions] with keyword arguments [kwargs]: the objects found in
    all trees, in order, each with its reference. *)
Definition findDefinitions (self : DefinitionContainer) (kwargs : dict SettingDefinition.value)
    : list (SettingRelation.ref * SettingDefinition.SettingDefinition) :=
  SettingRelation.each_at (fun definition => SettingDefinition.findDefinitions E definition kwargs)
    0%nat (_definitions self).

Definition getValue (self : DefinitionContainer) (key : string) : result SettingDefinition.value :=
  match findDefinitions self [("key", SettingDefinition.VJson (JStr key))] with
  | [] => Ok SettingDefinition.None_
  | (_, definition) :: _ => SettingDefinition.getattr E definition "default_value"
  end.

Definition serialize (self : DefinitionContainer) : string := "".

(** *** Preparing the document *)

(** [_verifyJson]: the exception it raises, if any. *)
Definition _verifyJson (json_ : json) : option exn :=
  match py_in "version" json_ with
  | Raise e => Some e
  | Ok false => Some (InvalidDefinitionError "Missing required property 'version'")
  | Ok true =>
      match py_in "name" json_ with
      | Raise e => Some e
      | Ok false => Some (InvalidDefinitionError "Missing required property 'name'")
      | Ok true =>
          match py_getitem json_ "version" with
          | Raise e => Some e
          | Ok version =>
              if negb (py_eq version (JInt Version))
              then Some (IncorrectDefinitionVersionError version Version)
              else None
          end
      end
  end.

(** The loop of [_mergeDicts] over [second.items()], on the copy [result]. *)
Definition merge_items (_mergeDicts : json -> json -> result json)
    : dict json -> json -> result json :=
  fix loop (items : dict json) (result_ : json) {struct items} :=
    match items with
    | [] => Ok result_
    | (key, value) :: rest =>
        match py_in key result_ with
        | Raise e => Raise e
        | Ok present =>
            let assigned :=
              if present then
                match value with
                | JObj _ =>
                    match py_getitem result_ key with
                    | Raise e => Raise e
                    | Ok old =>
                        match _mergeDicts old value with
                        | Raise e => Raise e
                        | Ok merged => py_setitem result_ key merged
                        end
                    end
                | _ => py_setitem result_ key value
                end
              else py_setitem result_ key value in
            match assigned with
            | Raise e => Raise e
            | Ok result' => loop rest result'
            end
        end
    end.

Fixpoint _mergeDicts (first second : json) {struct second} : result json :=
  match second with
  | JObj items => merge_items _mergeDicts items first
  | _ => Raise (AttributeError (NoAttribute "items"))
  end.

(** [_loadFile]: [file_name + ".def.json"] needs a string. *)
Definition _loadFile (file_name : json) : result json :=
  match file_name with
  | JStr name => read_resource (name ++ ".def.json")
  | _ => Raise TypeError
  end.

(** [_resolveInheritance]; [limit] is the recursion limit, which a cycle of
    [inherits] runs into. *)
Fixpoint _resolveInheritance (limit : nat) (file_name : json) {struct limit} : result json :=
  match limit with
  | O => Raise RecursionError
  | S limit' =>
      match _loadFile file_name with
      | Raise e => Raise e
      | Ok json_ =>
          match _verifyJson json_ with
          | Some e => Raise e
          | None =>
              match py_in "inherits" json_ with
              | Raise e => Raise e
              | Ok false => Ok json_
              | Ok true =>
                  match py_getitem json_ "inherits" with
                  | Raise e => Raise e
                  | Ok base =>
                      match _resolveInheritance limit' base with
                      | Raise e => Raise e
                      | Ok inherited => _mergeDicts inherited json_
                      end
                  end
              end
          end
      end
  end.

(** [_findInDict].  What it returns is the very object it was given, or
    [None]: the results of the recursive calls are dropped, only their
    exceptions pass. *)
Fixpoint _findInDict (dict_ : json) (key : string) {struct dict_} : result (option json) :=
  match py_in key dict_ with
  | Raise e => Raise e
  | Ok true => Ok (Some dict_)
  | Ok false =>
      match dict_ with
      | JObj items =>
          (fix loop (items : dict json) {struct items} : result (option json) :=
             match items with
             | [] => Ok None
             | (dict_key, value) :: rest =>
                 match _findInDict value key with
                 | Raise e => Raise e
                 | Ok _ => loop rest
                 end
             end) items
      | _ => Raise (AttributeError (NoAttribute "items"))
      end
  end.

(** One round of the loop over [parsed["overrides"].items()]:
    [setting = self._findInDict(parsed["settings"], key)], then
    [setting.update(value)].  The object found is [parsed["settings"]]
    itself, so the update shows in [parsed]. *)
Definition apply_override (parsed : dict json) (key : string) (value : json)
    : result (dict json) :=
  match dict_get "settings" parsed with
  | None => Raise (KeyError "settings")
  | Some settings =>
      match _findInDict settings key with
      | Raise e => Raise e
      | Ok None => Raise (AttributeError (NoAttribute "update"))
      | Ok (Some (JObj setting)) =>
          match py_update setting value with
          | Raise e => Raise e
          | Ok setting' => Ok (dict_set "settings" (JObj setting') parsed)
          end
      | Ok (Some _) => Raise (AttributeError (NoAttribute "update"))
      end
  end.

Fixpoint apply_overrides (overrides : dict json) (parsed : dict json) {struct overrides}
    : result (dict json) :=
  match overrides with
  | [] => Ok parsed
  | (key, value) :: rest =>
      match apply_override parsed key value with
      | Raise e => Raise e
      | Ok parsed' => apply_overrides rest parsed'
      end
  end.

(** The part of [deserialize] between [_verifyJson] and the check for
    [metadata]: inheritance, then overrides. *)
Definition preprocess (limit : nat) (parsed : json) : result json :=
  let inherited :=
    match py_in "inherits" parsed with
    | Raise e => Raise e
    | Ok false => Ok parsed
    | Ok true =>
        match py_getitem parsed "inherits" with
        | Raise e => Raise e
        | Ok base =>
            match _resolveInheritance limit base with
            | Raise e => Raise e
            | Ok inherited => _mergeDicts inherited parsed
            end
        end
    end in
  match inherited with
  | Raise e => Raise e
  | Ok parsed =>
      match py_in "overrides" parsed with
      | Raise e => Raise e
      | Ok false => Ok parsed
      | Ok true =>
          match parsed, py_getitem parsed "overrides" with
          | JObj fields, Ok overrides =>
              match py_items overrides with
              | Raise e => Raise e
              | Ok items =>
                  match apply_overrides items fields with
                  | Raise e => Raise e
                  | Ok fields' => Ok (JObj fields')
                  end
              end
          | _, Raise e => Raise e
          | _, Ok _ => Raise TypeError
          end
      end
  end.

(** *** Relations *)

(** One round of the loop of [_processFunction], for the used key
    [setting].  [at_] is the reference of [definition]. *)
Definition relate (at_ : SettingRelation.ref) (definition : SettingDefinition.SettingDefinition)
    (property : string) (setting : string) (self : DefinitionContainer)
    : run DefinitionContainer :=
  match findDefinitions self [("key", SettingDefinition.VJson (JStr setting))] with
  | [] =>
      warn self (Log "w" "Function for definition %s references unknown definition %s"
                     [SettingDefinition.key definition; setting])
  | (other, _) :: _ =>
      let self1 :=
        append_relation self at_
          (SettingRelation.Build at_ other SettingRelation.RequiresTarget property) in
      let self2 :=
        append_relation self1 other
          (SettingRelation.Build other at_ SettingRelation.RequiredByTarget property) in
      done self2
  end.

(** [_processFunction]: [function.getUsedSettings()] needs [function] to be
    a [SettingFunction]. *)
Definition _processFunction (at_ : SettingRelation.ref)
    (definition : SettingDefinition.SettingDefinition) (property : string)
    (self : DefinitionContainer) : run DefinitionContainer :=
  match SettingDefinition.getattr E definition property with
  | Raise e => fail self e
  | Ok (SettingDefinition.VJson _) => fail self (AttributeError (NoAttribute "getUsedSettings"))
  | Ok (SettingDefinition.VFunction function) =>
      for_each (relate at_ definition property) (SettingFunction.getUsedSettings function) self
  end.

(** [_updateRelations(definition)], where [at_] is the reference of
    [definition].  The key, the property values and the children of an
    object do not change while relations are built, so they are read from
    [definition] as it was when the walk started; the relation lists are
    those of [self]. *)
Fixpoint _updateRelations (at_ : SettingRelation.ref)
    (definition : SettingDefinition.SettingDefinition) (self : DefinitionContainer)
    {struct definition} : run DefinitionContainer :=
  and_then
    (for_each
       (fun property self =>
          if SettingDefinition.hasattr E definition property
          then _processFunction at_ definition property self
          else done self)
       (SettingDefinition.getPropertyNames E (Some SettingDefinition.Function)) self)
    (for_each_from
       (fun i child => _updateRelations (at_ ++ [i])%list child)
       0%nat (SettingDefinition.children definition)).

(** *** Deserialisation *)

(** The body of the loop over [parsed["settings"].items()]; a definition
    joins [_definitions] only after it has been deserialised. *)
Definition load_setting (depth : nat) (entry : string * json) (self : DefinitionContainer)
    : run DefinitionContainer :=
  let definition := SettingDefinition.__init__ (fst entry) (_i18n_catalog self) in
  let r := SettingDefinition.deserialize E depth definition (snd entry) in
  match raised r with
  | Some e => Run self (logged r) (Some e)
  | None => Run (with_definitions self (_definitions self ++ [state r])) (logged r) None
  end.

(** [self._name = name] *)
Definition set_name (self : DefinitionContainer) (name : json) : DefinitionContainer :=
  {| _id := _id self;
     _name := name;
     _metadata := _metadata self;
     _definitions := _definitions self;
     _i18n_catalog := _i18n_catalog self |}.

(** [self._metadata = metadata] *)
Definition set_metadata (self : DefinitionContainer) (metadata : json) : DefinitionContainer :=
  {| _id := _id self;
     _name := _name self;
     _metadata := metadata;
     _definitions := _definitions self;
     _i18n_catalog := _i18n_catalog self |}.

(** The second half of [deserialize], on the document with inheritance and
    overrides resolved. *)
Definition load (limit : nat) (parsed : json) (self : DefinitionContainer)
    : run DefinitionContainer :=
  match py_in "metadata" parsed with
  | Raise e => fail self e
  | Ok false => fail self (InvalidDefinitionError "Missing required metadata section")
  | Ok true =>
      match py_in "settings" parsed with
      | Raise e => fail self e
      | Ok false => fail self (InvalidDefinitionError "Missing required settings section")
      | Ok true =>
          match py_getitem parsed "name" with
          | Raise e => fail self e
          | Ok name =>
              let self1 := set_name self name in
              match py_getitem parsed "metadata" with
              | Raise e => fail self1 e
              | Ok metadata =>
                  let self2 := set_metadata self1 metadata in
                  match py_getitem parsed "settings" with
                  | Raise e => fail self2 e
                  | Ok settings =>
                      match py_items settings with
                      | Raise e => fail self2 e
                      | Ok items =>
                          and_then
                            (for_each (load_setting limit) items self2)
                            (fun self3 =>
                               for_each_from (fun i definition => _updateRelations [i] definition)
                                 0%nat (_definitions self3) self3)
                      end
                  end
              end
          end
      end
  end.

(** [deserialize]; [limit] is the recursion limit of the interpreter. *)
Definition deserialize (limit : nat) (self : DefinitionContainer) (serialized : string)
    : run DefinitionContainer :=
  match SettingDefinition.json_loads E serialized with
  | Raise e => fail self e
  | Ok parsed =>
      match _verifyJson parsed with
      | Some e => fail self e
      | None =>
          match preprocess limit parsed with
          | Raise e => fail self e
          | Ok parsed' => load limit parsed' self
          end
      end
  end.

End Class.
End DefinitionContainer.

(* ===================================================================== *)
(** ** Collaborators of the container stack *)
(* ===================================================================== *)

(** Modelled from the spec: the instance container, a collaborator outside
    the core that holds user-supplied values for settings.  A stack asks it
    for its id and for the value of a key. *)
Module InstanceContainer.
Import Py.

Record InstanceContainer := Build {
  getId : string;
  getMetaData : dict string;
  getValue : string -> result SettingDefinition.value }.

End InstanceContainer.

(** The state of a [configparser.ConfigParser(interpolation = None,
    empty_lines_in_values = False)] object and the operations on it that the
    stack uses, after the library's documentation: option names go through
    [optionxform] (lower case), and a section read through its proxy falls
    back to the [DEFAULT] section.  The text format itself ([write],
    [read_string]) is a field of [ContainerStack.Env]. *)
Module ConfigParser.
Import Py.

Record ConfigParser := Build {
  _defaults : dict string;
  _sections : dict (dict string) }.

Definition new : ConfigParser := Build [] [].

Definition default_section : string := "DEFAULT".

Definition lower_ascii (c : ascii) : ascii :=
  let n := nat_of_ascii c in
  if (65 <=? n)%nat && (n <=? 90)%nat then ascii_of_nat (n + 32) else c.

(** [str.lower] on the ASCII letters. *)
Fixpoint optionxform (s : string) : string :=
  match s with
  | EmptyString => EmptyString
  | String c s' => String (lower_ascii c) (optionxform s')
  end.

(** [parser[name] = {}] *)
Definition set_empty_section (name : string) (parser : ConfigParser) : ConfigParser :=
  if name =? default_section
  then Build [] (_sections parser)
  else Build (_defaults parser) (dict_set name [] (_sections parser)).

(** [parser[section][name] = value], for a section that exists. *)
Definition set (section name value : string) (parser : ConfigParser) : ConfigParser :=
  if section =? default_section
  then Build (dict_set (optionxform name) value (_defaults parser)) (_sections parser)
  else
    match dict_get section (_sections parser) with
    | Some options =>
        Build (_defaults parser)
              (dict_set section (dict_set (optionxform name) value options) (_sections parser))
    | None => parser
    end.

(** [name in parser] *)
Definition has_section (name : string) (parser : ConfigParser) : bool :=
  (name =? default_section) || dict_in name (_sections parser).

(** The options of a section proper, without the defaults. *)
Definition own_options (section : string) (parser : ConfigParser) : dict string :=
  if section =? default_section then []
  else match dict_get section (_sections parser) with
       | Some options => options
       | None => []
       end.

(** [parser[section].get(name)], for a section that exists: the section's
    own option, else the default. *)
Definition get (section name : string) (parser : ConfigParser) : option string :=
  match dict_get (optionxform name) (own_options section parser) with
  | Some v => Some v
  | None => dict_get (optionxform name) (_defaults parser)
  end.

(** [parser.has_option(section, name)], which [name in parser[section]]
    calls: false for a section that does not exist. *)
Definition has_option (section name : string) (parser : ConfigParser) : bool :=
  if has_section section parser
  then match get section name parser with Some _ => true | None => false end
  else false.

(** [dict(parser[section])]: the section's own options in their order, then
    the defaults it does not override. *)
Definition items (section : string) (parser : ConfigParser) : dict string :=
  let own := own_options section parser in
  (own ++ filter (fun kv => negb (dict_in (fst kv) own)) (_defaults parser))%list.

End ConfigParser.

(* ===================================================================== *)
(** ** UM/Settings/ContainerStack.py *)
(* ===================================================================== *)

Module ContainerStack.
Import Py.

Definition Version : Z := 2.

(** What a stack holds: a definition container, an instance container or
    another stack. *)
Inductive Container (Stack : Type) :=
| Definitions (c : DefinitionContainer.DefinitionContainer)
| Instances (c : InstanceContainer.InstanceContainer)
| Stack_ (s : Stack).
Arguments Definitions {Stack} c.
Arguments Instances {Stack} c.
Arguments Stack_ {Stack} s.

(** The object.  [address] tells which object it is: [is] and the default
    [==] compare objects by it.  The constructor's [stack_id] is a string. *)
Inductive ContainerStack := Build {
  address : nat;
  _id : string;
  _name : string;
  _metadata : dict string;
  _containers : list (Container ContainerStack);
  _next_stack : option ContainerStack }.

Definition __init__ (address : nat) (stack_id : string) : ContainerStack :=
  {| address := address;
     _id := stack_id;
     _name := stack_id;
     _metadata := [];
     _containers := [];
     _next_stack := None |}.

Definition getId (self : ContainerStack) : string := _id self.
Definition getName (self : ContainerStack) : string := _name self.
Definition getMetaData (self : ContainerStack) : dict string := _metadata self.
Definition getContainers (self : ContainerStack) : list (Container ContainerStack) :=
  _containers self.
Definition getNextStack (self : ContainerStack) : option ContainerStack := _next_stack self.

Definition getMetaDataEntry (self : ContainerStack) (entry : string) (default : option string)
    : option string :=
  match dict_get entry (_metadata self) with
  | Some v => Some v
  | None => default
  end.

(** [container.getId()] *)
Definition container_getId (container : Container ContainerStack) : string :=
  match container with
  | Definitions c => DefinitionContainer.getId c
  | Instances c => InstanceContainer.getId c
  | Stack_ s => getId s
  end.

(** [container is self] *)
Definition is_ (container : Container ContainerStack) (self : ContainerStack) : bool :=
  match container with
  | Stack_ s => (address s =? address self)%nat
  | Definitions _ | Instances _ => false
  end.

Definition with_containers (self : ContainerStack) (containers : list (Container ContainerStack))
    : ContainerStack :=
  {| address := address self;
     _id := _id self;
     _name := _name self;
     _metadata := _metadata self;
     _containers := containers;
     _next_stack := _next_stack self |}.

Definition setNextStack (self : ContainerStack) (stack : option ContainerStack) : ContainerStack :=
  {| address := address self;
     _id := _id self;
     _name := _name self;
     _metadata := _metadata self;
     _containers := _containers self;
     _next_stack := stack |}.

(** *** Indexing a Python list *)

(** An argument passed as an index: an integer, or an object that a list
    rejects as an index with [TypeError] (a string, [None]) and that is not
    equal to [-1]. *)
Inductive index :=
| Int (i : Z)
| NotAnIndex.

(** The position an integer index stands for in a list of length [n]: a
    negative index counts from the end. *)
Definition position (n : nat) (i : Z) : option nat :=
  let j := if (i <? 0)%Z then (i + Z.of_nat n)%Z else i in
  if (0 <=? j)%Z && (j <? Z.of_nat n)%Z then Some (Z.to_nat j) else None.

(** [l[i]] *)
Definition list_getitem {A} (l : list A) (i : index) : result A :=
  match i with
  | NotAnIndex => Raise TypeError
  | Int z =>
      match position (List.length l) z with
      | Some k => match nth_error l k with Some x => Ok x | None => Raise IndexError end
      | None => Raise IndexError
      end
  end.

Fixpoint replace_nth {A} (k : nat) (x : A) (l : list A) : list A :=
  match l, k with
  | [], _ => []
  | _ :: l', O => x :: l'
  | y :: l', S k' => y :: replace_nth k' x l'
  end.

Fixpoint remove_nth {A} (k : nat) (l : list A) : list A :=
  match l, k with
  | [], _ => []
  | _ :: l', O => l'
  | y :: l', S k' => y :: remove_nth k' l'
  end.

(** [l[i] = x] *)
Definition list_setitem {A} (l : list A) (i : index) (x : A) : result (list A) :=
  match i with
  | NotAnIndex => Raise TypeError
  | Int z =>
      match position (List.length l) z with
      | Some k => Ok (replace_nth k x l)
      | None => Raise IndexError
      end
  end.

(** [del l[i]] *)
Definition list_delitem {A} (l : list A) (i : index) : result (list A) :=
  match i with
  | NotAnIndex => Raise TypeError
  | Int z =>
      match position (List.length l) z with
      | Some k => Ok (remove_nth k l)
      | None => Raise IndexError
      end
  end.

(** [index == -1] *)
Definition is_minus_one (i : index) : bool :=
  match i with
  | Int z => (z =? -1)%Z
  | NotAnIndex => false
  end.

(** *** Access by index *)

Definition getContainer (self : ContainerStack) (i : index)
    : result (Container ContainerStack) :=
  if is_minus_one i then Raise IndexError
  else list_getitem (_containers self) i.

Definition addContainer (self : ContainerStack) (container : Container ContainerStack)
    : run ContainerStack :=
  if negb (is_ container self)
  then done (with_containers self (container :: _containers self))
  else fail self (Exception_ "Unable to add stack to itself.").

Definition replaceContainer (self : ContainerStack) (i : index)
    (container : Container ContainerStack) : run ContainerStack :=
  if is_minus_one i then fail self IndexError
  else if is_ container self
  then fail self (Exception_ "Unable to replace container with ContainerStack (self) ")
  else
    match list_setitem (_containers self) i container with
    | Ok containers => done (with_containers self containers)
    | Raise e => fail self e
    end.

(** [removeContainer]: a [TypeError] of the deletion is turned into an
    [IndexError]. *)
Definition removeContainer (self : ContainerStack) (i : index) : run ContainerStack :=
  if is_minus_one i then fail self IndexError
  else
    match list_delitem (_containers self) i with
    | Ok containers => done (with_containers self containers)
    | Raise TypeError => fail self IndexError
    | Raise e => fail self e
    end.

(** *** Splitting and joining the list of container ids *)

(** [text.split(",")] *)
Definition split_commas (text : string) : list string := split_char ","%char text.

(** The loop that builds [container_id_string]. *)
Definition join_ids (containers : list (Container ContainerStack)) : string :=
  fold_left (fun container_id_string container =>
               container_id_string ++ container_getId container ++ ",")
            containers "".

(** [str(n)] for an integer. *)
Definition str_int (n : Z) : string :=
  NilZero.string_of_int (Z.to_int n).

(** What the stack reads from outside itself. *)
Record Env := {
  settings : SettingDefinition.Env;
  (** [parser.write(stream); stream.getvalue()] *)
  write : ConfigParser.ConfigParser -> string;
  (** [parser.read_string(serialized)] on a new parser *)
  read_string : string -> result ConfigParser.ConfigParser;
  (** [int(text)], which [getint] applies to the option's text *)
  int_ : string -> result Z;
  (** [ContainerRegistry.getInstance().findDefinitionContainers(id = ...)] *)
  findDefinitionContainers : string -> list DefinitionContainer.DefinitionContainer;
  (** [ContainerRegistry.getInstance().findInstanceContainers(id = ...)] *)
  findInstanceContainers : string -> list InstanceContainer.InstanceContainer;
  (** [ContainerRegistry.getInstance().findContainerStacks(id = ...)] *)
  findContainerStacks : string -> list ContainerStack }.

Section Class.
Variable E : Env.

(** *** Layered lookup *)

(** [container.getValue(key)], where [stack_getValue] is the method of a
    stack. *)
Definition container_getValue
    (stack_getValue : ContainerStack -> string -> result SettingDefinition.value)
    (key : string) (container : Container ContainerStack) : result SettingDefinition.value :=
  match container with
  | Definitions c => DefinitionContainer.getValue (settings E) c key
  | Instances c => InstanceContainer.getValue c key
  | Stack_ s => stack_getValue s key
  end.

(** The loop of [getValue] over the containers; [otherwise] is what the
    code after the loop returns. *)
Definition first_value (get : Container ContainerStack -> result SettingDefinition.value)
    (otherwise : result SettingDefinition.value)
    : list (Container ContainerStack) -> result SettingDefinition.value :=
  fix loop (containers : list (Container ContainerStack)) {struct containers} :=
    match containers with
    | [] => otherwise
    | container :: rest =>
        match get container with
        | Raise e => Raise e
        | Ok value => if negb (SettingDefinition.is_None value) then Ok value else loop rest
        end
    end.

Fixpoint getValue (self : ContainerStack) (key : string) {struct self}
    : result SettingDefinition.value :=
  first_value (container_getValue getValue key)
    (match _next_stack self with
     | Some next_stack => getValue next_stack key
     | None => Ok SettingDefinition.None_
     end)
    (_containers self).

(** *** Serialisation *)

(** The parser that [serialize] fills before it writes it. *)
Definition serialize_parser (self : ContainerStack) : ConfigParser.ConfigParser :=
  let parser := ConfigParser.new in
  let parser := ConfigParser.set_empty_section "general" parser in
  let parser := ConfigParser.set "general" "version" (str_int Version) parser in
  let parser := ConfigParser.set "general" "name" (_name self) parser in
  let parser := ConfigParser.set "general" "id" (_id self) parser in
  let parser := ConfigParser.set_empty_section "metadata" parser in
  let parser := fold_left (fun parser kv => ConfigParser.set "metadata" (fst kv) (snd kv) parser)
                          (_metadata self) parser in
  let container_id_string := join_ids (_containers self) in
  ConfigParser.set "general" "containers" container_id_string parser.

Definition serialize (self : ContainerStack) : string :=
  write E (serialize_parser self).

(** The three probes of the registry for one id: definition containers
    first, then instance containers, then stacks; the first hit of the first
    probe that finds something. *)
Definition find_container (container_id : string) : option (Container ContainerStack) :=
  match findDefinitionContainers E container_id with
  | c :: _ => Some (Definitions c)
  | [] =>
      match findInstanceContainers E container_id with
      | c :: _ => Some (Instances c)
      | [] =>
          match findContainerStacks E container_id with
          | s :: _ => Some (Stack_ s)
          | [] => None
          end
      end
  end.

(** The body of the loop over [container_id_list]. *)
Definition resolve (container_id : string) (self : ContainerStack) : run ContainerStack :=
  if negb (container_id =? "") then
    match find_container container_id with
    | Some container => done (with_containers self (_containers self ++ [container]))
    | None =>
        fail self
          (Exception_ "When trying to deserialize, we recieved an unknown ID for container")
    end
  else done self.

(** [self._name = ...; self._id = ...] and, when the document has a
    [metadata] section, [self._metadata = dict(parser["metadata"])]. *)
Definition set_general (self : ContainerStack) (name id : string) (metadata : option (dict string))
    : ContainerStack :=
  {| address := address self;
     _id := id;
     _name := name;
     _metadata := match metadata with Some m => m | None => _metadata self end;
     _containers := _containers self;
     _next_stack := _next_stack self |}.

Definition deserialize (self : ContainerStack) (serialized : string) : run ContainerStack :=
  match read_string E serialized with
  | Raise e => fail self e
  | Ok parser =>
      if negb (ConfigParser.has_section "general" parser)
         || negb (ConfigParser.has_option "general" "version" parser)
         || negb (ConfigParser.has_option "general" "name" parser)
         || negb (ConfigParser.has_option "general" "id" parser)
      then fail self InvalidContainerStackError
      else
        match ConfigParser.get "general" "version" parser,
              ConfigParser.get "general" "name" parser,
              ConfigParser.get "general" "id" parser with
        | Some version, Some name, Some id =>
            match int_ E version with
            | Raise e => fail self e
            | Ok n =>
                if negb (n =? Version)%Z then fail self IncorrectVersionError
                else
                  let self1 :=
                    set_general self name id
                      (if ConfigParser.has_section "metadata" parser
                       then Some (ConfigParser.items "metadata" parser)
                       else None) in
                  let container_id_list :=
                    split_commas
                      (match ConfigParser.get "general" "containers" parser with
                       | Some text => text
                       | None => ""
                       end) in
                  for_each resolve container_id_list self1
            end
        | _, _, _ => fail self InvalidContainerStackError
        end
  end.

End Class.
(** *** Name and lookup by metadata *)

(** [setName]: the stack after the call, and whether [nameChanged] was
    emitted. *)
Definition setName (self : ContainerStack) (name : string) : ContainerStack * bool :=
  if negb (name =? _name self)
  then ({| address := address self;
           _id := _id self;
           _name := name;
           _metadata := _metadata self;
           _containers := _containers self;
           _next_stack := _next_stack self |}, true)
  else (self, false).

(** A dictionary of strings as the Python value it is. *)
Definition as_json (d : dict string) : json := JObj (map (fun kv => (fst kv, JStr (snd kv))) d).

(** [container.getMetaData()]: the metadata of a definition container is
    whatever its document gave, that of the other containers a dictionary
    of strings. *)
Definition container_getMetaData (container : Container ContainerStack) : json :=
  match container with
  | Definitions c => DefinitionContainer.getMetaData c
  | Instances c => as_json (InstanceContainer.getMetaData c)
  | Stack_ s => as_json (getMetaData s)
  end.

(** The loop of [findContainer] over the keys of [filter], for one
    container: [match] when it ends.  Only [KeyError] is caught. *)
Fixpoint matches (meta_data : json) (filter_ : dict json) : result bool :=
  match filter_ with
  | [] => Ok true
  | (key, wanted) :: rest =>
      match py_getitem meta_data key with
      | Ok found => if py_eq found wanted then matches meta_data rest else Ok false
      | Raise (KeyError _) => Ok false
      | Raise e => Raise e
      end
  end.

(** [findContainer(filter)]: the first container that matches, or [None]. *)
Definition findContainer (self : ContainerStack) (filter_ : dict json)
    : result (option (Container ContainerStack)) :=
  (fix loop (containers : list (Container ContainerStack)) {struct containers} :=
     match containers with
     | [] => Ok None
     | container :: rest =>
         match matches (container_getMetaData container) filter_ with
         | Raise e => Raise e
         | Ok true => Ok (Some container)
         | Ok false => loop rest
         end
     end) (_containers self).

End ContainerStack.

(* ===================================================================== *)
(** ** Concrete collaborators, to run the embedding on examples *)
(* ===================================================================== *)

Module Sample.
Import Py.

(** A decoder given by the documents it knows: [table] lists each text
    with the value it decodes to. *)
Definition decode (table : dict json) (text : string) : result json :=
  match dict_get text table with
  | Some j => Ok j
  | None => Raise (CollaboratorError "json.loads")
  end.

(** [str] on the values whose text does not depend on a representation of
    floats or containers. *)
Definition str (j : json) : string :=
  match j with
  | JStr s => s
  | JInt z => NilZero.string_of_int (Z.to_int z)
  | JBool true => "True"
  | JBool false => "False"
  | JNull => "None"
  | JList _ => "[...]"
  | JObj _ => "OrderedDict(...)"
  end.

(** A compiler for the expressions that are one setting key: the key is
    the only setting used. *)
Definition compile (code : string) : result SettingFunction.SettingFunction :=
  Ok (SettingFunction.Build code [code]).

(** The environment of the setting classes: the tables as the source
    initialises them, and the decoder for [table]. *)
Definition settings (table : dict json) : SettingDefinition.Env :=
  {| SettingDefinition.__property_definitions := SettingDefinition.default_property_definitions;
     SettingDefinition.__type_definitions := SettingDefinition.default_type_definitions;
     SettingDefinition.json_loads := decode table;
     SettingDefinition.str := str;
     SettingDefinition.new_SettingFunction := compile |}.

(** No resource can be read. *)
Definition no_resources (name : string) : result json :=
  Raise (CollaboratorError "Resources.getPath").

(** *** A reader and a writer for the INI text of a parser *)

Definition newline : string := String (ascii_of_nat 10) EmptyString.

Definition write_option (kv : string * string) : string :=
  fst kv ++ " = " ++ snd kv ++ newline.

Definition write_section (section : string * dict string) : string :=
  "[" ++ fst section ++ "]" ++ newline
  ++ String.concat "" (map write_option (snd section)) ++ newline.

Definition write (parser : ConfigParser.ConfigParser) : string :=
  (match ConfigParser._defaults parser with
   | [] => ""
   | defaults => write_section (ConfigParser.default_section, defaults)
   end)
  ++ String.concat "" (map write_section (ConfigParser._sections parser)).

Fixpoint lstrip (s : string) : string :=
  match s with
  | String c rest => if Ascii.eqb c " "%char then lstrip rest else s
  | EmptyString => EmptyString
  end.

Fixpoint rstrip (s : string) : string :=
  match s with
  | EmptyString => EmptyString
  | String c rest =>
      match rstrip rest with
      | EmptyString => if Ascii.eqb c " "%char then EmptyString else String c EmptyString
      | kept => String c kept
      end
  end.

Definition strip (s : string) : string := lstrip (rstrip s).

(** The name in a section header [[name]]. *)
Definition header (line : string) : option string :=
  match line with
  | String "["%char rest =>
      match index 0 "]" rest with
      | Some n => Some (substring 0 n rest)
      | None => None
      end
  | _ => None
  end.

(** One line read into the parser; the second component is the section
    that option lines go to. *)
Definition read_line (acc : result (ConfigParser.ConfigParser * option string)) (line : string)
    : result (ConfigParser.ConfigParser * option string) :=
  match acc with
  | Raise e => Raise e
  | Ok (parser, current) =>
      if strip line =? "" then Ok (parser, current)
      else
        match header line with
        | Some name =>
            if ConfigParser.has_section name parser && negb (name =? ConfigParser.default_section)
            then Raise (CollaboratorError "DuplicateSectionError")
            else Ok (if name =? ConfigParser.default_section then parser
                     else ConfigParser.set_empty_section name parser,
                     Some name)
        | None =>
            match current, index 0 "=" line with
            | Some section, Some n =>
                Ok (ConfigParser.set section
                      (strip (substring 0 n line))
                      (strip (substring (S n) (String.length line - S n) line))
                      parser,
                    current)
            | None, _ => Raise (CollaboratorError "MissingSectionHeaderError")
            | _, None => Raise (CollaboratorError "ParsingError")
            end
        end
  end.

Definition read_string (text : string) : result ConfigParser.ConfigParser :=
  match fold_left read_line (split_char (ascii_of_nat 10) text) (Ok (ConfigParser.new, None)) with
  | Ok (parser, _) => Ok parser
  | Raise e => Raise e
  end.

(** [int] on an optional minus sign followed by decimal digits. *)
Definition int_ (text : string) : result Z :=
  match NilZero.int_of_string text with
  | Some n => Ok (Z.of_int n)
  | None => Raise ValueError
  end.

(** A registry given by the containers registered in it. *)
Definition by_id {A} (getId : A -> string) (registered : list A) (id : string) : list A :=
  filter (fun c => getId c =? id) registered.

Definition env (table : dict json)
    (definitions : list DefinitionContainer.DefinitionContainer)
    (instances : list InstanceContainer.InstanceContainer)
    (stacks : list ContainerStack.ContainerStack) : ContainerStack.Env :=
  {| ContainerStack.settings := settings table;
     ContainerStack.write := write;
     ContainerStack.read_string := read_string;
     ContainerStack.int_ := int_;
     ContainerStack.findDefinitionContainers := by_id DefinitionContainer.getId definitions;
     ContainerStack.findInstanceContainers := by_id InstanceContainer.getId instances;
     ContainerStack.findContainerStacks := by_id ContainerStack.getId stacks |}.

(** An instance container that holds the values [values]. *)
Definition instance (id : string) (values : dict SettingDefinition.value)
    : InstanceContainer.InstanceContainer :=
  {| InstanceContainer.getId := id;
     InstanceContainer.getMetaData := [];
     InstanceContainer.getValue :=
       fun key => match dict_get key values with
                  | Some v => Ok v
                  | None => Ok SettingDefinition.None_
                  end |}.

End Sample.


(* ===================================================================== *)
(** ** Properties of the container stack *)
(* ===================================================================== *)

Module StackProofs.
Import Py ContainerStack.

(** *** Lists under a Python index *)





Lemma position_past_end (n : nat) (i : Z) :
  (Z.of_nat n <= i)%Z -> position n i = None.
Proof.
  intro H. unfold position.
  assert (H0 : (i <? 0)%Z = false) by (apply Z.ltb_ge; lia).
  rewrite H0.
  assert (H1 : (i <? Z.of_nat n)%Z = false) by (apply Z.ltb_ge; lia).
  rewrite H1. now rewrite andb_false_r.
Qed.

(** C8.  Index validation: [getContainer(-1)], [replaceContainer(-1, x)] and
    [removeContainer(-1)] raise [IndexError] and leave the stack, its list of
    containers included, as it was; so does [removeContainer(i)] for an
    index [i] that is not below the number of containers. *)
Theorem index_validation (self : ContainerStack) (x : Container ContainerStack) :
  getContainer self (Int (-1)) = Raise IndexError
  /\ replaceContainer self (Int (-1)) x = fail self IndexError
  /\ removeContainer self (Int (-1)) = fail self IndexError
  /\ (forall i : Z,
        (Z.of_nat (List.length (_containers self)) <= i)%Z ->
        removeContainer self (Int i) = fail self IndexError).
Proof.
  repeat split; try reflexivity.
  intros i Hi. unfold removeContainer.
  assert (H : is_minus_one (Int i) = false)
    by (unfold is_minus_one; apply Z.eqb_neq; lia).
  rewrite H. unfold list_delitem.
  now rewrite (position_past_end _ _ Hi).
Qed.


Definition two_instances : ContainerStack :=
  Build 1 "stack" "stack" []
        [Instances (Sample.instance "c1" []); Instances (Sample.instance "c2" [])] None.

Lemma index_validation_witness :
  removeContainer two_instances (Int 2) = fail two_instances IndexError.
Proof.
  apply (proj2 (proj2 (proj2 (index_validation two_instances
                                (Instances (Sample.instance "c3" [])))))).
  simpl. lia.
Defined.


(** *** Layered lookup *)

Section Lookup.
Variable E : Env.

Lemma getValue_unfold (self : ContainerStack) (key : string) :
  getValue E self key
  = first_value (container_getValue E (getValue E) key)
      (match _next_stack self with
       | Some next_stack => getValue E next_stack key
       | None => Ok SettingDefinition.None_
       end)
      (_containers self).
Proof. destruct self; reflexivity. Qed.

Lemma is_None_iff (v : SettingDefinition.value) :
  SettingDefinition.is_None v = true <-> v = SettingDefinition.None_.
Proof.
  split.
  - destruct v as [[]|]; simpl; intro H; try discriminate; reflexivity.
  - intros ->. reflexivity.
Qed.

(** Containers that answer [None] are passed over. *)
Lemma first_value_skip get otherwise (pre rest : list (Container ContainerStack)) :
  Forall (fun c => get c = Ok SettingDefinition.None_) pre ->
  first_value get otherwise (pre ++ rest) = first_value get otherwise rest.
Proof.
  induction 1 as [|c pre Hc _ IH]; simpl; [reflexivity|].
  rewrite Hc. simpl. exact IH.
Qed.

(** The first container that answers something else decides. *)
Lemma first_value_hit get otherwise (c : Container ContainerStack) rest v :
  get c = Ok v -> v <> SettingDefinition.None_ ->
  first_value get otherwise (c :: rest) = Ok v.
Proof.
  intros Hc Hv. simpl. rewrite Hc.
  destruct (SettingDefinition.is_None v) eqn:Hn; [|reflexivity].
  apply is_None_iff in Hn. contradiction.
Qed.

(** C1.  Layered lookup.  [getValue] asks the containers in order from
    index 0.  When the containers before [c] all answer [None] and [c]
    answers a value that is not [None], that value is the result.  When all
    containers answer [None], the result is what the next stack's
    [getValue] returns if a next stack is set, and [None] otherwise. *)
Theorem getValue_layered (self : ContainerStack) (key : string) :
  let answer := container_getValue E (getValue E) key in
  (forall pre c post v,
      _containers self = (pre ++ c :: post)%list ->
      Forall (fun c' => answer c' = Ok SettingDefinition.None_) pre ->
      answer c = Ok v ->
      v <> SettingDefinition.None_ ->
      getValue E self key = Ok v)
  /\ (Forall (fun c' => answer c' = Ok SettingDefinition.None_) (_containers self) ->
      getValue E self key
      = match _next_stack self with
        | Some next_stack => getValue E next_stack key
        | None => Ok SettingDefinition.None_
        end).
Proof.
  intro answer. split.
  - intros pre c post v Hcs Hpre Hc Hv.
    rewrite getValue_unfold, Hcs, first_value_skip by exact Hpre.
    now apply first_value_hit.
  - intro Hall.
    rewrite getValue_unfold.
    rewrite <- (app_nil_r (_containers self)).
    now rewrite first_value_skip.
Qed.

End Lookup.

(** A stack [[A; B]] in which [A] has no value for the key and [B] has. *)
Definition layered : ContainerStack :=
  Build 1 "stack" "stack" []
        [Instances (Sample.instance "A" []);
         Instances (Sample.instance "B" [("k", SettingDefinition.VJson (JInt 7))])]
        None.

Lemma getValue_layered_witness :
  getValue (Sample.env [] [] [] []) layered "k" = Ok (SettingDefinition.VJson (JInt 7)).
Proof.
  apply (proj1 (getValue_layered (Sample.env [] [] [] []) layered "k")
               [Instances (Sample.instance "A" [])]
               (Instances (Sample.instance "B" [("k", SettingDefinition.VJson (JInt 7))]))
               []).
  - reflexivity.
  - repeat constructor.
  - reflexivity.
  - discriminate.
Defined.

(** *** Reading a serialised stack *)

(** [parser] has a section [general] that gives [version], [name] and
    [id]: what [deserialize] requires of a document before it looks at the
    version. *)
Definition has_general (parser : ConfigParser.ConfigParser) (version name id : string) : Prop :=
  ConfigParser.has_section "general" parser = true
  /\ ConfigParser.get "general" "version" parser = Some version
  /\ ConfigParser.get "general" "name" parser = Some name
  /\ ConfigParser.get "general" "id" parser = Some id.

(** The containers that a list of ids resolves to, empty ids skipped. *)
Definition resolved (E : Env) (ids : list string) : list (Container ContainerStack) :=
  flat_map
    (fun id =>
       if id =? "" then []
       else match find_container E id with
            | Some c => [c]
            | None => []
            end)
    ids.

Definition unknown_id : exn :=
  Exception_ "When trying to deserialize, we recieved an unknown ID for container".

Section Reading.
Variable E : Env.

(** What is left of [deserialize] for a document that has the required
    keys. *)
Lemma deserialize_general self serialized parser version name id :
  read_string E serialized = Ok parser ->
  has_general parser version name id ->
  deserialize E self serialized
  = match int_ E version with
    | Raise e => fail self e
    | Ok n =>
        if negb (n =? Version)%Z then fail self IncorrectVersionError
        else
          for_each (resolve E)
            (split_commas
               (match ConfigParser.get "general" "containers" parser with
                | Some text => text
                | None => ""
                end))
            (set_general self name id
               (if ConfigParser.has_section "metadata" parser
                then Some (ConfigParser.items "metadata" parser)
                else None))
    end.
Proof.
  intros Hread (Hsec & Hv & Hn & Hi).
  unfold deserialize. rewrite Hread.
  unfold ConfigParser.has_option. rewrite Hsec, Hv, Hn, Hi. reflexivity.
Qed.

(** The stack a document with a wrong version is read into is left as it
    was. *)
Lemma stack_wrong_version self serialized parser version name id n :
  read_string E serialized = Ok parser ->
  has_general parser version name id ->
  int_ E version = Ok n ->
  n <> Version ->
  deserialize E self serialized = fail self IncorrectVersionError.
Proof.
  intros Hread Hgen Hint Hn.
  rewrite (deserialize_general _ _ _ _ _ _ Hread Hgen), Hint.
  apply Z.eqb_neq in Hn. now rewrite Hn.
Qed.

Lemma with_containers_containers self cs : _containers (with_containers self cs) = cs.
Proof. reflexivity. Qed.

(** The loop over the ids, on ids that are empty or known to the registry:
    it appends what they resolve to and touches nothing else. *)
Lemma resolve_known (ids : list string) (self : ContainerStack) :
  Forall (fun id => id = "" \/ find_container E id <> None) ids ->
  for_each (resolve E) ids self
  = done (with_containers self (_containers self ++ resolved E ids)).
Proof.
  intro H. revert self.
  induction H as [|id ids Hid _ IH]; intro self.
  - simpl. unfold resolved. simpl. rewrite app_nil_r. now destruct self.
  - change (for_each (resolve E) (id :: ids) self)
      with (and_then (resolve E id self) (for_each (resolve E) ids)).
    unfold resolve, resolved. simpl flat_map.
    destruct (id =? "") eqn:Hempty; simpl negb; cbv iota.
    + unfold and_then, done. simpl. rewrite IH. reflexivity.
    + destruct Hid as [Hid|Hid]; [apply String.eqb_neq in Hempty; contradiction|].
      destruct (find_container E id) as [c|]; [|contradiction].
      unfold and_then, done. simpl. rewrite IH. unfold done.
      rewrite with_containers_containers, <- app_assoc. reflexivity.
Qed.

(** The loop stops at the first id that is not known, with what came
    before it appended. *)
Lemma resolve_stops (known : list string) (b : string) (rest : list string)
    (self : ContainerStack) :
  Forall (fun id => id = "" \/ find_container E id <> None) known ->
  b <> "" ->
  find_container E b = None ->
  for_each (resolve E) (known ++ b :: rest) self
  = Run (with_containers self (_containers self ++ resolved E known)) [] (Some unknown_id).
Proof.
  intros H Hb Hnone. revert self.
  induction H as [|id ids Hid _ IH]; intro self.
  - simpl app.
    change (for_each (resolve E) (b :: rest) self)
      with (and_then (resolve E b self) (for_each (resolve E) rest)).
    unfold resolve. apply String.eqb_neq in Hb. rewrite Hb, Hnone. simpl.
    unfold resolved. simpl. rewrite app_nil_r. now destruct self.
  - change (for_each (resolve E) ((id :: ids) ++ b :: rest) self)
      with (and_then (resolve E id self) (for_each (resolve E) (ids ++ b :: rest))).
    unfold resolve, resolved. simpl flat_map.
    destruct (id =? "") eqn:Hempty; simpl negb; cbv iota.
    + unfold and_then, done. simpl. rewrite IH. reflexivity.
    + destruct Hid as [Hid|Hid]; [apply String.eqb_neq in Hempty; contradiction|].
      destruct (find_container E id) as [c|]; [|contradiction].
      unfold and_then, done. simpl. rewrite IH.
      rewrite with_containers_containers, <- app_assoc. reflexivity.
Qed.

(** C10.  [deserialize] is not atomic.  For a document that passes the
    checks and whose list of container ids holds ids known to the registry
    followed by an id [b] that is not, the call raises, and the stack it
    leaves carries the document's name and id and, after the containers it
    had, the containers that the ids before [b] resolve to. *)
Theorem deserialize_not_atomic self serialized parser version name id text known b rest :
  read_string E serialized = Ok parser ->
  has_general parser version name id ->
  int_ E version = Ok Version ->
  ConfigParser.get "general" "containers" parser = Some text ->
  split_commas text = (known ++ b :: rest)%list ->
  Forall (fun id => id = "" \/ find_container E id <> None) known ->
  b <> "" ->
  find_container E b = None ->
  let r := deserialize E self serialized in
  raised r = Some unknown_id
  /\ _name (state r) = name
  /\ _id (state r) = id
  /\ _containers (state r) = (_containers self ++ resolved E known)%list.
Proof.
  intros Hread Hgen Hint Htext Hsplit Hknown Hb Hnone r. unfold r.
  rewrite (deserialize_general _ _ _ _ _ _ Hread Hgen), Hint, Htext, Hsplit.
  simpl negb. cbv iota.
  rewrite (resolve_stops _ _ _ _ Hknown Hb Hnone).
  repeat split.
Qed.

End Reading.

(** A registry that knows the instance container [a] only, and a document
    that lists [a], then [b]. *)
Definition knows_a : Env := Sample.env [] [] [Sample.instance "a" []] [].

Definition lists_a_b : string :=
  Sample.write
    (ConfigParser.Build []
       [("general", [("version", "2"); ("name", "N"); ("id", "I"); ("containers", "a,b,")])]).

Lemma deserialize_not_atomic_witness :
  let r := deserialize knows_a (__init__ 1 "fresh") lists_a_b in
  raised r = Some unknown_id
  /\ _name (state r) = "N"
  /\ _id (state r) = "I"
  /\ _containers (state r) = [Instances (Sample.instance "a" [])].
Proof.
  apply (deserialize_not_atomic knows_a (__init__ 1 "fresh") lists_a_b
           (ConfigParser.Build []
              [("general", [("version", "2"); ("name", "N"); ("id", "I");
                            ("containers", "a,b,")])])
           "2" "N" "I" "a,b," ["a"] "b" [""]).
  - vm_compute. reflexivity.
  - repeat split.
  - reflexivity.
  - reflexivity.
  - reflexivity.
  - constructor; [right; discriminate|constructor].
  - discriminate.
  - reflexivity.
Defined.

(** *** Round trip *)

(** [","] occurs in [text]. *)
Fixpoint has_comma (text : string) : bool :=
  match text with
  | EmptyString => false
  | String c rest => Ascii.eqb c ","%char || has_comma rest
  end.

Lemma append_assoc (a b c : string) : ((a ++ b) ++ c = a ++ (b ++ c))%string.
Proof. induction a as [|x a IH]; simpl; [|rewrite IH]; reflexivity. Qed.

Lemma split_char_nonempty sep text : split_char sep text <> [].
Proof.
  induction text as [|c rest IH]; simpl; [discriminate|].
  destruct (Ascii.eqb c sep); [discriminate|].
  destruct (split_char sep rest); [contradiction|discriminate].
Qed.

(** A word without a comma, a comma, more text: the word is the first
    piece. *)
Lemma split_commas_word (word rest : string) :
  has_comma word = false ->
  split_commas (word ++ String ","%char rest) = word :: split_commas rest.
Proof.
  unfold split_commas.
  induction word as [|c word IH]; simpl; intro H.
  - reflexivity.
  - apply orb_false_iff in H. destruct H as [Hc Hw].
    rewrite Hc, (IH Hw). reflexivity.
Qed.

Section RoundTrip.
Variable E : Env.

(** C7.  Round trip, under the conditions on the ids and the codec that it
    needs.  Take a stack that holds the containers [[c1; c2]] and the
    metadata [{"x": "1"}], and a new stack.  Suppose the ids of
    [c1] and [c2] are not empty and hold no comma, the registry finds for
    each id a container with that id, the INI reader gives back the parser
    that the writer was given for this stack, and [int] reads the text of
    the version back.  Then deserialising the output of [serialize] into the
    new stack succeeds, and gives a stack with the same id, the same name,
    the same metadata and the container ids [[c1.id; c2.id]]. *)
Theorem serialize_deserialize_round_trip
    (self : ContainerStack) (c1 c2 c1' c2' : Container ContainerStack)
    (address : nat) (stack_id : string) :
  _containers self = [c1; c2] ->
  _metadata self = [("x", "1")] ->
  container_getId c1 <> "" -> has_comma (container_getId c1) = false ->
  container_getId c2 <> "" -> has_comma (container_getId c2) = false ->
  find_container E (container_getId c1) = Some c1' ->
  container_getId c1' = container_getId c1 ->
  find_container E (container_getId c2) = Some c2' ->
  container_getId c2' = container_getId c2 ->
  read_string E (write E (serialize_parser self)) = Ok (serialize_parser self) ->
  int_ E (str_int Version) = Ok Version ->
  let r := deserialize E (__init__ address stack_id) (serialize E self) in
  raised r = None
  /\ getId (state r) = getId self
  /\ getName (state r) = getName self
  /\ getMetaData (state r) = getMetaData self
  /\ map container_getId (getContainers (state r))
     = [container_getId c1; container_getId c2].
Proof.
  intros Hcs Hmeta Hne1 Hc1 Hne2 Hc2 Hf1 Hid1 Hf2 Hid2 Hread Hint r. unfold r.
  assert (Hparser :
    serialize_parser self
    = ConfigParser.Build []
        [("general", [("version", str_int Version); ("name", _name self); ("id", _id self);
                      ("containers",
                       container_getId c1 ++ String ","%char
                         (container_getId c2 ++ String ","%char EmptyString))]);
         ("metadata", [("x", "1")])]).
  { unfold serialize_parser, join_ids. rewrite Hcs, Hmeta. simpl fold_left.
    rewrite append_assoc. reflexivity. }
  unfold serialize.
  rewrite (deserialize_general E _ _ _ (str_int Version) (_name self) (_id self) Hread)
    by (rewrite Hparser; repeat split).
  rewrite Hint. simpl negb. cbv iota.
  rewrite Hparser.
  change (ConfigParser.get "general" "containers" _)
    with (Some (container_getId c1 ++ String ","%char
                  (container_getId c2 ++ String ","%char EmptyString))).
  cbv iota.
  change (ConfigParser.has_section "metadata" _) with true.
  change (ConfigParser.items "metadata" _) with [("x", "1")].
  cbv iota.
  rewrite (split_commas_word _ _ Hc1), (split_commas_word _ _ Hc2).
  change (split_commas EmptyString) with [EmptyString].
  rewrite (resolve_known E [container_getId c1; container_getId c2; EmptyString]).
  - unfold resolved. simpl flat_map.
    apply String.eqb_neq in Hne1, Hne2. rewrite Hne1, Hne2, Hf1, Hf2.
    simpl. rewrite Hid1, Hid2. unfold getMetaData. rewrite Hmeta. repeat split.
  - apply Forall_cons; [right; rewrite Hf1; discriminate|].
    apply Forall_cons; [right; rewrite Hf2; discriminate|].
    apply Forall_cons; [left; reflexivity|apply Forall_nil].
Qed.

End RoundTrip.

Definition c1_sample : Container ContainerStack := Instances (Sample.instance "c1" []).
Definition c2_sample : Container ContainerStack := Instances (Sample.instance "c2" []).

Definition round_trip_world : Env :=
  Sample.env [] [] [Sample.instance "c1" []; Sample.instance "c2" []] [].

Definition round_trip_stack : ContainerStack :=
  Build 1 "stack" "My stack" [("x", "1")] [c1_sample; c2_sample] None.

Lemma round_trip_witness :
  let r := deserialize round_trip_world (__init__ 2 "new")
             (serialize round_trip_world round_trip_stack) in
  raised r = None
  /\ getId (state r) = "stack"
  /\ getName (state r) = "My stack"
  /\ getMetaData (state r) = [("x", "1")]
  /\ map container_getId (getContainers (state r)) = ["c1"; "c2"].
Proof.
  apply (serialize_deserialize_round_trip round_trip_world round_trip_stack
           c1_sample c2_sample c1_sample c2_sample 2 "new");
    try reflexivity; try discriminate.
Defined.


(** *** Where the round trip ends *)

(** A stack whose first container has an id with a comma, and a registry
    that knows the two containers of the stack. *)
Definition comma_id : Container ContainerStack := Instances (Sample.instance "a,b" []).

Definition comma_world : Env :=
  Sample.env [] [] [Sample.instance "a,b" []; Sample.instance "c2" []] [].

Definition comma_stack : ContainerStack :=
  Build 1 "stack" "My stack" [("x", "1")] [comma_id; c2_sample] None.

(** C7 as the claim states it, without a condition on the ids, fails.  The
    stack holds two containers and the metadata [{"x": "1"}], the registry
    resolves both containers by their ids, and the INI reader gives back
    the parser that the writer was given.  The id of the first container
    is ["a,b"]: [serialize] writes ["a,b,c2,"], [deserialize] splits it
    into ["a"], ["b"], ["c2"], and raises on ["a"], which the registry does
    not know.  So the round trip does not give the container ids back. *)
Lemma round_trip_counterexample :
  let r := deserialize comma_world (__init__ 2 "new") (serialize comma_world comma_stack) in
  getContainers comma_stack = [comma_id; c2_sample]
  /\ getMetaData comma_stack = [("x", "1")]
  /\ find_container comma_world (container_getId comma_id) = Some comma_id
  /\ find_container comma_world (container_getId c2_sample) = Some c2_sample
  /\ read_string comma_world (serialize comma_world comma_stack)
     = Ok (serialize_parser comma_stack)
  /\ raised r = Some unknown_id
  /\ map container_getId (getContainers (state r)) = []
  /\ ~ (raised r = None
        /\ getId (state r) = getId comma_stack
        /\ getName (state r) = getName comma_stack
        /\ getMetaData (state r) = getMetaData comma_stack
        /\ map container_getId (getContainers (state r))
           = [container_getId comma_id; container_getId c2_sample]).
Proof.
  repeat (split; [reflexivity|]).
  intros (Hok & _). discriminate Hok.
Qed.

(** When the registry also knows containers with the ids ["a"] and ["b"],
    the call succeeds, with three containers in place of two. *)
Example comma_id_is_read_as_two_ids :
  let world :=
    Sample.env [] []
      [Sample.instance "a,b" []; Sample.instance "a" []; Sample.instance "b" [];
       Sample.instance "c2" []] [] in
  let r := deserialize world (__init__ 2 "new") (serialize world comma_stack) in
  raised r = None
  /\ map container_getId (getContainers (state r)) = ["a"; "b"; "c2"].
Proof. split; reflexivity. Qed.

(** A container with the empty id is skipped when the ids are read. *)
Example empty_id_is_dropped :
  let world := Sample.env [] [] [Sample.instance "" []; Sample.instance "c2" []] [] in
  let stack :=
    Build 1 "stack" "My stack" [("x", "1")]
          [Instances (Sample.instance "" []); c2_sample] None in
  let r := deserialize world (__init__ 2 "new") (serialize world stack) in
  find_container world "" = Some (Instances (Sample.instance "" []))
  /\ read_string world (serialize world stack) = Ok (serialize_parser stack)
  /\ raised r = None
  /\ map container_getId (getContainers (state r)) = ["c2"].
Proof. repeat split; reflexivity. Qed.

(** The sample reader strips the blanks around a value, as [configparser]
    does, so a name that starts with a blank is not read back as written:
    the condition on the codec in C7 is not met for it. *)
Example padded_name_is_stripped :
  let stack := Build 1 "stack" " My stack" [("x", "1")] [c1_sample; c2_sample] None in
  let r := deserialize round_trip_world (__init__ 2 "new")
             (serialize round_trip_world stack) in
  raised r = None /\ getName (state r) = "My stack".
Proof. split; reflexivity. Qed.

End StackProofs.

(* ===================================================================== *)
(** ** Properties of the definition container: lookup, overrides, version *)
(* ===================================================================== *)

Module DefinitionProofs.
Import Py DefinitionContainer.

(** *** A sample document *)

(** A setting document with the required properties and nothing else. *)
Definition category (label : string) : json :=
  JObj [("label", JStr label); ("type", JStr "category"); ("description", JStr "d")].

(** A definition document with the settings [settings] and, when given,
    the overrides [overrides]. *)
Definition document (version : json) (settings : dict json) (overrides : option json) : json :=
  JObj ([("version", version); ("name", JStr "sample");
         ("metadata", JObj []); ("settings", JObj settings)]
        ++ match overrides with
           | Some o => [("overrides", o)]
           | None => []
           end).

Definition machine : json := document (JInt 2) [("machine", category "Machine")] None.

Definition sample_env : SettingDefinition.Env := Sample.settings [("machine.def.json", machine)].

(** The container that loading [machine] gives. *)
Definition machine_container : DefinitionContainer :=
  state (deserialize sample_env Sample.no_resources 8 (__init__ "machine" None) "machine.def.json").

Example machine_loads :
  raised (deserialize sample_env Sample.no_resources 8 (__init__ "machine" None) "machine.def.json")
  = None
  /\ map SettingDefinition.key (_definitions machine_container) = ["machine"].
Proof. split; reflexivity. Qed.

(** *** [getValue] *)

Section GetValue.
Variable E : SettingDefinition.Env.

(** [getValue] answers [None] when no definition has the key, and otherwise
    what reading [default_value] on the first definition found gives. *)
Lemma getValue_cases (self : DefinitionContainer) (key : string) :
  getValue E self key
  = match findDefinitions E self [("key", SettingDefinition.VJson (JStr key))] with
    | [] => Ok SettingDefinition.None_
    | (_, definition) :: _ => SettingDefinition.__getattr__ E definition "default_value"
    end.
Proof. reflexivity. Qed.

(** Reading [default_value] on a definition that does not have it raises. *)
Lemma getValue_without_default (self : DefinitionContainer) (key : string) at_ definition rest :
  findDefinitions E self [("key", SettingDefinition.VJson (JStr key))]
  = (at_, definition) :: rest ->
  dict_get "default_value" (SettingDefinition.property_values definition) = None ->
  getValue E self key = Raise (AttributeError (NoAttribute "default_value")).
Proof.
  intros Hfound Hnone. rewrite getValue_cases, Hfound.
  unfold SettingDefinition.__getattr__. rewrite Hnone.
  now destruct (dict_in "default_value" (SettingDefinition.__property_definitions E)).
Qed.

End GetValue.

(** C3 (the code departs from the claim).  The setting [machine] is
    defined, with every required property and without [default_value],
    which is optional.  [getValue("machine")] raises [AttributeError]; it
    does not answer [None].  A stack that holds the container raises with
    it, without asking the containers below. *)
Theorem getValue_raises_without_default_value :
  getValue sample_env machine_container "machine"
  = Raise (AttributeError (NoAttribute "default_value"))
  /\ getValue sample_env machine_container "unknown" = Ok SettingDefinition.None_
  /\ ContainerStack.getValue (Sample.env [] [] [] [])
       (ContainerStack.Build 1 "stack" "stack" []
          [ContainerStack.Definitions machine_container;
           ContainerStack.Instances
             (Sample.instance "below" [("machine", SettingDefinition.VJson (JInt 1))])]
          None)
       "machine"
     = Raise (AttributeError (NoAttribute "default_value")).
Proof. repeat split. Qed.

(** *** Overrides *)

Section FindInDict.

(** What [_findInDict] returns, when it returns an object, is its
    argument. *)
Lemma _findInDict_returns_argument (dict_ : json) (key : string) (found : json) :
  _findInDict dict_ key = Ok (Some found) -> found = dict_.
Proof.
  destruct dict_ as [| b | z | s | l | items]; simpl; try discriminate.
  - destruct (substring_in key s); simpl; [congruence|discriminate].
  - destruct (existsb (json_is_str key) l); simpl; [congruence|discriminate].
  - destruct (dict_in key items); [congruence|].
    intro H. exfalso. revert H.
    induction items as [|[k v] items IH]; [discriminate|].
    destruct (_findInDict v key); [exact IH|discriminate].
Qed.

(** For a dictionary, an object is returned exactly when the key is one of
    the dictionary's own keys. *)
Lemma _findInDict_own_key (items : dict json) (key : string) :
  dict_in key items = true -> _findInDict (JObj items) key = Ok (Some (JObj items)).
Proof. intro H. simpl. now rewrite H. Qed.

End FindInDict.

(** The settings of the failing document: [layer] has a default value. *)
Definition layer_settings : dict json :=
  [("layer", JObj [("label", JStr "Layer"); ("type", JStr "int");
                   ("description", JStr "d"); ("default_value", JInt 1)])].

(** A document that overrides the default value of [layer]. *)
Definition overriding : json :=
  document (JInt 2) layer_settings (Some (JObj [("layer", JObj [("default_value", JInt 5)])])).

(** A document whose override names [inner], a child of [outer]. *)
Definition overriding_child : json :=
  document (JInt 2)
    [("outer", JObj [("children", JObj [("inner", JObj [("default_value", JInt 1)])])])]
    (Some (JObj [("inner", JObj [("default_value", JInt 5)])])).

Definition override_env : SettingDefinition.Env :=
  Sample.settings [("overriding", overriding); ("overriding_child", overriding_child)].

(** C2 (the code departs from the claim).  For an override of the top-level
    setting [layer], [_findInDict] returns the [settings] mapping, which
    contains the key, and not the sub-document of [layer]: the override's
    field [default_value] becomes an entry of [settings] beside [layer], the
    sub-document of [layer] keeps its default value 1, and loading then
    fails on the entry that is no setting.  For an override of a nested
    setting the result of the recursive search is dropped and the update is
    attempted on [None]. *)
Theorem override_lands_beside_the_setting :
  preprocess Sample.no_resources 8 overriding
  = Ok (JObj [("version", JInt 2); ("name", JStr "sample"); ("metadata", JObj []);
              ("settings", JObj (layer_settings ++ [("default_value", JInt 5)]));
              ("overrides", JObj [("layer", JObj [("default_value", JInt 5)])])])
  /\ raised (deserialize override_env Sample.no_resources 8 (__init__ "c" None) "overriding")
     = Some TypeError
  /\ preprocess Sample.no_resources 8 overriding_child
     = Raise (AttributeError (NoAttribute "update")).
Proof. repeat split. Qed.

(** *** Version *)

Section Version.
Variable E : SettingDefinition.Env.
Variable read_resource : string -> result json.

(** A document with [version] and [name] whose version is not the expected
    one is refused before anything is stored. *)
Lemma definition_wrong_version (limit : nat) (self : DefinitionContainer)
    (serialized : string) (fields : dict json) (version : json) :
  SettingDefinition.json_loads E serialized = Ok (JObj fields) ->
  dict_get "version" fields = Some version ->
  dict_in "name" fields = true ->
  py_eq version (JInt Version) = false ->
  deserialize E read_resource limit self serialized
  = fail self (IncorrectDefinitionVersionError version Version).
Proof.
  intros Hload Hversion Hname Hneq.
  unfold deserialize. rewrite Hload.
  unfold _verifyJson, py_in, py_getitem, dict_in.
  fold (dict_in "name" fields).
  now rewrite Hversion, Hname, Hneq.
Qed.

End Version.

End DefinitionProofs.

(* ===================================================================== *)
(** ** Version mismatch, for both kinds of document *)
(* ===================================================================== *)

Module VersionProofs.
Import Py.

(** C4.  Version mismatch.  A stack document that has the section
    [general] with [version], [name] and [id], and whose version reads as an
    integer other than the expected one, makes [ContainerStack.deserialize]
    raise [IncorrectVersionError].  A definition document that has [version]
    and [name], and whose version is not equal to the expected one, makes
    [DefinitionContainer.deserialize] raise
    [IncorrectDefinitionVersionError].  In both cases the object that the
    call returns is the object it was given: name, id, metadata and
    containers or definitions are as before, and nothing was logged. *)
Theorem version_mismatch_leaves_target_unmodified :
  (forall (E : ContainerStack.Env) (self : ContainerStack.ContainerStack)
          (serialized : string) (parser : ConfigParser.ConfigParser)
          (version name id : string) (n : Z),
      ContainerStack.read_string E serialized = Ok parser ->
      StackProofs.has_general parser version name id ->
      ContainerStack.int_ E version = Ok n ->
      n <> ContainerStack.Version ->
      ContainerStack.deserialize E self serialized
      = {| state := self; logged := []; raised := Some IncorrectVersionError |})
  /\ (forall (E : SettingDefinition.Env) (read_resource : string -> result json)
             (limit : nat) (self : DefinitionContainer.DefinitionContainer)
             (serialized : string) (fields : dict json) (version : json),
         SettingDefinition.json_loads E serialized = Ok (JObj fields) ->
         dict_get "version" fields = Some version ->
         dict_in "name" fields = true ->
         py_eq version (JInt DefinitionContainer.Version) = false ->
         DefinitionContainer.deserialize E read_resource limit self serialized
         = {| state := self; logged := [];
              raised := Some (IncorrectDefinitionVersionError version
                                DefinitionContainer.Version) |}).
Proof.
  split.
  - intros. eapply StackProofs.stack_wrong_version; eassumption.
  - intros. eapply DefinitionProofs.definition_wrong_version; eassumption.
Qed.

(** A stack document of version 3. *)
Definition stack_v3 : ConfigParser.ConfigParser :=
  ConfigParser.Build []
    [("general", [("version", "3"); ("name", "N"); ("id", "I"); ("containers", "")])].

(** A definition document of version 3. *)
Definition definition_v3 : json := DefinitionProofs.document (JInt 3) [] None.

Lemma version_mismatch_witness :
  ContainerStack.deserialize (Sample.env [] [] [] []) StackProofs.round_trip_stack
    (Sample.write stack_v3)
  = {| state := StackProofs.round_trip_stack; logged := [];
       raised := Some IncorrectVersionError |}
  /\ DefinitionContainer.deserialize (Sample.settings [("v3", definition_v3)])
       Sample.no_resources 8 DefinitionProofs.machine_container "v3"
     = {| state := DefinitionProofs.machine_container; logged := [];
          raised := Some (IncorrectDefinitionVersionError (JInt 3) 2) |}.
Proof.
  split.
  - apply (proj1 version_mismatch_leaves_target_unmodified (Sample.env [] [] [] [])
             StackProofs.round_trip_stack (Sample.write stack_v3) stack_v3 "3" "N" "I" 3%Z).
    + vm_compute. reflexivity.
    + repeat split.
    + reflexivity.
    + discriminate.
  - apply (proj2 version_mismatch_leaves_target_unmodified
             (Sample.settings [("v3", definition_v3)]) Sample.no_resources 8
             DefinitionProofs.machine_container "v3"
             [("version", JInt 3); ("name", JStr "sample");
              ("metadata", JObj []); ("settings", JObj [])]
             (JInt 3)); reflexivity.
Defined.

End VersionProofs.

(* ===================================================================== *)
(** ** Properties of the setting definition: required properties *)
(* ===================================================================== *)

Module SettingProofs.
Import Py SettingDefinition.

(** *** Dictionaries *)

Lemma dict_get_set {A} (k p : string) (v : A) (d : dict A) :
  dict_get p (dict_set k v d) = if k =? p then Some v else dict_get p d.
Proof.
  induction d as [|[k' v'] d IH]; simpl.
  - reflexivity.
  - destruct (k' =? k) eqn:Hk; simpl.
    + apply String.eqb_eq in Hk. subst k'.
      now destruct (k =? p).
    + rewrite IH.
      destruct (k' =? p) eqn:Hp; [|reflexivity].
      apply String.eqb_eq in Hp. subst k'.
      rewrite String.eqb_sym in Hk. now rewrite Hk.
Qed.

Lemma dict_in_set {A} (k p : string) (v : A) (d : dict A) :
  dict_in p (dict_set k v d) = (k =? p) || dict_in p d.
Proof. unfold dict_in. rewrite dict_get_set. now destruct (k =? p). Qed.

Lemma dict_in_cons {A} (k p : string) (v : A) (d : dict A) :
  dict_in p ((k, v) :: d) = (k =? p) || dict_in p d.
Proof. unfold dict_in. simpl. now destruct (k =? p). Qed.

Lemma dict_in_keys {A} (p : string) (d : dict A) :
  In p (keys d) -> dict_in p d = true.
Proof.
  induction d as [|[k v] d IH]; simpl; [contradiction|].
  rewrite dict_in_cons. intros [->|H].
  - now rewrite String.eqb_refl.
  - rewrite (IH H). apply orb_true_r.
Qed.

Section Required.
Variable E : Env.

(** *** What one round of the loop changes *)

Lemma store_property_key self key value :
  _key (state (store_property E self key value)) = _key self.
Proof.
  unfold store_property.
  destruct (dict_get key (__property_definitions E)) as [d|]; [|reflexivity].
  destruct (if key =? "type" then check_type E value else None); [reflexivity|].
  destruct (type d); try reflexivity.
  now destruct (new_SettingFunction E (str E value)).
Qed.

(** A supported property that is stored is in the dictionary afterwards;
    nothing else is added. *)
Lemma store_property_values self key value p :
  raised (store_property E self key value) = None ->
  dict_in p (property_values (state (store_property E self key value)))
  = dict_in p (property_values self)
    || (dict_in key (__property_definitions E) && (key =? p)).
Proof.
  unfold store_property, dict_in at 3.
  destruct (dict_get key (__property_definitions E)) as [d|]; simpl.
  - destruct (if key =? "type" then check_type E value else None); [discriminate|].
    destruct (type d); simpl;
      try (intros _; rewrite dict_in_set; apply orb_comm).
    destruct (new_SettingFunction E (str E value)); simpl; [|discriminate].
    intros _. rewrite dict_in_set. apply orb_comm.
  - intros _. now rewrite orb_false_r.
Qed.

(** The loop over the children leaves key and property values alone. *)
Lemma deserialize_children_frame dict_case text children self :
  let r := deserialize_children dict_case text children self in
  _key (state r) = _key self /\ property_values (state r) = property_values self.
Proof.
  revert self. induction children as [|[child_key child_dict] rest IH]; intro self; simpl.
  - split; reflexivity.
  - match goal with
    | |- context [raised ?x] => destruct (raised x)
    end; simpl.
    + split; reflexivity.
    + apply (IH (append_child self _)).
Qed.

(** [p] is given by the document: it is a key of it, and not [children],
    which is never stored as a property. *)
Definition given (items : dict json) (p : string) : bool :=
  dict_in p items && negb (p =? "children").

(** The loop over the keys keeps the key of the setting and, when it
    completes, has stored exactly the supported properties that the
    document gives. *)
Lemma deserialize_items_values dict_case text items self :
  let r := deserialize_items E dict_case text items self in
  _key (state r) = _key self
  /\ (raised r = None ->
      forall p,
        dict_in p (property_values (state r))
        = dict_in p (property_values self)
          || (given items p && dict_in p (__property_definitions E))).
Proof.
  revert self. induction items as [|[key value] rest IH]; intro self.
  - simpl. split; [reflexivity|]. intros _ p. unfold given. simpl.
    now rewrite orb_false_r.
  - cbn [deserialize_items]. fold (deserialize_items E dict_case text).
    set (step := if key =? "children"
                 then match value with
                      | JObj children => deserialize_children dict_case text children self
                      | _ => fail self (AttributeError (NoAttribute "items"))
                      end
                 else store_property E self key value).
    assert (Hkey : _key (state step) = _key self).
    { unfold step. destruct (key =? "children").
      - destruct value as [| b | z | s | l | children]; try reflexivity.
        apply (deserialize_children_frame dict_case text children self).
      - apply store_property_key. }
    assert (Hvalues : raised step = None -> forall p,
               dict_in p (property_values (state step))
               = dict_in p (property_values self)
                 || ((key =? p) && negb (p =? "children")
                     && dict_in p (__property_definitions E))).
    { intros Hok p. unfold step in *. destruct (key =? "children") eqn:Hc.
      - apply String.eqb_eq in Hc. subst key.
        assert (Hno : ("children" =? p) && negb (p =? "children") = false).
        { rewrite (String.eqb_sym p). now destruct ("children" =? p). }
        rewrite Hno. simpl. rewrite orb_false_r.
        destruct value as [| b | z | s | l | children]; try discriminate.
        now rewrite (proj2 (deserialize_children_frame dict_case text children self)).
      - rewrite (store_property_values self key value p Hok). f_equal.
        destruct (key =? p) eqn:Hp; simpl.
        + apply String.eqb_eq in Hp. subst p.
          rewrite Hc. simpl. now rewrite andb_true_r.
        + now rewrite andb_false_r. }
    destruct (raised step) eqn:Hstep.
    + split; [exact Hkey|]. intro H. rewrite H in Hstep. discriminate.
    + destruct (IH (state step)) as [IHkey IHvalues]. simpl.
      split; [now rewrite IHkey|].
      intros Hok p. rewrite (IHvalues Hok p), (Hvalues eq_refl p).
      unfold given. rewrite dict_in_cons, <- orb_assoc. f_equal.
      destruct (key =? p), (dict_in p rest), (negb (p =? "children")),
        (dict_in p (__property_definitions E)); reflexivity.
Qed.

(** The final check finds nothing exactly when every required property is
    stored. *)
Lemma first_missing_required_none self :
  first_missing_required E self = None
  <-> (forall p, In p (keys (__property_definitions E)) ->
                 isRequiredProperty E p = true ->
                 dict_in p (property_values self) = true).
Proof.
  unfold first_missing_required. split.
  - intros H p Hin Hreq.
    assert (Hf : In p (filter (isRequiredProperty E) (keys (__property_definitions E))))
      by (apply filter_In; split; assumption).
    pose proof (find_none _ _ H p Hf) as Hn. simpl in Hn.
    now apply negb_false_iff in Hn.
  - intro H.
    destruct (find _ _) as [p|] eqn:Hfind; [|reflexivity].
    apply find_some in Hfind. destruct Hfind as [Hin Hmissing].
    apply filter_In in Hin. destruct Hin as [Hin Hreq].
    rewrite (H p Hin Hreq) in Hmissing. discriminate.
Qed.

Lemma first_missing_required_some self p :
  first_missing_required E self = Some p ->
  In p (keys (__property_definitions E))
  /\ isRequiredProperty E p = true
  /\ dict_in p (property_values self) = false.
Proof.
  unfold first_missing_required. intro H.
  apply find_some in H. destruct H as [Hin Hmissing].
  apply filter_In in Hin. destruct Hin as [Hin Hreq].
  apply negb_true_iff in Hmissing. repeat split; assumption.
Qed.

(** C6.  Required properties.  Take a setting and a document whose keys
    are all processed without an exception.  A property counts as present
    when the setting already holds it or the document gives it.  If every
    property that the schema flags as required is present,
    [deserialize] succeeds, with the outcome of the loop over the keys.  If
    a required property is absent, [deserialize] raises the
    [AttributeError] that names the key of the setting and a required
    property that is absent. *)
Theorem required_property_enforcement
    (depth : nat) (self : SettingDefinition) (items : dict json) :
  let present p := dict_in p (property_values self) || given items p in
  let required p :=
    In p (keys (__property_definitions E)) /\ isRequiredProperty E p = true in
  raised (process_keys E depth self items) = None ->
  ((forall p, required p -> present p = true) ->
   deserialize E depth self (JObj items) = process_keys E depth self items)
  /\ (forall p, required p -> present p = false ->
      exists p0,
        required p0 /\ present p0 = false
        /\ raised (deserialize E depth self (JObj items))
           = Some (AttributeError (MissingRequiredProperty (_key self) p0))).
Proof.
  intros present required Hloop.
  change (deserialize E depth self (JObj items))
    with (check_required E (process_keys E depth self items)).
  destruct (deserialize_items_values (_deserialize_dict E (text_case E depth))
              (text_case E depth) items (reset self)) as [Hkey Hvalues].
  fold (process_keys E depth self items) in Hkey, Hvalues.
  specialize (Hvalues Hloop).
  assert (Hstored : forall p, required p ->
            dict_in p (property_values (state (process_keys E depth self items)))
            = present p).
  { intros p [Hin _]. rewrite (Hvalues p). unfold present. simpl.
    now rewrite (dict_in_keys p _ Hin), andb_true_r. }
  unfold check_required. rewrite Hloop. split.
  - intro Hall.
    assert (Hnone : first_missing_required E (state (process_keys E depth self items)) = None).
    { apply first_missing_required_none. intros p Hin Hreq.
      rewrite (Hstored p (conj Hin Hreq)). apply Hall. split; assumption. }
    now rewrite Hnone.
  - intros p Hreq Habsent.
    destruct (first_missing_required E (state (process_keys E depth self items)))
      as [p0|] eqn:Hfirst.
    + apply first_missing_required_some in Hfirst.
      destruct Hfirst as (Hin0 & Hreq0 & Hmissing0).
      exists p0. split; [split; assumption|].
      split; [now rewrite <- (Hstored p0 (conj Hin0 Hreq0))|].
      simpl. now rewrite Hkey.
    + exfalso.
      pose proof (proj1 (first_missing_required_none _) Hfirst p (proj1 Hreq) (proj2 Hreq))
        as Hp.
      rewrite (Hstored p Hreq), Habsent in Hp. discriminate.
Qed.

End Required.

(** A document for the setting [speed] that leaves out [label], and the
    same document with it. *)
Definition without_label : dict json :=
  [("type", JStr "int"); ("description", JStr "d"); ("default_value", JInt 3)].

Definition with_label : dict json := ("label", JStr "Speed") :: without_label.

Lemma required_property_witness :
  (exists p0,
      (In p0 (keys default_property_definitions)
       /\ isRequiredProperty (Sample.settings []) p0 = true)
      /\ dict_in p0 (property_values (__init__ "speed" None)) || given without_label p0 = false
      /\ raised (deserialize (Sample.settings []) 8 (__init__ "speed" None) (JObj without_label))
         = Some (AttributeError (MissingRequiredProperty "speed" p0)))
  /\ deserialize (Sample.settings []) 8 (__init__ "speed" None) (JObj with_label)
     = process_keys (Sample.settings []) 8 (__init__ "speed" None) with_label.
Proof.
  split.
  - apply (proj2 (required_property_enforcement (Sample.settings []) 8
                    (__init__ "speed" None) without_label eq_refl) "label").
    + split; [simpl; tauto|reflexivity].
    + reflexivity.
  - apply (proj1 (required_property_enforcement (Sample.settings []) 8
                    (__init__ "speed" None) with_label eq_refl)).
    intros p [Hin Hreq]. simpl in Hin.
    repeat (destruct Hin as [<-|Hin]; [try reflexivity; try discriminate Hreq|]).
    contradiction.
Defined.

Example missing_label_is_named :
  raised (deserialize (Sample.settings []) 8 (__init__ "speed" None) (JObj without_label))
  = Some (AttributeError (MissingRequiredProperty "speed" "label")).
Proof. reflexivity. Qed.

End SettingProofs.

(* ===================================================================== *)
(** ** Properties of the definition container: relations *)
(* ===================================================================== *)

Module RelationProofs.
Import Py.
Module SD := SettingDefinition.
Module SR := SettingRelation.
Module DC := DefinitionContainer.

(** *** Induction on a definition and its descendants *)

Section DefinitionInduction.
Variable P : SD.SettingDefinition -> Prop.
Hypothesis step : forall d, Forall P (SD._children d) -> P d.

Fixpoint definition_ind (d : SD.SettingDefinition) : P d :=
  step d
    (match d as d0 return Forall P (SD._children d0) with
     | SD.Build _ _ children _ _ _ =>
         (fix all (l : list SD.SettingDefinition) : Forall P l :=
            match l with
            | [] => Forall_nil P
            | x :: l' => Forall_cons x (definition_ind x) (all l')
            end) children
     end).

End DefinitionInduction.

(** *** The objects of a tree, with their references *)

(** Every object below [d], [d] first, with its reference relative to
    [d]. *)
Fixpoint nodes (d : SD.SettingDefinition) : list (SR.ref * SD.SettingDefinition) :=
  ([], d) :: SR.each_at nodes 0%nat (SD._children d).

(** Every object of a list of trees. *)
Definition forest_nodes (definitions : list SD.SettingDefinition)
    : list (SR.ref * SD.SettingDefinition) :=
  SR.each_at nodes 0%nat definitions.

Lemma nodes_unfold d : nodes d = ([], d) :: SR.each_at nodes 0%nat (SD._children d).
Proof. destruct d; reflexivity. Qed.

Lemma findDefinitions_unfold E d kwargs :
  SD.findDefinitions E d kwargs
  = ((if SD.has_properties E d kwargs then [([], d)] else [])
     ++ SR.each_at (fun child => SD.findDefinitions E child kwargs) 0%nat (SD._children d))%list.
Proof. destruct d; reflexivity. Qed.

Section EachAt.
Context {A B : Type}.

Lemma each_at_cons (visit : A -> list (SR.ref * B)) i x l :
  SR.each_at visit i (x :: l)
  = (map (SR.below i) (visit x) ++ SR.each_at visit (S i) l)%list.
Proof. reflexivity. Qed.

(** Where an object found by [each_at] comes from. *)
Lemma in_each_at (visit : A -> list (SR.ref * B)) (l : list A) :
  forall i p y,
    In (p, y) (SR.each_at visit i l)
    <-> exists j x q, p = (i + j)%nat :: q /\ nth_error l j = Some x /\ In (q, y) (visit x).
Proof.
  induction l as [|x l IH]; intros i p y.
  - simpl. split; [contradiction|].
    intros (j & x & q & _ & Hnth & _). destruct j; discriminate.
  - rewrite each_at_cons, in_app_iff, in_map_iff. split.
    + intros [([q y'] & Heq & Hin)|Hin].
      * unfold SR.below in Heq. simpl in Heq. inversion Heq; subst.
        exists 0%nat, x, q. rewrite Nat.add_0_r. auto.
      * apply IH in Hin. destruct Hin as (j & x' & q & -> & Hnth & Hin).
        exists (S j), x', q. rewrite Nat.add_succ_r. auto.
    + intros (j & x' & q & -> & Hnth & Hin). destruct j as [|j].
      * simpl in Hnth. inversion Hnth; subst. left.
        exists (q, y). rewrite Nat.add_0_r. auto.
      * right. apply IH. exists j, x', q. rewrite Nat.add_succ_r. auto.
Qed.

(** References found by [each_at] are distinct when those found in each
    element are. *)
Lemma NoDup_each_at (visit : A -> list (SR.ref * B)) (l : list A) :
  Forall (fun x => NoDup (map fst (visit x))) l ->
  forall i, NoDup (map fst (SR.each_at visit i l)).
Proof.
  induction 1 as [|x l Hx _ IH]; intro i.
  - constructor.
  - rewrite each_at_cons, map_app. apply NoDup_app.
    + rewrite map_map. simpl.
      change (fun x0 : SR.ref * B => i :: fst x0) with (fun x0 : SR.ref * B => cons i (fst x0)).
      rewrite <- (map_map fst (cons i)).
      apply NoDup_map_NoDup_ForallPairs; [|exact Hx].
      intros a b _ _ Heq. now inversion Heq.
    + apply IH.
    + intros p Hin1 Hin2.
      apply in_map_iff in Hin1. destruct Hin1 as ([p1 y1] & <- & Hin1).
      apply in_map_iff in Hin1. destruct Hin1 as ([q y] & Heq & _).
      unfold SR.below in Heq. simpl in Heq. inversion Heq; subst. simpl in Hin2.
      apply in_map_iff in Hin2. destruct Hin2 as ([p2 y2] & Heq2 & Hin2).
      simpl in Heq2. subst p2.
      apply in_each_at in Hin2. destruct Hin2 as (j & _ & q' & Heq3 & _).
      inversion Heq3. lia.
Qed.

(** Filtering by what was found commutes with [each_at]. *)
Lemma filter_each_at (keep : B -> bool) (visit visit' : A -> list (SR.ref * B)) (l : list A) :
  Forall (fun x => visit' x = filter (fun n => keep (snd n)) (visit x)) l ->
  forall i, SR.each_at visit' i l = filter (fun n => keep (snd n)) (SR.each_at visit i l).
Proof.
  induction 1 as [|x l Hx _ IH]; intro i; [reflexivity|].
  rewrite !each_at_cons, filter_app, <- IH, Hx. f_equal.
  rewrite filter_map_swap. reflexivity.
Qed.

End EachAt.

(** [findDefinitions] keeps, of all objects below, those that meet the
    criteria. *)
Lemma findDefinitions_filter E kwargs d :
  SD.findDefinitions E d kwargs
  = filter (fun n => SD.has_properties E (snd n) kwargs) (nodes d).
Proof.
  induction d as [d IH] using definition_ind.
  rewrite findDefinitions_unfold, nodes_unfold. simpl filter.
  rewrite <- (filter_each_at (fun x => SD.has_properties E x kwargs) nodes
                (fun child => SD.findDefinitions E child kwargs) _ IH).
  now destruct (SD.has_properties E d kwargs).
Qed.

Lemma container_findDefinitions_filter E kwargs (self : DC.DefinitionContainer) :
  DC.findDefinitions E self kwargs
  = filter (fun n => SD.has_properties E (snd n) kwargs) (forest_nodes (DC._definitions self)).
Proof.
  unfold DC.findDefinitions, forest_nodes.
  apply (filter_each_at (fun x => SD.has_properties E x kwargs)). apply Forall_forall. intros d _. apply findDefinitions_filter.
Qed.

(** The references of the objects below [d] are distinct. *)
Lemma NoDup_nodes d : NoDup (map fst (nodes d)).
Proof.
  induction d as [d IH] using definition_ind.
  rewrite nodes_unfold. simpl. constructor.
  - intro Hin. apply in_map_iff in Hin. destruct Hin as ([p y] & Hp & Hin).
    simpl in Hp. subst p. apply in_each_at in Hin.
    destruct Hin as (j & _ & q & Heq & _). discriminate.
  - now apply NoDup_each_at.
Qed.

Lemma NoDup_forest_nodes definitions : NoDup (map fst (forest_nodes definitions)).
Proof.
  apply NoDup_each_at. apply Forall_forall. intros d _. apply NoDup_nodes.
Qed.

(** A reference leads to an object exactly when the object is listed with
    it. *)
Lemma in_nodes_descend d : forall p x, In (p, x) (nodes d) <-> DC.descend d p = Some x.
Proof.
  induction d as [d IH] using definition_ind. intros p x.
  rewrite nodes_unfold. simpl In. rewrite in_each_at. split.
  - intros [Heq|(j & c & q & -> & Hnth & Hin)].
    + inversion Heq; subst. reflexivity.
    + simpl. rewrite Hnth.
      rewrite Forall_forall in IH. apply (IH c (nth_error_In _ _ Hnth)). exact Hin.
  - destruct p as [|i q]; simpl.
    + intro H. inversion H; subst. now left.
    + destruct (nth_error (SD._children d) i) as [c|] eqn:Hnth; [|discriminate].
      intro H. right. exists i, c, q. repeat split; [assumption|].
      rewrite Forall_forall in IH. apply (IH c (nth_error_In _ _ Hnth)). exact H.
Qed.

Lemma in_forest_nodes_deref definitions p x :
  In (p, x) (forest_nodes definitions) <-> DC.deref definitions p = Some x.
Proof.
  unfold forest_nodes. rewrite in_each_at. split.
  - intros (j & d & q & -> & Hnth & Hin). simpl. rewrite Hnth.
    now apply in_nodes_descend.
  - destruct p as [|i q]; simpl; [discriminate|].
    destruct (nth_error definitions i) as [d|] eqn:Hnth; [|discriminate].
    intro H. exists i, d, q. repeat split; [assumption|].
    now apply in_nodes_descend.
Qed.

(** *** What appending a relation changes *)

(** What the criteria of [findDefinitions] and the walk over the function
    properties read of an object. *)
Definition strip (d : SD.SettingDefinition) : string * dict SD.value :=
  (SD._key d, SD.property_values d).

Definition view (n : SR.ref * SD.SettingDefinition) : SR.ref * (string * dict SD.value) :=
  (fst n, strip (snd n)).

(** The references of a list of trees, each with what can be read of its
    object. *)
Definition outline (definitions : list SD.SettingDefinition)
    : list (SR.ref * (string * dict SD.value)) :=
  map view (forest_nodes definitions).

Lemma ref_eqb_eq p q : SR.ref_eqb p q = true <-> p = q.
Proof. unfold SR.ref_eqb. destruct (list_eq_dec Nat.eq_dec p q); split; congruence. Qed.

Lemma ref_eqb_refl p : SR.ref_eqb p p = true.
Proof. now apply ref_eqb_eq. Qed.

Lemma ref_eqb_cons i j p q :
  SR.ref_eqb (i :: p) (j :: q) = (i =? j)%nat && SR.ref_eqb p q.
Proof.
  destruct (SR.ref_eqb (i :: p) (j :: q)) eqn:H.
  - apply ref_eqb_eq in H. inversion H; subst.
    now rewrite Nat.eqb_refl, ref_eqb_refl.
  - destruct (i =? j)%nat eqn:Hij; [|reflexivity].
    destruct (SR.ref_eqb p q) eqn:Hpq; [|reflexivity].
    apply Nat.eqb_eq in Hij. apply ref_eqb_eq in Hpq. subst.
    rewrite ref_eqb_refl in H. discriminate.
Qed.

Lemma nth_error_change_nth {A} (g : A -> A) (j i : nat) (l : list A) :
  nth_error (DC.change_nth g j l) i
  = if (i =? j)%nat then option_map g (nth_error l i) else nth_error l i.
Proof.
  revert j i. induction l as [|x l IH]; intros j i.
  - destruct j, i; simpl; try reflexivity; now destruct (i =? j)%nat.
  - destruct j as [|j], i as [|i]; simpl; try reflexivity.
    apply IH.
Qed.

Lemma has_properties_strip E d d' kwargs :
  strip d = strip d' -> SD.has_properties E d kwargs = SD.has_properties E d' kwargs.
Proof.
  intro H. inversion H as [[Hkey Hvalues]].
  unfold SD.has_properties. f_equal.
  unfold SD.getattr, SD.__getattr__. now rewrite Hkey, Hvalues.
Qed.

(** Two lists of objects with the same outline give [findDefinitions] the
    same references. *)
Lemma filter_same_view E kwargs (l l' : list (SR.ref * SD.SettingDefinition)) :
  map view l = map view l' ->
  map fst (filter (fun n => SD.has_properties E (snd n) kwargs) l)
  = map fst (filter (fun n => SD.has_properties E (snd n) kwargs) l').
Proof.
  revert l'. induction l as [|[p d] l IH]; intros [|[p' d'] l'] H; try discriminate.
  - reflexivity.
  - simpl in H. injection H as Hp Hkey Hvalues Hrest.
    assert (Hs : strip d = strip d') by (unfold strip; congruence).
    simpl. rewrite (has_properties_strip E d d' kwargs Hs).
    destruct (SD.has_properties E d' kwargs); simpl; [f_equal; [exact Hp|]|]; now apply IH.
Qed.

Section Append.
Variable relation : SR.SettingRelation.

Let f (d : SD.SettingDefinition) : SD.SettingDefinition := SD.append_relation d relation.

Lemma view_below i (n : SR.ref * SD.SettingDefinition) :
  view (SR.below i n) = (i :: fst (view n), snd (view n)).
Proof. reflexivity. Qed.

Lemma map_view_each_at (g : SD.SettingDefinition -> SD.SettingDefinition) :
  (forall c, map view (nodes (g c)) = map view (nodes c)) ->
  forall j l i,
    map view (SR.each_at nodes i (DC.change_nth g j l)) = map view (SR.each_at nodes i l).
Proof.
  intros Hg j l. revert j.
  induction l as [|x l IH]; intros j i.
  - now destruct j.
  - destruct j as [|j]; simpl DC.change_nth; rewrite !each_at_cons, !map_app.
    + f_equal. rewrite !map_map.
      rewrite <- !(map_map view (fun v => (i :: fst v, snd v))). now rewrite Hg.
    + f_equal. apply IH.
Qed.

(** Appending a relation somewhere below [d] leaves the outline of [d]. *)
Lemma mutate_below_outline q :
  forall d, map view (nodes (DC.mutate_below f q d)) = map view (nodes d).
Proof.
  induction q as [|j q IH]; intro d.
  - simpl. rewrite !nodes_unfold. reflexivity.
  - simpl. rewrite !nodes_unfold. simpl. f_equal.
    now apply map_view_each_at.
Qed.

Lemma mutate_outline q definitions :
  outline (DC.mutate f q definitions) = outline definitions.
Proof.
  unfold outline, forest_nodes. destruct q as [|j q]; [reflexivity|].
  simpl. apply map_view_each_at. apply mutate_below_outline.
Qed.

(** The relation lists after the append: the list of the object at [q] has
    the relation at its end, the others are as before. *)
Lemma mutate_below_relations q :
  forall d p x,
    DC.descend d p = Some x ->
    exists x',
      DC.descend (DC.mutate_below f q d) p = Some x'
      /\ SD._relations x'
         = (SD._relations x ++ if SR.ref_eqb p q then [relation] else [])%list.
Proof.
  induction q as [|j q IH]; intros d p x Hx.
  - simpl. destruct p as [|i p].
    + inversion Hx; subst. exists (f x). split; reflexivity.
    + exists x. split; [exact Hx|]. simpl. now rewrite app_nil_r.
  - destruct p as [|i p].
    + inversion Hx; subst. eexists. split; [reflexivity|].
      simpl. now rewrite app_nil_r.
    + simpl in Hx. simpl DC.descend.
      rewrite nth_error_change_nth, ref_eqb_cons.
      destruct (nth_error (SD._children d) i) as [c|] eqn:Hc; [|discriminate].
      destruct (i =? j)%nat; simpl.
      * apply (IH c p x Hx).
      * exists x. split; [exact Hx|]. now rewrite app_nil_r.
Qed.

Lemma mutate_relations q definitions p x :
  DC.deref definitions p = Some x ->
  exists x',
    DC.deref (DC.mutate f q definitions) p = Some x'
    /\ SD._relations x'
       = (SD._relations x ++ if SR.ref_eqb p q then [relation] else [])%list.
Proof.
  destruct p as [|i p]; [discriminate|].
  destruct q as [|j q]; intro Hx.
  - exists x. split; [exact Hx|]. simpl. now rewrite app_nil_r.
  - simpl in Hx. simpl DC.deref. rewrite nth_error_change_nth, ref_eqb_cons.
    destruct (nth_error definitions i) as [d|] eqn:Hd; [|discriminate].
    destruct (i =? j)%nat; simpl.
    + now apply mutate_below_relations.
    + exists x. split; [exact Hx|]. now rewrite app_nil_r.
Qed.

End Append.

(** Objects at the same reference in two lists of trees with the same
    outline read the same. *)
Lemma outline_deref definitions definitions' p x' :
  outline definitions = outline definitions' ->
  DC.deref definitions' p = Some x' ->
  exists x, DC.deref definitions p = Some x /\ strip x = strip x'.
Proof.
  intros Hout Hx'.
  apply in_forest_nodes_deref in Hx'.
  apply (in_map view) in Hx'. unfold outline in Hout. rewrite <- Hout in Hx'.
  apply in_map_iff in Hx'. destruct Hx' as ([p0 x] & Hview & Hin).
  unfold view in Hview. simpl in Hview.
  assert (Hp : p0 = p) by congruence.
  assert (Hs : strip x = strip x') by congruence.
  subst p0.
  exists x. split; [now apply in_forest_nodes_deref|exact Hs].
Qed.

(** *** The walk that builds the relations, as a list of appends *)

Lemma and_then_ok {S} (r : run S) (k : S -> run S) :
  raised (and_then r k) = None ->
  raised r = None /\ raised (k (state r)) = None
  /\ state (and_then r k) = state (k (state r)).
Proof.
  unfold and_then. destruct (raised r) eqn:Hr; simpl.
  - intro H. rewrite H in Hr. discriminate.
  - intro H. repeat split; assumption.
Qed.

(** An append: the reference of the object whose list grows, and the
    relation. *)
Definition event : Type := SR.ref * SR.SettingRelation.

Definition apply_events (events : list event) (self : DC.DefinitionContainer)
    : DC.DefinitionContainer :=
  fold_left (fun s e => DC.append_relation s (fst e) (snd e)) events self.

Lemma apply_events_app events events' self :
  apply_events (events ++ events') self = apply_events events' (apply_events events self).
Proof. apply fold_left_app. Qed.

(** The appends of a loop with positions; [i] is the position of the head. *)
Fixpoint events_from {A} (ev : nat -> A -> list event) (i : nat) (l : list A) : list event :=
  match l with
  | [] => []
  | x :: l' => ev i x ++ events_from ev (S i) l'
  end.

Lemma flat_map_each_at {A} (g : SR.ref * SD.SettingDefinition -> list event)
    (visit : A -> list (SR.ref * SD.SettingDefinition)) (l : list A) :
  forall i,
    flat_map g (SR.each_at visit i l)
    = events_from (fun j x => flat_map (fun n => g (SR.below j n)) (visit x)) i l.
Proof.
  induction l as [|x l IH]; intro i; [reflexivity|].
  rewrite each_at_cons, flat_map_app, IH. simpl. f_equal.
  rewrite !flat_map_concat_map, map_map. reflexivity.
Qed.

Section Walk.
Variable E : SD.Env.
(** The container when the walk starts. *)
Variable c0 : DC.DefinitionContainer.

Definition key_is (setting : string) : dict SD.value := [("key", SD.VJson (JStr setting))].

(** The object that a used key resolves to. *)
Definition first_ref (setting : string) : option SR.ref :=
  match DC.findDefinitions E c0 (key_is setting) with
  | [] => None
  | (other, _) :: _ => Some other
  end.

Definition relate_events (at_ : SR.ref) (property setting : string) : list event :=
  match first_ref setting with
  | None => []
  | Some other =>
      [(at_, SR.Build at_ other SR.RequiresTarget property);
       (other, SR.Build other at_ SR.RequiredByTarget property)]
  end.

Definition process_events (at_ : SR.ref) (d : SD.SettingDefinition) (property : string)
    : list event :=
  if SD.hasattr E d property then
    match SD.getattr E d property with
    | Ok (SD.VFunction fn) =>
        flat_map (relate_events at_ property) (SettingFunction.getUsedSettings fn)
    | _ => []
    end
  else [].

Definition node_events (n : SR.ref * SD.SettingDefinition) : list event :=
  flat_map (process_events (fst n) (snd n)) (SD.getPropertyNames E (Some SD.Function)).

(** The appends of the walk below the object [d] at reference [at_]. *)
Definition tree_events (at_ : SR.ref) (d : SD.SettingDefinition) : list event :=
  flat_map (fun n => node_events ((at_ ++ fst n)%list, snd n)) (nodes d).

(** The appends of the whole walk. *)
Definition walk_events : list event :=
  flat_map node_events (forest_nodes (DC._definitions c0)).

(** The walk only appends relations, so the outline stays. *)
Definition same_outline (self : DC.DefinitionContainer) : Prop :=
  outline (DC._definitions self) = outline (DC._definitions c0).

Lemma append_relation_outline self p relation :
  same_outline self -> same_outline (DC.append_relation self p relation).
Proof.
  unfold same_outline, DC.append_relation. simpl. intro H.
  now rewrite (mutate_outline relation p (DC._definitions self)).
Qed.

Lemma apply_events_outline events :
  forall self, same_outline self -> same_outline (apply_events events self).
Proof.
  induction events as [|e events IH]; intros self H; [exact H|].
  simpl. apply IH. now apply append_relation_outline.
Qed.

Lemma found_refs self kwargs :
  same_outline self ->
  map fst (DC.findDefinitions E self kwargs) = map fst (DC.findDefinitions E c0 kwargs).
Proof.
  intro H. rewrite !container_findDefinitions_filter.
  apply filter_same_view. exact H.
Qed.

Lemma relate_correct at_ d property setting self :
  same_outline self ->
  raised (DC.relate E at_ d property setting self) = None
  /\ state (DC.relate E at_ d property setting self)
     = apply_events (relate_events at_ property setting) self.
Proof.
  intro H. pose proof (found_refs self (key_is setting) H) as Hrefs.
  unfold DC.relate, relate_events, first_ref. fold (key_is setting).
  destruct (DC.findDefinitions E self (key_is setting)) as [|[other x] rest];
    destruct (DC.findDefinitions E c0 (key_is setting)) as [|[other0 x0] rest0];
    try discriminate.
  - split; reflexivity.
  - simpl in Hrefs. injection Hrefs as Hother _. subst other0.
    split; reflexivity.
Qed.

(** A loop whose rounds are appends is the appends of its rounds. *)
Lemma for_each_correct {A} (body : A -> DC.DefinitionContainer -> run DC.DefinitionContainer)
    (ev : A -> list event) (l : list A) :
  (forall x self,
      same_outline self -> raised (body x self) = None ->
      state (body x self) = apply_events (ev x) self) ->
  forall self,
    same_outline self -> raised (for_each body l self) = None ->
    state (for_each body l self) = apply_events (flat_map ev l) self.
Proof.
  intro Hbody. induction l as [|x l IH]; intros self Hinv Hok; [reflexivity|].
  change (for_each body (x :: l) self) with (and_then (body x self) (for_each body l)) in *.
  apply and_then_ok in Hok. destruct Hok as (Hx & Hrest & ->).
  simpl flat_map. rewrite apply_events_app, <- (Hbody x self Hinv Hx).
  apply IH; [|exact Hrest].
  rewrite (Hbody x self Hinv Hx). now apply apply_events_outline.
Qed.

Lemma for_each_from_correct {A}
    (body : nat -> A -> DC.DefinitionContainer -> run DC.DefinitionContainer)
    (ev : nat -> A -> list event) (l : list A) :
  Forall (fun x => forall i self,
              same_outline self -> raised (body i x self) = None ->
              state (body i x self) = apply_events (ev i x) self) l ->
  forall i self,
    same_outline self -> raised (for_each_from body i l self) = None ->
    state (for_each_from body i l self) = apply_events (events_from ev i l) self.
Proof.
  induction 1 as [|x l Hx _ IH]; intros i self Hinv Hok; [reflexivity|].
  change (for_each_from body i (x :: l) self)
    with (and_then (body i x self) (for_each_from body (S i) l)) in *.
  apply and_then_ok in Hok. destruct Hok as (Hhead & Hrest & ->).
  simpl events_from. rewrite apply_events_app, <- (Hx i self Hinv Hhead).
  apply IH; [|exact Hrest].
  rewrite (Hx i self Hinv Hhead). now apply apply_events_outline.
Qed.

Lemma processFunction_correct at_ d property self :
  same_outline self ->
  raised (if SD.hasattr E d property
          then DC._processFunction E at_ d property self
          else done self) = None ->
  state (if SD.hasattr E d property
         then DC._processFunction E at_ d property self
         else done self)
  = apply_events (process_events at_ d property) self.
Proof.
  intros Hinv. unfold process_events, DC._processFunction.
  destruct (SD.hasattr E d property); [|reflexivity].
  destruct (SD.getattr E d property) as [[j|fn]|e]; try discriminate.
  apply for_each_correct; [|exact Hinv].
  intros setting self' Hinv' _. now apply relate_correct.
Qed.

Lemma updateRelations_unfold at_ d self :
  DC._updateRelations E at_ d self
  = and_then
      (for_each
         (fun property self =>
            if SD.hasattr E d property
            then DC._processFunction E at_ d property self
            else done self)
         (SD.getPropertyNames E (Some SD.Function)) self)
      (for_each_from (fun i child => DC._updateRelations E (at_ ++ [i])%list child)
         0%nat (SD.children d)).
Proof. destruct d; reflexivity. Qed.

Lemma updateRelations_correct d :
  forall at_ self,
    same_outline self ->
    raised (DC._updateRelations E at_ d self) = None ->
    state (DC._updateRelations E at_ d self) = apply_events (tree_events at_ d) self.
Proof.
  induction d as [d IH] using definition_ind. intros at_ self Hinv Hok.
  rewrite updateRelations_unfold in *.
  apply and_then_ok in Hok. destruct Hok as (Hown & Hchildren & ->).
  assert (Hfirst :
    state (for_each
             (fun property self =>
                if SD.hasattr E d property
                then DC._processFunction E at_ d property self
                else done self)
             (SD.getPropertyNames E (Some SD.Function)) self)
    = apply_events (node_events (at_, d)) self).
  { apply for_each_correct; [|exact Hinv|exact Hown].
    intros property self' Hinv' Hok'. now apply processFunction_correct. }
  rewrite Hfirst in *.
  unfold tree_events. rewrite nodes_unfold. simpl flat_map.
  rewrite app_nil_r, apply_events_app, flat_map_each_at.
  apply for_each_from_correct; [| now apply apply_events_outline | exact Hchildren].
  unfold SD.children. eapply Forall_impl; [|exact IH].
  intros c Hc i self' Hinv' Hok'. rewrite (Hc _ _ Hinv' Hok'). f_equal.
  unfold tree_events. apply flat_map_ext. intros [q x]. simpl.
  now rewrite <- app_assoc.
Qed.

(** The walk over all trees, from the container it starts with. *)
Lemma walk_correct :
  raised (for_each_from (fun i definition => DC._updateRelations E [i] definition)
            0%nat (DC._definitions c0) c0) = None ->
  state (for_each_from (fun i definition => DC._updateRelations E [i] definition)
           0%nat (DC._definitions c0) c0)
  = apply_events walk_events c0.
Proof.
  intro Hok. unfold walk_events, forest_nodes. rewrite flat_map_each_at.
  apply for_each_from_correct; [|reflexivity|exact Hok].
  apply Forall_forall. intros d _ i self Hinv Hok'.
  now rewrite (updateRelations_correct d [i] self Hinv Hok').
Qed.

End Walk.

(** *** Deserialised definitions start without relations *)

(** No object below [d], [d] included, has a relation. *)
Inductive clean : SD.SettingDefinition -> Prop :=
| clean_node d :
    SD._relations d = [] -> Forall clean (SD._children d) -> clean d.

Lemma clean_descend p :
  forall d x, clean d -> DC.descend d p = Some x -> SD._relations x = [].
Proof.
  induction p as [|i p IH]; intros d x Hclean Hx.
  - inversion Hx; subst. now inversion Hclean.
  - simpl in Hx. destruct (nth_error (SD._children d) i) as [c|] eqn:Hc; [|discriminate].
    inversion Hclean as [d' _ Hchildren]; subst.
    rewrite Forall_forall in Hchildren.
    apply (IH c x (Hchildren c (nth_error_In _ _ Hc)) Hx).
Qed.

Lemma clean_deref definitions p x :
  Forall clean definitions -> DC.deref definitions p = Some x -> SD._relations x = [].
Proof.
  intros Hclean Hx. destruct p as [|i p]; [discriminate|]. simpl in Hx.
  destruct (nth_error definitions i) as [d|] eqn:Hd; [|discriminate].
  rewrite Forall_forall in Hclean.
  apply (clean_descend p d x (Hclean d (nth_error_In _ _ Hd)) Hx).
Qed.

Section JsonInduction.
Variable P : json -> Prop.
Hypothesis step :
  forall j,
    match j with
    | JObj items => Forall (fun kv => P (snd kv)) items
    | _ => True
    end -> P j.

Fixpoint json_members_ind (j : json) : P j :=
  step j
    (match j as j0 return match j0 with
                          | JObj items => Forall (fun kv => P (snd kv)) items
                          | _ => True
                          end with
     | JObj items =>
         (fix all (l : list (string * json)) : Forall (fun kv => P (snd kv)) l :=
            match l with
            | [] => Forall_nil _
            | (k, v) :: l' => Forall_cons (k, v) (json_members_ind v) (all l')
            end) items
     | _ => I
     end).

End JsonInduction.

Section Clean.
Variable E : SD.Env.

(** While the keys of a document are processed, the object has no
    relation and its children are clean. *)
Definition building (self : SD.SettingDefinition) : Prop :=
  SD._relations self = [] /\ Forall clean (SD._children self).

(** [dict_case] gives a clean object for the document [j] when it
    succeeds. *)
Definition gives_clean (dict_case : SD.SettingDefinition -> json -> run SD.SettingDefinition)
    (j : json) : Prop :=
  forall self, raised (dict_case self j) = None -> clean (state (dict_case self j)).

Definition text_gives_clean
    (text_case : SD.SettingDefinition -> string -> run SD.SettingDefinition) : Prop :=
  forall self text, raised (text_case self text) = None -> clean (state (text_case self text)).

Lemma store_property_building self key value :
  building self -> building (state (SD.store_property E self key value)).
Proof.
  unfold SD.store_property. intro H.
  destruct (dict_get key (SD.__property_definitions E)) as [d|]; [|exact H].
  destruct (if key =? "type" then SD.check_type E value else None); [exact H|].
  destruct (SD.type d); try exact H.
  destruct (SD.new_SettingFunction E (SD.str E value)); exact H.
Qed.

Lemma deserialize_children_building dict_case text_case children :
  text_gives_clean text_case ->
  Forall (fun kv => gives_clean dict_case (snd kv)) children ->
  forall self,
    building self ->
    building (state (SD.deserialize_children dict_case text_case children self)).
Proof.
  intros Htext Hall. induction Hall as [|[child_key child_dict] rest Hchild _ IH];
    intros self Hself; [exact Hself|].
  simpl SD.deserialize_children.
  set (child := SD.__init__ child_key (SD._i18n_catalog self)).
  set (r := match child_dict with
            | JObj _ => dict_case child child_dict
            | JStr text => text_case child text
            | _ => fail child TypeError
            end).
  assert (Hclean : raised r = None -> clean (state r)).
  { unfold r. destruct child_dict; try discriminate.
    - apply Htext.
    - apply Hchild. }
  destruct (raised r) eqn:Hr; [exact Hself|].
  apply IH. destruct Hself as [Hrel Hchildren]. split; [exact Hrel|].
  simpl. apply Forall_app. split; [exact Hchildren|].
  constructor; [now apply Hclean|constructor].
Qed.

Lemma deserialize_items_building dict_case text_case items :
  text_gives_clean text_case ->
  (forall key children,
      In (key, JObj children) items ->
      Forall (fun kv => gives_clean dict_case (snd kv)) children) ->
  forall self,
    building self ->
    building (state (SD.deserialize_items E dict_case text_case items self)).
Proof.
  intros Htext. induction items as [|[key value] rest IH]; intros Hmembers self Hself;
    [exact Hself|].
  cbn [SD.deserialize_items]. fold (SD.deserialize_items E dict_case text_case).
  set (step := if key =? "children"
               then match value with
                    | JObj children => SD.deserialize_children dict_case text_case children self
                    | _ => fail self (AttributeError (NoAttribute "items"))
                    end
               else SD.store_property E self key value).
  assert (Hstep : building (state step)).
  { unfold step. destruct (key =? "children").
    - destruct value as [| b | z | s | l | children]; try exact Hself.
      apply deserialize_children_building; [exact Htext| |exact Hself].
      apply (Hmembers key). now left.
    - now apply store_property_building. }
  destruct (raised step); [exact Hstep|].
  apply IH; [|exact Hstep].
  intros k c Hin. apply (Hmembers k). now right.
Qed.

Lemma check_required_state r : state (SD.check_required E r) = state r.
Proof.
  unfold SD.check_required. destruct (raised r); [reflexivity|].
  now destruct (SD.first_missing_required E (state r)).
Qed.

Lemma deserialize_dict_clean text_case :
  text_gives_clean text_case ->
  forall j, gives_clean (SD._deserialize_dict E text_case) j.
Proof.
  intro Htext.
  assert (H : forall j,
             gives_clean (SD._deserialize_dict E text_case) j
             /\ match j with
                | JObj items =>
                    Forall (fun kv => gives_clean (SD._deserialize_dict E text_case) (snd kv))
                           items
                | _ => True
                end).
  { induction j as [j IH] using json_members_ind.
    destruct j as [| b | z | s | l | items];
      try (split; [intros self Hok; discriminate|exact I]).
    split.
    - intros self _.
      change (SD._deserialize_dict E text_case self (JObj items))
        with (SD.check_required E
                (SD.deserialize_items E (SD._deserialize_dict E text_case) text_case items
                   (SD.reset self))).
      rewrite check_required_state.
      destruct (deserialize_items_building (SD._deserialize_dict E text_case) text_case
                  items Htext) with (self := SD.reset self) as [Hrel Hchildren].
      + intros key children Hin.
        rewrite Forall_forall in IH. apply (IH _ Hin).
      + split; [reflexivity|constructor].
      + now constructor.
    - eapply Forall_impl; [|exact IH]. intros kv Hkv. apply Hkv. }
  intro j. apply H.
Qed.

Lemma text_case_clean depth : text_gives_clean (SD.text_case E depth).
Proof.
  induction depth as [|depth IH]; intros self text.
  - discriminate.
  - simpl SD.text_case.
    destruct depth as [|depth']; simpl SD.deserialize_text;
      (destruct (SD.json_loads E text) as [parsed|e]; [|discriminate]).
    + apply (deserialize_dict_clean _ IH).
    + apply (deserialize_dict_clean (SD.deserialize_text E depth') IH).
Qed.

(** A definition that [deserialize] has filled has no relation, nor has
    any object below it. *)
Lemma deserialize_clean depth self serialized :
  raised (SD.deserialize E depth self serialized) = None ->
  clean (state (SD.deserialize E depth self serialized)).
Proof.
  destruct serialized as [| b | z | text | l | items]; try discriminate.
  - apply (text_case_clean (S depth)).
  - apply (deserialize_dict_clean _ (text_case_clean depth)).
Qed.

(** The loop over the settings of a document adds clean trees. *)
Lemma load_settings_clean depth items :
  forall self,
    Forall clean (DC._definitions self) ->
    Forall clean (DC._definitions (state (for_each (DC.load_setting E depth) items self))).
Proof.
  induction items as [|entry items IH]; intros self Hself; [exact Hself|].
  change (for_each (DC.load_setting E depth) (entry :: items) self)
    with (and_then (DC.load_setting E depth entry self) (for_each (DC.load_setting E depth) items)).
  assert (Hstep : Forall clean (DC._definitions (state (DC.load_setting E depth entry self)))).
  { unfold DC.load_setting.
    destruct (raised (SD.deserialize E depth _ (snd entry))) eqn:Hr; [exact Hself|].
    simpl. apply Forall_app. split; [exact Hself|].
    constructor; [now apply deserialize_clean|constructor]. }
  unfold and_then. destruct (raised (DC.load_setting E depth entry self)); [exact Hstep|].
  simpl. now apply IH.
Qed.

End Clean.

(** *** From [deserialize] to the walk *)

Section Loaded.
Variable E : SD.Env.
Variable read_resource : string -> result json.

(** A successful [load] into a container without definitions is a walk
    that starts from a container whose trees are clean. *)
Lemma load_is_walk limit parsed self :
  DC._definitions self = [] ->
  raised (DC.load E limit parsed self) = None ->
  exists c0,
    Forall clean (DC._definitions c0)
    /\ state (DC.load E limit parsed self) = apply_events (walk_events E c0) c0.
Proof.
  intros Hfresh. unfold DC.load.
  destruct (py_in "metadata" parsed) as [[|]|]; try discriminate.
  destruct (py_in "settings" parsed) as [[|]|]; try discriminate.
  destruct (py_getitem parsed "name") as [name|]; try discriminate.
  destruct (py_getitem parsed "metadata") as [metadata|]; try discriminate.
  destruct (py_getitem parsed "settings") as [settings|]; try discriminate.
  destruct (py_items settings) as [items|]; try discriminate.
  intro Hok. apply and_then_ok in Hok. destruct Hok as (_ & Hwalk & ->).
  set (c0 := state (for_each (DC.load_setting E limit) items
                      (DC.set_metadata (DC.set_name self name) metadata))) in *.
  exists c0. split.
  - apply load_settings_clean. simpl. rewrite Hfresh. constructor.
  - now apply walk_correct.
Qed.

Lemma deserialize_is_walk limit self serialized :
  DC._definitions self = [] ->
  raised (DC.deserialize E read_resource limit self serialized) = None ->
  exists c0,
    Forall clean (DC._definitions c0)
    /\ state (DC.deserialize E read_resource limit self serialized)
       = apply_events (walk_events E c0) c0.
Proof.
  intros Hfresh. unfold DC.deserialize.
  destruct (SD.json_loads E serialized) as [parsed|]; try discriminate.
  destruct (DC._verifyJson parsed); try discriminate.
  destruct (DC.preprocess read_resource limit parsed) as [parsed'|]; try discriminate.
  now apply load_is_walk.
Qed.

End Loaded.

(** *** The relation lists after the appends *)

Lemma apply_events_relations events :
  forall self p x,
    DC.deref (DC._definitions self) p = Some x ->
    exists x',
      DC.deref (DC._definitions (apply_events events self)) p = Some x'
      /\ SD._relations x'
         = (SD._relations x ++ map snd (filter (fun e => SR.ref_eqb p (fst e)) events))%list.
Proof.
  induction events as [|[q relation] events IH]; intros self p x Hx.
  - exists x. split; [exact Hx|]. simpl. now rewrite app_nil_r.
  - destruct (mutate_relations relation q (DC._definitions self) p x Hx) as (x1 & Hx1 & Hrel1).
    destruct (IH (DC.append_relation self q relation) p x1 Hx1) as (x' & Hx' & Hrel').
    exists x'. split; [exact Hx'|].
    rewrite Hrel', Hrel1, <- app_assoc. f_equal.
    simpl. now destruct (SR.ref_eqb p q).
Qed.

(** *** Counting *)

Definition count {A} (P : A -> bool) (l : list A) : nat := List.length (filter P l).

Lemma count_app {A} (P : A -> bool) l l' : count P (l ++ l') = (count P l + count P l')%nat.
Proof. unfold count. now rewrite filter_app, length_app. Qed.

Lemma count_none {A} (P : A -> bool) l : (forall x, In x l -> P x = false) -> count P l = 0%nat.
Proof.
  unfold count. induction l as [|x l IH]; intro H; [reflexivity|].
  simpl. rewrite (H x (or_introl eq_refl)). apply IH. intros y Hy. apply H. now right.
Qed.

(** In a list without repetition, when only [x] contributes, the count over
    all is the count over [x]. *)
Lemma count_flat_map_one {A B} (P : B -> bool) (f : A -> list B) (l : list A) (x : A) :
  NoDup l -> In x l ->
  (forall y, In y l -> y <> x -> count P (f y) = 0%nat) ->
  count P (flat_map f l) = count P (f x).
Proof.
  induction 1 as [|y l Hnotin Hnodup IH]; intros Hin Hothers; [contradiction|].
  simpl flat_map. rewrite count_app. destruct Hin as [->|Hin].
  - assert (Hrest : count P (flat_map f l) = 0%nat).
    { apply count_none. intros b Hb. apply in_flat_map in Hb.
      destruct Hb as (z & Hz & Hb).
      assert (Hzero : count P (f z) = 0%nat).
      { apply Hothers; [now right|]. intros ->. contradiction. }
      unfold count in Hzero. apply length_zero_iff_nil in Hzero.
      destruct (P b) eqn:HP; [|reflexivity].
      assert (Hbin : In b (filter P (f z))) by (apply filter_In; auto).
      rewrite Hzero in Hbin. contradiction. }
    rewrite Hrest. apply Nat.add_0_r.
  - rewrite (Hothers y (or_introl eq_refl)) by (intros ->; contradiction).
    apply IH; [exact Hin|].
    intros z Hz Hne. apply Hothers; [now right|exact Hne].
Qed.

Lemma count_map_filter {A B} (Q : B -> bool) (L : A -> bool) (g : A -> B) (l : list A) :
  count Q (map g (filter L l)) = count (fun e => L e && Q (g e)) l.
Proof.
  unfold count. induction l as [|x l IH]; [reflexivity|].
  simpl. destruct (L x); simpl; [destruct (Q (g x)); simpl; now rewrite IH|exact IH].
Qed.

Lemma NoDup_map_fst_filter {A B} (keep : A * B -> bool) (l : list (A * B)) :
  NoDup (map fst l) -> NoDup (map fst (filter keep l)).
Proof.
  induction l as [|x l IH]; intro H; [constructor|].
  simpl in H. inversion H as [|? ? Hnotin Hrest]; subst.
  simpl. destruct (keep x); [|now apply IH].
  simpl. constructor; [|now apply IH].
  intro Hin. apply Hnotin. apply in_map_iff in Hin.
  destruct Hin as (y & Hy & Hin). apply filter_In in Hin.
  apply in_map_iff. exists y. tauto.
Qed.

(** *** Relation pairing *)

(** [r] is an edge of kind [t] to [target], tagged [role]. *)
Definition is_edge (t : SR.RelationType) (target : SR.ref) (role : string)
    (r : SR.SettingRelation) : bool :=
  SR.RelationType_eqb (SR.type r) t && SR.ref_eqb (SR.target r) target && (SR.role r =? role).

Lemma dict_get_In {A} (k : string) (d : dict A) (v : A) :
  dict_get k d = Some v -> In (k, v) d.
Proof.
  induction d as [|[k' v'] d IH]; simpl; [discriminate|].
  destruct (k' =? k) eqn:Hk.
  - apply String.eqb_eq in Hk. intro H. inversion H; subst. now left.
  - intro H. right. now apply IH.
Qed.

Section Pairing.
Variable E : SD.Env.
Variable c0 : DC.DefinitionContainer.

Lemma has_properties_key x s :
  SD.has_properties E x (key_is s) = (SD._key x =? s).
Proof.
  unfold SD.has_properties, key_is, SD.getattr. simpl.
  now destruct (SD._key x =? s).
Qed.

(** A used key resolves to an object that has this key. *)
Lemma first_ref_sound s o :
  first_ref E c0 s = Some o ->
  exists x, DC.deref (DC._definitions c0) o = Some x /\ SD._key x = s.
Proof.
  unfold first_ref. rewrite container_findDefinitions_filter.
  destruct (filter _ _) as [|[o' x] rest] eqn:Hfilter; [discriminate|].
  intro H. inversion H; subst o'.
  assert (Hin : In (o, x) (filter (fun n => SD.has_properties E (snd n) (key_is s))
                             (forest_nodes (DC._definitions c0))))
    by (rewrite Hfilter; now left).
  apply filter_In in Hin. destruct Hin as [Hin Hkey].
  exists x. split; [now apply in_forest_nodes_deref|].
  simpl in Hkey. rewrite has_properties_key in Hkey. now apply String.eqb_eq.
Qed.

(** The two appends that one use of a key makes. *)
Definition pair_of (at_ other : SR.ref) (property : string) : list event :=
  [(at_, SR.Build at_ other SR.RequiresTarget property);
   (other, SR.Build other at_ SR.RequiredByTarget property)].

Lemma in_relate_events e at_ property setting :
  In e (relate_events E c0 at_ property setting) ->
  exists other, first_ref E c0 setting = Some other /\ In e (pair_of at_ other property).
Proof.
  unfold relate_events. destruct (first_ref E c0 setting) as [other|]; [|contradiction].
  intro H. exists other. split; [reflexivity|exact H].
Qed.

Lemma in_process_events e at_ d property :
  In e (process_events E c0 at_ d property) ->
  exists setting other,
    first_ref E c0 setting = Some other /\ In e (pair_of at_ other property).
Proof.
  unfold process_events.
  destruct (SD.hasattr E d property); [|contradiction].
  destruct (SD.getattr E d property) as [[j|fn]|]; try contradiction.
  intro H. apply in_flat_map in H. destruct H as (setting & _ & H).
  apply in_relate_events in H. destruct H as (other & Hfirst & H).
  exists setting, other. auto.
Qed.

Lemma in_node_events e n :
  In e (node_events E c0 n) ->
  exists property setting other,
    first_ref E c0 setting = Some other /\ In e (pair_of (fst n) other property).
Proof.
  unfold node_events. intro H. apply in_flat_map in H.
  destruct H as (property & _ & H). apply in_process_events in H.
  destruct H as (setting & other & H). exists property, setting, other. exact H.
Qed.

Lemma function_names_NoDup :
  NoDup (keys (SD.__property_definitions E)) ->
  NoDup (SD.getPropertyNames E (Some SD.Function)).
Proof. intro H. unfold SD.getPropertyNames. now apply NoDup_map_fst_filter. Qed.

Lemma function_names_In name pd :
  dict_get name (SD.__property_definitions E) = Some pd ->
  SD.type pd = SD.Function ->
  In name (SD.getPropertyNames E (Some SD.Function)).
Proof.
  intros Hget Htype. unfold SD.getPropertyNames.
  apply in_map_iff. exists (name, pd). split; [reflexivity|].
  apply filter_In. split; [now apply dict_get_In|].
  simpl. now rewrite Htype.
Qed.

(** The count, over the whole walk, of the appends that [P] selects, when
    [P] selects only among the two appends that the use of [A]'s key in the
    [enabled] function of [B] makes. *)
Lemma walk_count (P : event -> bool) pA pB B fn k pd :
  (forall at_ other property e,
      at_ <> pB \/ property <> "enabled" \/ other <> pA ->
      In e (pair_of at_ other property) -> P e = false) ->
  NoDup (keys (SD.__property_definitions E)) ->
  dict_get "enabled" (SD.__property_definitions E) = Some pd ->
  SD.type pd = SD.Function ->
  DC.deref (DC._definitions c0) pB = Some B ->
  dict_get "enabled" (SD.property_values B) = Some (SD.VFunction fn) ->
  NoDup (SettingFunction.getUsedSettings fn) ->
  In k (SettingFunction.getUsedSettings fn) ->
  first_ref E c0 k = Some pA ->
  count P (walk_events E c0) = count P (pair_of pB pA "enabled").
Proof.
  intros Hother Hschema Hget Htype HB Henabled Hused Hk HA.
  unfold walk_events.
  (* only the object at [pB] contributes *)
  rewrite (count_flat_map_one P (node_events E c0) _ (pB, B)).
  2: { apply (NoDup_map_inv fst). apply NoDup_forest_nodes. }
  2: { now apply in_forest_nodes_deref. }
  2: { intros [q x] Hin Hne. apply count_none. intros e He.
       apply in_node_events in He. destruct He as (property & setting & other & _ & He).
       apply (Hother q other property e); [|exact He].
       left. simpl. intros ->. apply Hne.
       apply in_forest_nodes_deref in Hin. congruence. }
  (* of its function properties, only [enabled] *)
  unfold node_events. simpl fst. simpl snd.
  rewrite (count_flat_map_one P (process_events E c0 pB B) _ "enabled").
  2: { now apply function_names_NoDup. }
  2: { now apply (function_names_In "enabled" pd). }
  2: { intros property _ Hne. apply count_none. intros e He.
       apply in_process_events in He. destruct He as (setting & other & _ & He).
       apply (Hother pB other property e); [|exact He]. right. now left. }
  (* of the keys it uses, only [k] *)
  assert (Hprocess : process_events E c0 pB B "enabled"
                     = flat_map (relate_events E c0 pB "enabled")
                         (SettingFunction.getUsedSettings fn)).
  { unfold process_events, SD.hasattr, SD.getattr, SD.__getattr__, dict_in.
    simpl. now rewrite Hget, Henabled. }
  rewrite Hprocess.
  rewrite (count_flat_map_one P (relate_events E c0 pB "enabled") _ k Hused Hk).
  2: { intros s _ Hne. apply count_none. intros e He.
       apply in_relate_events in He. destruct He as (other & Hfirst & He).
       apply (Hother pB other "enabled" e); [|exact He]. right. right.
       intros ->.
       destruct (first_ref_sound s pA Hfirst) as (x & Hx & Hkey).
       destruct (first_ref_sound k pA HA) as (x' & Hx' & Hkey').
       apply Hne. congruence. }
  unfold relate_events. now rewrite HA.
Qed.

End Pairing.

Section Loading.
Variable E : SD.Env.
Variable read_resource : string -> result json.

(** C5.  Relation pairing.  Load a document into a container that has no
    definitions yet.  Let [B] be a definition of the loaded container (at
    reference [pB]) whose [enabled] property is a function that uses the
    key [k], and let [A] (at [pA]) be the definition that the key resolves
    to, the first that [findDefinitions(key = k)] returns; [enabled] is
    registered as a function property, the names of the schema are the keys
    of a dictionary, and the used keys are a set.  Then the relation list of
    [A] holds exactly one [RequiredByTarget] edge to [B] tagged [enabled],
    and the relation list of [B] exactly one [RequiresTarget] edge to [A]
    tagged [enabled].  And a used key that no definition has is skipped: the
    round of the loop logs a warning, raises nothing and leaves the
    container as it is. *)
Theorem relation_pairing :
  (forall (limit : nat) (self : DC.DefinitionContainer) (serialized : string)
          (pA pB : SR.ref) (A B : SD.SettingDefinition)
          (fn : SettingFunction.SettingFunction) (k : string)
          (pd : SD.PropertyDefinition)
          (rest : list (SR.ref * SD.SettingDefinition)),
      let r := DC.deserialize E read_resource limit self serialized in
      DC._definitions self = [] ->
      raised r = None ->
      NoDup (keys (SD.__property_definitions E)) ->
      dict_get "enabled" (SD.__property_definitions E) = Some pd ->
      SD.type pd = SD.Function ->
      DC.deref (DC._definitions (state r)) pB = Some B ->
      dict_get "enabled" (SD.property_values B) = Some (SD.VFunction fn) ->
      NoDup (SettingFunction.getUsedSettings fn) ->
      In k (SettingFunction.getUsedSettings fn) ->
      DC.findDefinitions E (state r) [("key", SD.VJson (JStr k))] = (pA, A) :: rest ->
      List.length (filter (is_edge SR.RequiredByTarget pB "enabled")
                     (DC.relations_at (state r) pA)) = 1%nat
      /\ List.length (filter (is_edge SR.RequiresTarget pA "enabled") (SD.relations B)) = 1%nat)
  /\ (forall (self : DC.DefinitionContainer) (at_ : SR.ref) (definition : SD.SettingDefinition)
             (property setting : string),
         DC.findDefinitions E self [("key", SD.VJson (JStr setting))] = [] ->
         DC.relate E at_ definition property setting self
         = {| state := self;
              logged := [Log "w" "Function for definition %s references unknown definition %s"
                             [SD.key definition; setting]];
              raised := None |}).
Proof.
  split.
  2: { intros self at_ definition property setting Hnone.
       unfold DC.relate. now rewrite Hnone. }
  intros limit self serialized pA pB A B fn k pd rest r
         Hfresh Hok Hschema Hget Htype HB Henabled Hused Hk Hfound.
  destruct (deserialize_is_walk E read_resource limit self serialized Hfresh Hok)
    as (c0 & Hclean & Hstate).
  fold r in Hstate. rewrite Hstate in *.
  assert (Hout : same_outline c0 (apply_events (walk_events E c0) c0))
    by (apply apply_events_outline; reflexivity).
  (* the hypotheses, said of the container the walk starts from *)
  assert (HA0 : first_ref E c0 k = Some pA).
  { pose proof (found_refs E c0 _ (key_is k) Hout) as Hrefs.
    unfold key_is in Hrefs. rewrite Hfound in Hrefs. unfold first_ref, key_is.
    destruct (DC.findDefinitions E c0 [("key", SD.VJson (JStr k))]) as [|[o x] l];
      [discriminate|].
    simpl in Hrefs. congruence. }
  destruct (outline_deref (DC._definitions c0) _ pB B (eq_sym Hout) HB) as (B0 & HB0 & HstripB).
  assert (Henabled0 : dict_get "enabled" (SD.property_values B0) = Some (SD.VFunction fn)).
  { unfold strip in HstripB. congruence. }
  destruct (first_ref_sound E c0 k pA HA0) as (A0 & HA0' & _).
  (* the relation lists are what the walk appended *)
  destruct (apply_events_relations (walk_events E c0) c0 pA A0 HA0') as (A' & HA' & HrelA).
  destruct (apply_events_relations (walk_events E c0) c0 pB B0 HB0) as (B' & HB' & HrelB).
  rewrite HB in HB'. injection HB' as <-.
  rewrite (clean_deref _ _ _ Hclean HA0') in HrelA.
  rewrite (clean_deref _ _ _ Hclean HB0) in HrelB.
  unfold DC.relations_at, SD.relations. rewrite HA', HrelA, HrelB. simpl app.
  fold (count (is_edge SR.RequiredByTarget pB "enabled")
          (map snd (filter (fun e => SR.ref_eqb pA (fst e)) (walk_events E c0)))).
  fold (count (is_edge SR.RequiresTarget pA "enabled")
          (map snd (filter (fun e => SR.ref_eqb pB (fst e)) (walk_events E c0)))).
  rewrite !count_map_filter. split.
  - rewrite (walk_count E c0 _ pA pB B0 fn k pd); try assumption.
    + unfold count, pair_of, is_edge. simpl. now rewrite !ref_eqb_refl, !andb_false_r.
    + intros at_ other property e Hne [<-|[<-|[]]]; unfold is_edge; simpl.
      * apply andb_false_r.
      * destruct (SR.ref_eqb pA other) eqn:H1; [|reflexivity].
        destruct (SR.ref_eqb at_ pB) eqn:H2; [|reflexivity].
        destruct (property =? "enabled") eqn:H3; [|reflexivity].
        apply ref_eqb_eq in H1, H2. apply String.eqb_eq in H3.
        exfalso. destruct Hne as [Hne|[Hne|Hne]]; apply Hne; congruence.
  - rewrite (walk_count E c0 _ pA pB B0 fn k pd); try assumption.
    + unfold count, pair_of, is_edge. simpl. now rewrite !ref_eqb_refl, !andb_false_r.
    + intros at_ other property e Hne [<-|[<-|[]]]; unfold is_edge; simpl.
      * destruct (SR.ref_eqb pB at_) eqn:H1; [|reflexivity].
        destruct (SR.ref_eqb other pA) eqn:H2; [|reflexivity].
        destruct (property =? "enabled") eqn:H3; [|reflexivity].
        apply ref_eqb_eq in H1, H2. apply String.eqb_eq in H3.
        exfalso. destruct Hne as [Hne|[Hne|Hne]]; apply Hne; congruence.
      * apply andb_false_r.
Qed.

End Loading.

(** *** A sample: [B] is enabled by [A] *)

(** The settings [A] and [B], where the [enabled] function of [B] is the
    expression [A]. *)
Definition pairing_document : json :=
  DefinitionProofs.document (JInt 2)
    [("A", DefinitionProofs.category "A");
     ("B", JObj [("label", JStr "B"); ("type", JStr "bool"); ("description", JStr "d");
                 ("enabled", JStr "A")])]
    None.

Definition pairing_env : SD.Env := Sample.settings [("pairing", pairing_document)].

Definition pairing_run : run DC.DefinitionContainer :=
  DC.deserialize pairing_env Sample.no_resources 8 (DC.__init__ "pairing" None) "pairing".

Definition object_at (p : SR.ref) : SD.SettingDefinition :=
  match DC.deref (DC._definitions (state pairing_run)) p with
  | Some d => d
  | None => SD.__init__ "" None
  end.

Lemma default_schema_NoDup : NoDup (keys SD.default_property_definitions).
Proof.
  unfold keys. simpl.
  repeat (constructor; [simpl; intuition discriminate|]). constructor.
Qed.

Lemma relation_pairing_witness :
  List.length (filter (is_edge SR.RequiredByTarget [1%nat] "enabled")
                 (DC.relations_at (state pairing_run) [0%nat])) = 1%nat
  /\ List.length (filter (is_edge SR.RequiresTarget [0%nat] "enabled")
                    (SD.relations (object_at [1%nat]))) = 1%nat.
Proof.
  apply (proj1 (relation_pairing pairing_env Sample.no_resources)
               8%nat (DC.__init__ "pairing" None) "pairing"
               [0%nat] [1%nat] (object_at [0%nat]) (object_at [1%nat])
               (SettingFunction.Build "A" ["A"]) "A"
               (SD.Property SD.Function false false) []).
  - reflexivity.
  - reflexivity.
  - exact default_schema_NoDup.
  - reflexivity.
  - reflexivity.
  - reflexivity.
  - reflexivity.
  - constructor; [intros []|constructor].
  - now left.
  - reflexivity.
Defined.

Example pairing_relations :
  DC.relations_at (state pairing_run) [0%nat]
  = [SR.Build [0%nat] [1%nat] SR.RequiredByTarget "enabled"]
  /\ DC.relations_at (state pairing_run) [1%nat]
     = [SR.Build [1%nat] [0%nat] SR.RequiresTarget "enabled"].
Proof. split; reflexivity. Qed.

End RelationProofs.

(* ===================================================================== *)
(** ** Further properties of the container stack *)
(* ===================================================================== *)

Module StackExtras.
Import Py ContainerStack.

Lemma with_containers_same (self : ContainerStack) :
  with_containers self (_containers self) = self.
Proof. now destruct self. Qed.

(** *** Adding, replacing and removing *)

Section Priority.
Variable E : Env.

(** X1.  Priority order.  [addContainer] of a container other than the
    stack itself puts it at index 0, where it is asked first: when it
    answers a value other than [None] for a key, [getValue] of the stack is
    that value, whatever the other containers hold; when it answers [None],
    [getValue] is what it was before the call. *)
Theorem addContainer_is_asked_first (self : ContainerStack)
    (c : Container ContainerStack) (key : string) :
  is_ c self = false ->
  let r := addContainer self c in
  raised r = None
  /\ getContainer (state r) (Int 0) = Ok c
  /\ (forall v, container_getValue E (getValue E) key c = Ok v ->
                v <> SettingDefinition.None_ ->
                getValue E (state r) key = Ok v)
  /\ (container_getValue E (getValue E) key c = Ok SettingDefinition.None_ ->
      getValue E (state r) key = getValue E self key).
Proof.
  intros Hc r. unfold r, addContainer. rewrite Hc.
  change (state (done (with_containers self (c :: _containers self))))
    with (with_containers self (c :: _containers self)).
  split; [reflexivity|]. split; [reflexivity|].
  rewrite !StackProofs.getValue_unfold.
  replace (_next_stack (with_containers self (c :: _containers self)))
    with (_next_stack self) by now destruct self.
  replace (_containers (with_containers self (c :: _containers self)))
    with (c :: _containers self) by now destruct self.
  split.
  - intros v Hv Hne. now apply StackProofs.first_value_hit.
  - intro Hnone.
    apply (StackProofs.first_value_skip _ _ [c] (_containers self)).
    now constructor.
Qed.

End Priority.

(** An instance container that holds a value for the key [speed]. *)
Definition fast : Container ContainerStack :=
  Instances (Sample.instance "fast" [("speed", SettingDefinition.VJson (JInt 100))]).

Lemma addContainer_is_asked_first_witness :
  let r := addContainer StackProofs.two_instances fast in
  raised r = None
  /\ getContainer (state r) (Int 0) = Ok fast
  /\ (forall v, container_getValue (Sample.env [] [] [] []) (getValue (Sample.env [] [] [] []))
                  "speed" fast = Ok v ->
                v <> SettingDefinition.None_ ->
                getValue (Sample.env [] [] [] []) (state r) "speed" = Ok v)
  /\ (container_getValue (Sample.env [] [] [] []) (getValue (Sample.env [] [] [] []))
        "speed" fast = Ok SettingDefinition.None_ ->
      getValue (Sample.env [] [] [] []) (state r) "speed"
      = getValue (Sample.env [] [] [] []) StackProofs.two_instances "speed").
Proof.
  apply (addContainer_is_asked_first (Sample.env [] [] [] []) StackProofs.two_instances fast
           "speed").
  reflexivity.
Defined.

(** One of the containers of the stack is the stack. *)
Definition holds_itself (self : ContainerStack) : bool :=
  existsb (fun c => is_ c self) (_containers self).

Lemma existsb_replace_nth {A} (P : A -> bool) (k : nat) (x : A) (l : list A) :
  existsb P l = false -> P x = false -> existsb P (replace_nth k x l) = false.
Proof.
  intros Hl Hx. revert k Hl. induction l as [|y l IH]; intros [|k] Hl; simpl in *;
    try reflexivity; apply orb_false_iff in Hl; destruct Hl as [Hy Hl].
  - now rewrite Hx.
  - now rewrite Hy, IH.
Qed.

Lemma existsb_remove_nth {A} (P : A -> bool) (k : nat) (l : list A) :
  existsb P l = false -> existsb P (remove_nth k l) = false.
Proof.
  revert k. induction l as [|y l IH]; intros [|k] Hl; simpl in *;
    try reflexivity; apply orb_false_iff in Hl; destruct Hl as [Hy Hl].
  - exact Hl.
  - now rewrite Hy, IH.
Qed.

(** X2.  Self reference.  The methods that change the list of containers
    never put the stack into itself: when none of its containers is the
    stack, that is still so after [addContainer], [replaceContainer] and
    [removeContainer], with any container and any index, whether the call
    raises or not.  Given the stack itself, [addContainer] raises, and
    [replaceContainer] raises [IndexError] for the index -1 and an
    [Exception] for every other index. *)
Theorem stack_never_holds_itself
    (self : ContainerStack) (c : Container ContainerStack) (i : index) :
  holds_itself self = false ->
  holds_itself (state (addContainer self c)) = false
  /\ holds_itself (state (replaceContainer self i c)) = false
  /\ holds_itself (state (removeContainer self i)) = false
  /\ addContainer self (Stack_ self) = fail self (Exception_ "Unable to add stack to itself.")
  /\ replaceContainer self i (Stack_ self)
     = fail self (if is_minus_one i then IndexError
                  else Exception_ "Unable to replace container with ContainerStack (self) ").
Proof.
  intro H. unfold holds_itself in *.
  split; [|split; [|split; [|split]]].
  - unfold addContainer. destruct (is_ c self) eqn:Hc; [exact H|].
    change (is_ c self || existsb (fun c => is_ c self) (_containers self) = false).
    now rewrite Hc, H.
  - unfold replaceContainer. destruct (is_minus_one i); [exact H|].
    destruct (is_ c self) eqn:Hc; [exact H|].
    unfold list_setitem. destruct i as [z|]; [|exact H].
    destruct (position (List.length (_containers self)) z) as [k|]; [|exact H].
    change (existsb (fun c => is_ c self) (replace_nth k c (_containers self)) = false).
    now apply existsb_replace_nth.
  - unfold removeContainer. destruct (is_minus_one i); [exact H|].
    unfold list_delitem. destruct i as [z|]; [|exact H].
    destruct (position (List.length (_containers self)) z) as [k|]; [|exact H].
    change (existsb (fun c => is_ c self) (remove_nth k (_containers self)) = false).
    now apply existsb_remove_nth.
  - unfold addContainer. simpl is_. now rewrite Nat.eqb_refl.
  - unfold replaceContainer. simpl is_. rewrite Nat.eqb_refl.
    now destruct (is_minus_one i).
Qed.

Lemma stack_never_holds_itself_witness :
  holds_itself (state (replaceContainer StackProofs.two_instances (Int 1)
                         (Stack_ StackProofs.two_instances))) = false.
Proof.
  apply (proj1 (proj2 (stack_never_holds_itself StackProofs.two_instances
                         (Stack_ StackProofs.two_instances) (Int 1) eq_refl))).
Defined.




(** X4.  Undoing.  [removeContainer()] (index 0) after [addContainer(c)]
    gives back the stack as it was, and [getContainer(0)] after
    [replaceContainer(0, c)] on a stack that is not empty returns [c]. *)
Theorem add_then_remove_restores (self : ContainerStack) (c : Container ContainerStack) :
  is_ c self = false ->
  removeContainer (state (addContainer self c)) (Int 0) = done self
  /\ (_containers self <> [] ->
      getContainer (state (replaceContainer self (Int 0) c)) (Int 0) = Ok c).
Proof.
  intro Hc. split.
  - unfold addContainer. rewrite Hc. now destruct self.
  - intro Hne. destruct self as [a id name meta [|c0 cs] next]; [contradiction|].
    unfold replaceContainer. simpl is_minus_one. cbv iota.
    rewrite Hc. reflexivity.
Qed.

Lemma add_then_remove_witness :
  removeContainer
    (state (addContainer StackProofs.two_instances (Instances (Sample.instance "c3" []))))
    (Int 0)
  = done StackProofs.two_instances.
Proof.
  apply (proj1 (add_then_remove_restores StackProofs.two_instances
                  (Instances (Sample.instance "c3" [])) eq_refl)).
Defined.

(** *** [findContainer] *)

(** On metadata that are a dictionary the test of one container raises
    nothing: it asks that every key of the filter is there with an equal
    value. *)
Lemma matches_dictionary (meta_data filter_ : dict json) :
  matches (JObj meta_data) filter_
  = Ok (forallb (fun kv => match dict_get (fst kv) meta_data with
                           | Some found => py_eq found (snd kv)
                           | None => false
                           end) filter_).
Proof.
  induction filter_ as [|[key wanted] rest IH]; [reflexivity|].
  cbn [matches py_getitem forallb fst snd].
  destruct (dict_get key meta_data) as [found|]; [|reflexivity].
  destruct (py_eq found wanted); [exact IH|reflexivity].
Qed.

(** X5.  [findContainer] returns the first container whose metadata gives,
    for every key of the filter, a value equal to the filter's: the
    containers before it do not match; a container it returns is one of
    the stack and matches; and it returns [None] when no container matches
    (so for an empty stack), and the first container for an empty
    filter.  A container whose metadata are a dictionary matches exactly
    when every key of the filter is in them with an equal value; a key that
    is missing makes no error. *)
Theorem findContainer_first_match (self : ContainerStack) (filter_ : dict json) :
  let fits c := matches (container_getMetaData c) filter_ in
  (forall pre c post,
      _containers self = (pre ++ c :: post)%list ->
      Forall (fun c' => fits c' = Ok false) pre ->
      fits c = Ok true ->
      findContainer self filter_ = Ok (Some c))
  /\ (forall c, findContainer self filter_ = Ok (Some c) ->
                In c (_containers self) /\ fits c = Ok true)
  /\ (Forall (fun c' => fits c' = Ok false) (_containers self) ->
      findContainer self filter_ = Ok None)
  /\ (filter_ = [] ->
      findContainer self filter_
      = Ok (match _containers self with c :: _ => Some c | [] => None end))
  /\ (forall c meta_data,
        container_getMetaData c = JObj meta_data ->
        fits c = Ok (forallb (fun kv => match dict_get (fst kv) meta_data with
                                        | Some found => py_eq found (snd kv)
                                        | None => false
                                        end) filter_)).
Proof.
  intro fits.
  assert (Hdict : forall c meta_data,
             container_getMetaData c = JObj meta_data ->
             fits c = Ok (forallb (fun kv => match dict_get (fst kv) meta_data with
                                             | Some found => py_eq found (snd kv)
                                             | None => false
                                             end) filter_)).
  { intros c meta_data H. unfold fits. rewrite H. apply matches_dictionary. }
  unfold findContainer.
  generalize (_containers self) as cs. intro cs.
  split; [|split; [|split; [|split; [|exact Hdict]]]].
  - intros pre c post -> Hpre Hc.
    induction Hpre as [|c' pre Hc' _ IH]; simpl.
    + fold (fits c). now rewrite Hc.
    + fold (fits c'). rewrite Hc'. exact IH.
  - intro c. induction cs as [|c' cs IH]; [discriminate|]. simpl. fold (fits c').
    destruct (fits c') as [[|]|] eqn:Hc'; try discriminate.
    + intro H. inversion H; subst. split; [now left|exact Hc'].
    + intro H. destruct (IH H) as [Hin Hfits]. split; [now right|exact Hfits].
  - induction 1 as [|c' cs' Hc' _ IH]; [reflexivity|].
    simpl. fold (fits c'). now rewrite Hc'.
  - intros ->. destruct cs; reflexivity.
Qed.

(** A stack of an instance container without metadata and a stack with the
    metadata [{"kind": "machine"}]. *)
Definition tagged : ContainerStack :=
  Build 1 "stack" "stack" []
        [Instances (Sample.instance "plain" []);
         Stack_ (Build 2 "inner" "inner" [("kind", "machine")] [] None)]
        None.

Lemma findContainer_witness :
  findContainer tagged [("kind", JStr "machine")]
  = Ok (Some (Stack_ (Build 2 "inner" "inner" [("kind", "machine")] [] None))).
Proof.
  apply (proj1 (findContainer_first_match tagged [("kind", JStr "machine")])
               [Instances (Sample.instance "plain" [])]
               (Stack_ (Build 2 "inner" "inner" [("kind", "machine")] [] None)) []).
  - reflexivity.
  - constructor; [reflexivity|constructor].
  - reflexivity.
Defined.

(** X6.  [setName] stores the name and emits [nameChanged] exactly when
    the name differs from the one the stack has; a second call with the
    same name changes nothing and emits nothing. *)
Theorem setName_emits_on_change (self : ContainerStack) (name : string) :
  getName (fst (setName self name)) = name
  /\ (snd (setName self name) = true <-> name <> getName self)
  /\ setName (fst (setName self name)) name = (fst (setName self name), false).
Proof.
  unfold setName, getName.
  destruct (name =? _name self) eqn:H; simpl.
  - apply String.eqb_eq in H. split; [congruence|]. split.
    + split; [discriminate|]. intro Hn. now elim Hn.
    + now rewrite (proj2 (String.eqb_eq _ _) H).
  - apply String.eqb_neq in H. split; [reflexivity|]. split.
    + split; auto.
    + now rewrite String.eqb_refl.
Qed.


(** *** Reading a document *)

Section Reading.
Variable E : Env.

(** X7.  Documents that are turned away.  When the INI reader raises,
    [deserialize] raises the same; when the document has no [general]
    section, or that section lacks one of [version], [name] and [id],
    it raises [InvalidContainerStackError]; when [int] raises on the text
    of the version, it raises the same.  In each case the stack is left as
    it was. *)
Theorem deserialize_turns_away (self : ContainerStack) (serialized : string) :
  (forall e, read_string E serialized = Raise e ->
             deserialize E self serialized = fail self e)
  /\ (forall parser,
        read_string E serialized = Ok parser ->
        ConfigParser.has_section "general" parser = false
        \/ ConfigParser.has_option "general" "version" parser = false
        \/ ConfigParser.has_option "general" "name" parser = false
        \/ ConfigParser.has_option "general" "id" parser = false ->
        deserialize E self serialized = fail self InvalidContainerStackError)
  /\ (forall parser version name id e,
        read_string E serialized = Ok parser ->
        StackProofs.has_general parser version name id ->
        int_ E version = Raise e ->
        deserialize E self serialized = fail self e).
Proof.
  split; [|split].
  - intros e He. unfold deserialize. now rewrite He.
  - intros parser Hread H. unfold deserialize. rewrite Hread.
    destruct H as [H|[H|[H|H]]]; rewrite H; simpl;
      rewrite ?orb_true_r; reflexivity.
  - intros parser version name id e Hread Hgen Hint.
    rewrite (StackProofs.deserialize_general E _ _ _ _ _ _ Hread Hgen).
    now rewrite Hint.
Qed.

(** X8.  Reading adds to the stack.  For a document of the right version
    whose container ids are all empty or known to the registry,
    [deserialize] succeeds; the stack takes the document's name and id;
    the containers the ids resolve to come after the containers the stack
    held already, which stay; and the stack's metadata are replaced by the
    document's [metadata] section, or kept when the document has none. *)
Theorem deserialize_appends
    (self : ContainerStack) (serialized : string) (parser : ConfigParser.ConfigParser)
    (version name id : string) :
  read_string E serialized = Ok parser ->
  StackProofs.has_general parser version name id ->
  int_ E version = Ok Version ->
  let ids :=
    split_commas (match ConfigParser.get "general" "containers" parser with
                  | Some text => text
                  | None => ""
                  end) in
  Forall (fun id => id = "" \/ find_container E id <> None) ids ->
  let r := deserialize E self serialized in
  raised r = None
  /\ getName (state r) = name
  /\ getId (state r) = id
  /\ getContainers (state r) = (getContainers self ++ StackProofs.resolved E ids)%list
  /\ getMetaData (state r)
     = (if ConfigParser.has_section "metadata" parser
        then ConfigParser.items "metadata" parser
        else getMetaData self)
  /\ getNextStack (state r) = getNextStack self.
Proof.
  intros Hread Hgen Hint ids Hids r. unfold r.
  rewrite (StackProofs.deserialize_general E _ _ _ _ _ _ Hread Hgen), Hint.
  simpl negb. cbv iota. fold ids.
  rewrite (StackProofs.resolve_known E ids _ Hids).
  destruct (ConfigParser.has_section "metadata" parser); repeat split.
Qed.

End Reading.

(** A document without [id]. *)
Definition without_id : string :=
  Sample.write (ConfigParser.Build [] [("general", [("version", "2"); ("name", "N")])]).

Lemma deserialize_turns_away_witness :
  deserialize StackProofs.knows_a StackProofs.two_instances without_id
  = fail StackProofs.two_instances InvalidContainerStackError.
Proof.
  apply (proj1 (proj2 (deserialize_turns_away StackProofs.knows_a
                         StackProofs.two_instances without_id))
               (ConfigParser.Build [] [("general", [("version", "2"); ("name", "N")])])).
  - vm_compute. reflexivity.
  - right. right. right. reflexivity.
Defined.

(** A document without a [metadata] section that lists [a]. *)
Definition lists_a : string :=
  Sample.write
    (ConfigParser.Build []
       [("general", [("version", "2"); ("name", "N"); ("id", "I"); ("containers", "a,")])]).

Lemma deserialize_appends_witness :
  let r := deserialize StackProofs.knows_a StackProofs.round_trip_stack lists_a in
  raised r = None
  /\ getName (state r) = "N"
  /\ getId (state r) = "I"
  /\ getContainers (state r)
     = [StackProofs.c1_sample; StackProofs.c2_sample; Instances (Sample.instance "a" [])]
  /\ getMetaData (state r) = [("x", "1")]
  /\ getNextStack (state r) = None.
Proof.
  apply (deserialize_appends StackProofs.knows_a StackProofs.round_trip_stack lists_a
           (ConfigParser.Build []
              [("general", [("version", "2"); ("name", "N"); ("id", "I");
                            ("containers", "a,")])])
           "2" "N" "I").
  - vm_compute. reflexivity.
  - repeat split.
  - reflexivity.
  - constructor; [right; discriminate|]. constructor; [left; reflexivity|constructor].
Defined.


(** *** The list of container ids *)

Lemma join_ids_from (cs : list (Container ContainerStack)) (acc : string) :
  fold_left (fun container_id_string container =>
               container_id_string ++ container_getId container ++ ",")
            cs acc
  = acc ++ join_ids cs.
Proof.
  unfold join_ids.
  set (f := fun (container_id_string : string) (container : Container ContainerStack) =>
              container_id_string ++ container_getId container ++ ",").
  revert acc. induction cs as [|c cs IH]; intro acc.
  - simpl. clear. induction acc as [|x acc IH]; simpl; [|rewrite <- IH]; reflexivity.
  - change (fold_left f cs (acc ++ container_getId c ++ ",")
            = acc ++ fold_left f cs (container_getId c ++ ",")).
    rewrite (IH (acc ++ container_getId c ++ ",")), (IH (container_getId c ++ ",")).
    now rewrite !StackProofs.append_assoc.
Qed.

Lemma join_ids_cons (c : Container ContainerStack) (cs : list (Container ContainerStack)) :
  join_ids (c :: cs) = container_getId c ++ String ","%char (join_ids cs).
Proof.
  unfold join_ids at 1. simpl fold_left. rewrite join_ids_from.
  simpl append. now rewrite StackProofs.append_assoc.
Qed.

(** The number of commas of a text. *)
Fixpoint commas (text : string) : nat :=
  match text with
  | EmptyString => 0
  | String c rest => (if Ascii.eqb c ","%char then 1 else 0) + commas rest
  end.

Lemma length_split_commas (text : string) :
  List.length (split_commas text) = S (commas text).
Proof.
  unfold split_commas. induction text as [|c rest IH]; simpl; [reflexivity|].
  destruct (Ascii.eqb c ","%char); simpl; [now rewrite IH|].
  destruct (split_char ","%char rest); simpl in *; lia.
Qed.

Lemma commas_append (a b : string) : commas (a ++ b) = commas a + commas b.
Proof. induction a as [|c a IH]; simpl; [|rewrite IH]; lia. Qed.

Lemma has_comma_commas (text : string) :
  StackProofs.has_comma text = true -> 1 <= commas text.
Proof.
  induction text as [|c rest IH]; simpl; [discriminate|].
  destruct (Ascii.eqb c ","%char); simpl; [lia|exact IH].
Qed.

Lemma commas_join_ids (cs : list (Container ContainerStack)) :
  List.length cs <= commas (join_ids cs).
Proof.
  induction cs as [|c cs IH]; [simpl; lia|].
  rewrite join_ids_cons, commas_append. simpl. lia.
Qed.

Lemma split_back_ids (cs : list (Container ContainerStack)) :
  Forall (fun c => StackProofs.has_comma (container_getId c) = false) cs ->
  split_commas (join_ids cs) = (map container_getId cs ++ [""])%list.
Proof.
  induction 1 as [|c cs Hc _ IH]; [reflexivity|].
  rewrite join_ids_cons, (StackProofs.split_commas_word _ _ Hc), IH. reflexivity.
Qed.

(** X9.  The ids that [serialize] writes and [deserialize] splits.  When no
    container id holds a comma, splitting the text that [serialize] puts
    under [containers] at the commas gives the ids in the order of the
    stack, followed by one empty string.  When some id holds a comma, the
    text splits into more pieces than that: nothing is escaped. *)
Theorem container_ids_split_back (cs : list (Container ContainerStack)) :
  (Forall (fun c => StackProofs.has_comma (container_getId c) = false) cs ->
   split_commas (join_ids cs) = (map container_getId cs ++ [""])%list)
  /\ (Exists (fun c => StackProofs.has_comma (container_getId c) = true) cs ->
      List.length cs + 1 < List.length (split_commas (join_ids cs))).
Proof.
  split.
  - apply split_back_ids.
  - rewrite length_split_commas.
    induction 1 as [c cs Hc|c cs _ IH];
      rewrite join_ids_cons, commas_append; simpl.
    + apply has_comma_commas in Hc. pose proof (commas_join_ids cs). lia.
    + lia.
Qed.

Lemma container_ids_split_back_witness :
  split_commas (join_ids [StackProofs.c1_sample; StackProofs.c2_sample]) = ["c1"; "c2"; ""].
Proof.
  apply (proj1 (container_ids_split_back [StackProofs.c1_sample; StackProofs.c2_sample])).
  repeat constructor.
Defined.

(** *** Round trip of any stack *)

(** The metadata as the parser keeps them: the keys in lower case. *)
Definition lowered (metadata : dict string) : dict string :=
  map (fun kv => (ConfigParser.optionxform (fst kv), snd kv)) metadata.

Lemma dict_set_new {A} (k : string) (v : A) (d : dict A) :
  ~ In k (keys d) -> dict_set k v d = (d ++ [(k, v)])%list.
Proof.
  induction d as [|[k' v'] d IH]; simpl; intro H; [reflexivity|].
  destruct (k' =? k) eqn:Hk.
  - apply String.eqb_eq in Hk. elim H. now left.
  - rewrite IH; [reflexivity|]. intro Hin. apply H. now right.
Qed.

Lemma set_metadata_all (general : dict string) (metadata acc : dict string) :
  NoDup (keys acc ++ keys (lowered metadata)) ->
  fold_left (fun parser kv => ConfigParser.set "metadata" (fst kv) (snd kv) parser)
            metadata
            (ConfigParser.Build [] [("general", general); ("metadata", acc)])
  = ConfigParser.Build [] [("general", general); ("metadata", (acc ++ lowered metadata)%list)].
Proof.
  revert acc. induction metadata as [|[k v] metadata IH]; intros acc H; simpl fold_left.
  - simpl. now rewrite app_nil_r.
  - change (ConfigParser.set "metadata" k v
              (ConfigParser.Build [] [("general", general); ("metadata", acc)]))
      with (ConfigParser.Build []
              [("general", general);
               ("metadata", dict_set (ConfigParser.optionxform k) v acc)]).
    simpl in H.
    rewrite dict_set_new by (apply NoDup_remove_2 in H; intro Hin; apply H, in_or_app; now left).
    rewrite IH.
    + simpl. now rewrite <- app_assoc.
    + unfold keys. rewrite map_app, <- app_assoc. exact H.
Qed.

(** The parser that [serialize] fills. *)
Lemma serialize_parser_sections (self : ContainerStack) :
  NoDup (keys (lowered (_metadata self))) ->
  serialize_parser self
  = ConfigParser.Build []
      [("general", [("version", str_int Version); ("name", _name self); ("id", _id self);
                    ("containers", join_ids (_containers self))]);
       ("metadata", lowered (_metadata self))].
Proof.
  intro H. unfold serialize_parser. cbv zeta.
  set (parser := ConfigParser.set_empty_section "metadata" _).
  assert (Hparser :
    parser = ConfigParser.Build []
               [("general", [("version", str_int Version); ("name", _name self);
                             ("id", _id self)]);
                ("metadata", [])]) by reflexivity.
  rewrite Hparser, set_metadata_all by exact H.
  reflexivity.
Qed.

Section RoundTrip.
Variable E : Env.

(** The registry finds, for the id of [c], a container with that id. *)
Definition registered (c : Container ContainerStack) : Prop :=
  exists c', find_container E (container_getId c) = Some c'
             /\ container_getId c' = container_getId c.

Lemma resolved_registered (cs : list (Container ContainerStack)) :
  Forall (fun c => container_getId c <> "" /\ registered c) cs ->
  Forall (fun id => id = "" \/ find_container E id <> None)
         (map container_getId cs ++ [""])
  /\ map container_getId (StackProofs.resolved E (map container_getId cs ++ [""]))
     = map container_getId cs.
Proof.
  induction 1 as [|c cs (Hne & c' & Hfind & Hid) _ (IH1 & IH2)].
  - split; [repeat constructor; now left|reflexivity].
  - split.
    + simpl. constructor; [right; rewrite Hfind; discriminate|exact IH1].
    + unfold StackProofs.resolved in *. simpl.
      apply String.eqb_neq in Hne. rewrite Hne, Hfind. simpl.
      now rewrite Hid, IH2.
Qed.

(** X10.  Round trip of any stack.  Take a stack whose metadata keys stay
    distinct in lower case, whose containers have ids that are not empty
    and hold no comma, and for each of which the registry finds a container
    with that id.  Suppose the INI reader gives back the parser that the
    writer was given, and [int] reads the text of the version back.  Then
    deserialising the output of [serialize] into a new stack succeeds and
    gives the same id, the same name and the same container ids in the same
    order; the metadata come back with their keys in lower case, so they
    are the same when the keys were in lower case. *)
Theorem round_trip_of_any_stack (self : ContainerStack) (address : nat) (stack_id : string) :
  NoDup (keys (lowered (_metadata self))) ->
  Forall (fun c => container_getId c <> ""
                   /\ StackProofs.has_comma (container_getId c) = false
                   /\ registered c) (_containers self) ->
  read_string E (serialize E self) = Ok (serialize_parser self) ->
  int_ E (str_int Version) = Ok Version ->
  let r := deserialize E (__init__ address stack_id) (serialize E self) in
  raised r = None
  /\ getId (state r) = getId self
  /\ getName (state r) = getName self
  /\ map container_getId (getContainers (state r))
     = map container_getId (getContainers self)
  /\ getMetaData (state r) = lowered (getMetaData self)
  /\ (Forall (fun k => ConfigParser.optionxform k = k) (keys (getMetaData self)) ->
      getMetaData (state r) = getMetaData self).
Proof.
  intros Hkeys Hcs Hread Hint r.
  assert (Hids : Forall (fun c => StackProofs.has_comma (container_getId c) = false)
                        (_containers self))
    by (eapply Forall_impl; [|exact Hcs]; now intros c (_ & H & _)).
  assert (Hreg : Forall (fun c => container_getId c <> "" /\ registered c) (_containers self))
    by (eapply Forall_impl; [|exact Hcs]; now intros c (H1 & _ & H2)).
  destruct (resolved_registered _ Hreg) as [Hknown Hsame].
  assert (Hr : r = done (with_containers
                           (set_general (__init__ address stack_id) (_name self) (_id self)
                              (Some (lowered (_metadata self))))
                           (StackProofs.resolved E
                              (map container_getId (_containers self) ++ [""])))).
  { unfold r.
    rewrite (StackProofs.deserialize_general E _ _ _ (str_int Version) (_name self) (_id self)
               Hread)
      by (rewrite (serialize_parser_sections self Hkeys); repeat split).
    rewrite Hint. simpl negb. cbv iota.
    rewrite (serialize_parser_sections self Hkeys).
    change (ConfigParser.get "general" "containers" _)
      with (Some (join_ids (_containers self))).
    change (ConfigParser.has_section "metadata" _) with true.
    change (ConfigParser.items "metadata" _) with (lowered (_metadata self) ++ [])%list.
    cbv iota. rewrite app_nil_r.
    rewrite (split_back_ids _ Hids).
    now rewrite (StackProofs.resolve_known E _ _ Hknown). }
  rewrite Hr. simpl state. simpl raised.
  split; [reflexivity|]. split; [reflexivity|]. split; [reflexivity|].
  split; [exact Hsame|]. split; [reflexivity|].
  unfold getMetaData. simpl _metadata. unfold lowered.
  generalize (_metadata self) as m. intros m Hfix.
  induction m as [|[k v] m IH]; [reflexivity|].
  simpl in *. inversion Hfix as [|? ? Hk Hrest]; subst.
  now rewrite Hk, (IH Hrest).
Qed.

End RoundTrip.

(** A stack with three containers and two metadata entries, one of them
    with a key in capitals. *)
Definition three_containers : ContainerStack :=
  Build 1 "stack" "My stack" [("x", "1"); ("Kind", "machine")]
        [StackProofs.c2_sample; StackProofs.c1_sample; StackProofs.c2_sample] None.

Lemma round_trip_of_any_stack_witness :
  let r := deserialize StackProofs.round_trip_world (__init__ 2 "new")
             (serialize StackProofs.round_trip_world three_containers) in
  raised r = None
  /\ getId (state r) = "stack"
  /\ getName (state r) = "My stack"
  /\ map container_getId (getContainers (state r)) = ["c2"; "c1"; "c2"]
  /\ getMetaData (state r) = [("x", "1"); ("kind", "machine")]
  /\ (Forall (fun k => ConfigParser.optionxform k = k) ["x"; "Kind"] ->
      getMetaData (state r) = [("x", "1"); ("Kind", "machine")]).
Proof.
  apply (round_trip_of_any_stack StackProofs.round_trip_world three_containers 2 "new").
  - repeat constructor; simpl; intuition discriminate.
  - repeat constructor; try discriminate;
      (eexists; split; [reflexivity|reflexivity]).
  - vm_compute. reflexivity.
  - reflexivity.
Defined.

End StackExtras.

(* ===================================================================== *)
(** ** Further properties of the definition container *)
(* ===================================================================== *)

Module DefinitionExtras.
Import Py.
Module SD := SettingDefinition.
Module SR := SettingRelation.
Module DC := DefinitionContainer.

(** *** [findDefinitions] *)

(** X11.  [findDefinitions(key = k)] of a container finds every object of
    its trees whose key is [k], and nothing else: an object is listed with
    its reference exactly when the reference leads to it and its key is
    [k], and no reference is listed twice.  Without a criterion,
    [findDefinitions()] lists every object of the trees, each once. *)
Theorem findDefinitions_finds_the_matches
    (E : SD.Env) (self : DC.DefinitionContainer) (k : string) :
  (forall p d,
      In (p, d) (DC.findDefinitions E self [("key", SD.VJson (JStr k))])
      <-> DC.deref (DC._definitions self) p = Some d /\ SD.key d = k)
  /\ NoDup (map fst (DC.findDefinitions E self [("key", SD.VJson (JStr k))]))
  /\ (forall p d,
        In (p, d) (DC.findDefinitions E self [])
        <-> DC.deref (DC._definitions self) p = Some d)
  /\ NoDup (map fst (DC.findDefinitions E self [])).
Proof.
  split; [|split; [|split]].
  - intros p d. rewrite RelationProofs.container_findDefinitions_filter, filter_In.
    rewrite RelationProofs.in_forest_nodes_deref. simpl snd.
    change [("key", SD.VJson (JStr k))] with (RelationProofs.key_is k).
    rewrite RelationProofs.has_properties_key. unfold SD.key.
    now rewrite String.eqb_eq.
  - rewrite RelationProofs.container_findDefinitions_filter.
    apply RelationProofs.NoDup_map_fst_filter, RelationProofs.NoDup_forest_nodes.
  - intros p d. rewrite RelationProofs.container_findDefinitions_filter, filter_In.
    rewrite RelationProofs.in_forest_nodes_deref. simpl. tauto.
  - rewrite RelationProofs.container_findDefinitions_filter.
    apply RelationProofs.NoDup_map_fst_filter, RelationProofs.NoDup_forest_nodes.
Qed.

(** *** Inheritance *)

Section Inheritance.
Variable E : SD.Env.
Variable read_resource : string -> result json.

Lemma cycle_runs_out (on_cycle : json -> Prop) :
  (forall name, on_cycle name ->
     exists doc base,
       DC._loadFile read_resource name = Ok doc
       /\ DC._verifyJson doc = None
       /\ py_in "inherits" doc = Ok true
       /\ py_getitem doc "inherits" = Ok base
       /\ on_cycle base) ->
  forall limit name,
    on_cycle name ->
    DC._resolveInheritance read_resource limit name = Raise RecursionError.
Proof.
  intros Hcycle limit. induction limit as [|limit IH]; intros name Hname; [reflexivity|].
  destruct (Hcycle name Hname) as (doc & base & Hload & Hverify & Hin & Hget & Hbase).
  simpl. rewrite Hload, Hverify, Hin, Hget. now rewrite (IH base Hbase).
Qed.

(** X12.  Inheritance that runs in a circle.  Take file names each of
    which loads a document that passes [_verifyJson] and inherits from one
    of them again.  [_resolveInheritance] of such a name raises
    [RecursionError] whatever the recursion limit, and [deserialize] of a
    document that inherits from such a name raises it too and leaves the
    container as it was. *)
Theorem inheritance_cycle_never_resolves (on_cycle : json -> Prop) :
  (forall name, on_cycle name ->
     exists doc base,
       DC._loadFile read_resource name = Ok doc
       /\ DC._verifyJson doc = None
       /\ py_in "inherits" doc = Ok true
       /\ py_getitem doc "inherits" = Ok base
       /\ on_cycle base) ->
  (forall limit name,
      on_cycle name ->
      DC._resolveInheritance read_resource limit name = Raise RecursionError)
  /\ (forall limit self serialized parsed base,
        SD.json_loads E serialized = Ok parsed ->
        DC._verifyJson parsed = None ->
        py_in "inherits" parsed = Ok true ->
        py_getitem parsed "inherits" = Ok base ->
        on_cycle base ->
        DC.deserialize E read_resource limit self serialized = fail self RecursionError).
Proof.
  intro Hcycle. split.
  - now apply cycle_runs_out.
  - intros limit self serialized parsed base Hloads Hverify Hin Hget Hbase.
    unfold DC.deserialize, DC.preprocess.
    rewrite Hloads, Hverify, Hin, Hget.
    now rewrite (cycle_runs_out on_cycle Hcycle limit base Hbase).
Qed.

End Inheritance.

(** A file that inherits from itself. *)
Definition narcissus : json :=
  JObj [("version", JInt 2); ("name", JStr "a"); ("inherits", JStr "a")].

Definition only_narcissus (file_name : string) : result json :=
  if file_name =? "a.def.json" then Ok narcissus
  else Raise (CollaboratorError "no such file").

Lemma inheritance_cycle_witness :
  DC._resolveInheritance only_narcissus 1000 (JStr "a") = Raise RecursionError.
Proof.
  apply (proj1 (inheritance_cycle_never_resolves (Sample.settings []) only_narcissus
                  (fun name => name = JStr "a")
                  (fun name H =>
                     ex_intro _ narcissus
                       (ex_intro _ (JStr "a")
                          (conj (f_equal (DC._loadFile only_narcissus) H)
                             (conj eq_refl (conj eq_refl (conj eq_refl eq_refl)))))))).
  reflexivity.
Defined.

(** *** [_mergeDicts] *)

Lemma dict_get_none {A} (k : string) (d : dict A) :
  ~ In k (keys d) -> dict_get k d = None.
Proof.
  induction d as [|[k' v] d IH]; simpl; intro H; [reflexivity|].
  destruct (k' =? k) eqn:Hk.
  - apply String.eqb_eq in Hk. elim H. now left.
  - apply IH. intro Hin. apply H. now right.
Qed.

Lemma dict_get_some_in {A} (k : string) (d : dict A) (v : A) :
  dict_get k d = Some v -> In k (keys d).
Proof.
  intro H. apply RelationProofs.dict_get_In in H.
  apply in_map_iff. now exists (k, v).
Qed.

Lemma keys_dict_set {A} (k : string) (v : A) (d : dict A) :
  keys (dict_set k v d) = (keys d ++ if dict_in k d then [] else [k])%list.
Proof.
  unfold dict_in. induction d as [|[k' v'] d IH]; simpl; [reflexivity|].
  destruct (k' =? k) eqn:Hk; simpl.
  - apply String.eqb_eq in Hk. subst k'. now rewrite app_nil_r.
  - now rewrite IH.
Qed.

(** What the merge puts under a key of [second] that holds [value], when
    [first] holds [old] there. *)
Definition merged_value (old : option json) (value : json) : option json :=
  match value, old with
  | JObj _, Some old =>
      match DC._mergeDicts old value with
      | Ok merged => Some merged
      | Raise _ => None
      end
  | _, _ => Some value
  end.

(** One round of the loop of [_mergeDicts], on a dictionary. *)
Lemma merge_round (key : string) (value : json) (rest first : dict json) :
  DC.merge_items DC._mergeDicts ((key, value) :: rest) (JObj first)
  = match value, dict_get key first with
    | JObj _, Some old =>
        match DC._mergeDicts old value with
        | Ok merged =>
            DC.merge_items DC._mergeDicts rest (JObj (dict_set key merged first))
        | Raise e => Raise e
        end
    | _, _ => DC.merge_items DC._mergeDicts rest (JObj (dict_set key value first))
    end.
Proof.
  cbn [DC.merge_items py_in]. unfold dict_in.
  destruct (dict_get key first) as [old|] eqn:Hold; cbn [py_getitem py_setitem].
  - rewrite Hold. destruct value; try reflexivity.
    now destruct (DC._mergeDicts old (JObj items)).
  - now destruct value.
Qed.

Lemma merge_items_spec (second : dict json) :
  forall first : dict json,
    NoDup (keys second) ->
    (forall k old v,
        dict_get k first = Some old -> dict_get k second = Some (JObj v) ->
        exists merged, DC._mergeDicts old (JObj v) = Ok merged) ->
    exists result_,
      DC.merge_items DC._mergeDicts second (JObj first) = Ok (JObj result_)
      /\ keys result_
         = (keys first ++ filter (fun k => negb (dict_in k first)) (keys second))%list
      /\ forall k,
           dict_get k result_
           = match dict_get k second with
             | None => dict_get k first
             | Some value => merged_value (dict_get k first) value
             end.
Proof.
  induction second as [|[key value] rest IH]; intros first Hnodup Hok.
  - exists first. simpl. rewrite app_nil_r. repeat split.
  - simpl in Hnodup. inversion Hnodup as [|? ? Hfresh Hrest]; subst.
    assert (Hnew : exists x,
               merged_value (dict_get key first) value = Some x
               /\ DC.merge_items DC._mergeDicts ((key, value) :: rest) (JObj first)
                  = DC.merge_items DC._mergeDicts rest (JObj (dict_set key x first))).
    { rewrite merge_round. unfold merged_value.
      destruct (dict_get key first) as [old|] eqn:Hold.
      - destruct value as [| b | z | s | l | v]; try (eexists; split; reflexivity).
        destruct (Hok key old v Hold) as [merged Hmerged].
        { simpl. now rewrite String.eqb_refl. }
        rewrite Hmerged. eexists; split; reflexivity.
      - destruct value; eexists; split; reflexivity. }
    destruct Hnew as (x & Hx & Hround).
    assert (Hother : forall k, In k (keys rest) ->
               dict_get k (dict_set key x first) = dict_get k first).
    { intros k Hin. rewrite SettingProofs.dict_get_set.
      destruct (key =? k) eqn:Hk; [|reflexivity].
      apply String.eqb_eq in Hk. subst k. contradiction. }
    destruct (IH (dict_set key x first) Hrest) as (result_ & Hrun & Hkeys & Hget).
    { intros k old v Hold Hv.
      pose proof (dict_get_some_in _ _ _ Hv) as Hin.
      rewrite (Hother k Hin) in Hold.
      apply (Hok k old v Hold). simpl.
      destruct (key =? k) eqn:Hk; [|exact Hv].
      apply String.eqb_eq in Hk. subst k. contradiction. }
    exists result_. split; [now rewrite Hround|]. split.
    + rewrite Hkeys, keys_dict_set. simpl filter. rewrite <- app_assoc. f_equal.
      replace (filter (fun k => negb (dict_in k (dict_set key x first))) (keys rest))
        with (filter (fun k => negb (dict_in k first)) (keys rest)).
      * now destruct (dict_in key first).
      * apply filter_ext_in. intros k Hin. unfold dict_in. now rewrite (Hother k Hin).
    + intro k. rewrite Hget. simpl dict_get.
      destruct (key =? k) eqn:Hk.
      * apply String.eqb_eq in Hk. subst k.
        rewrite (dict_get_none _ _ Hfresh), SettingProofs.dict_get_set, String.eqb_refl.
        now rewrite Hx.
      * rewrite SettingProofs.dict_get_set, Hk. reflexivity.
Qed.

(** X13.  [_mergeDicts] key by key.  Take two dictionaries such that,
    where both hold a key and the second holds a dictionary there, the two
    values merge.  Then the merge succeeds.  Its keys are those of the
    first in their order, then the keys only the second has, in the order
    of the second.  Under a key that only the first has it holds the value
    of the first; under a key of the second it holds the value of the
    second, except where both have the key and the second holds a
    dictionary: there it holds the merge of the two values. *)
Theorem mergeDicts_key_by_key (first second : dict json) :
  NoDup (keys second) ->
  (forall k old v,
      dict_get k first = Some old -> dict_get k second = Some (JObj v) ->
      exists merged, DC._mergeDicts old (JObj v) = Ok merged) ->
  exists result_,
    DC._mergeDicts (JObj first) (JObj second) = Ok (JObj result_)
    /\ keys result_
       = (keys first ++ filter (fun k => negb (dict_in k first)) (keys second))%list
    /\ forall k,
         dict_get k result_
         = match dict_get k second with
           | None => dict_get k first
           | Some value => merged_value (dict_get k first) value
           end.
Proof. intros Hnodup Hok. exact (merge_items_spec second first Hnodup Hok). Qed.

(** A base file and a file derived from it. *)
Definition base_file : dict json :=
  [("name", JStr "base"); ("settings", JObj [("speed", JInt 1); ("size", JInt 2)])].

Definition derived_file : dict json :=
  [("name", JStr "derived"); ("settings", JObj [("size", JInt 5)]); ("extra", JBool true)].

Lemma mergeDicts_witness :
  exists result_,
    DC._mergeDicts (JObj base_file) (JObj derived_file) = Ok (JObj result_)
    /\ keys result_ = ["name"; "settings"; "extra"]
    /\ forall k,
         dict_get k result_
         = match dict_get k derived_file with
           | None => dict_get k base_file
           | Some value => merged_value (dict_get k base_file) value
           end.
Proof.
  apply (mergeDicts_key_by_key base_file derived_file).
  - repeat constructor; simpl; intuition discriminate.
  - intros k old v Hold Hv. unfold base_file, derived_file in *.
    cbn [dict_get] in Hold, Hv.
    destruct ("name" =? k); [discriminate Hv|].
    destruct ("settings" =? k).
    + inversion Hold; inversion Hv; subst. eexists. reflexivity.
    + destruct ("extra" =? k); discriminate Hv.
Defined.

(** X14.  [_mergeDicts] stops at the first key whose values do not
    merge.  When the keys of the second dictionary before [key] merge, both
    dictionaries hold [key], the second holds a dictionary there and the
    merge of the two values raises, the merge of the whole raises
    the same.  So a file cannot put a dictionary that is not empty where
    the file it inherits from has a number. *)
Theorem mergeDicts_stops_at_first_failure
    (first before after : dict json) (key : string) (old : json) (v : dict json) (e : exn) :
  NoDup (keys (before ++ (key, JObj v) :: after)%list) ->
  (forall k old' v',
      dict_get k first = Some old' -> dict_get k before = Some (JObj v') ->
      exists merged, DC._mergeDicts old' (JObj v') = Ok merged) ->
  dict_get key first = Some old ->
  DC._mergeDicts old (JObj v) = Raise e ->
  DC._mergeDicts (JObj first) (JObj (before ++ (key, JObj v) :: after)%list) = Raise e.
Proof.
  change (DC._mergeDicts (JObj first) (JObj (before ++ (key, JObj v) :: after)%list))
    with (DC.merge_items DC._mergeDicts (before ++ (key, JObj v) :: after)%list (JObj first)).
  revert first. induction before as [|[k0 v0] before IH]; intros first Hnodup Hok Hold Hraise.
  - simpl app. rewrite merge_round, Hold. now rewrite Hraise.
  - simpl in Hnodup. inversion Hnodup as [|? ? Hfresh Hrest]; subst.
    assert (Hk0 : k0 <> key).
    { intro Heq. subst k0. apply Hfresh. unfold keys. rewrite map_app. apply in_or_app.
      right. now left. }
    assert (Hother : forall x k, In k (keys (before ++ (key, JObj v) :: after)%list) ->
               dict_get k (dict_set k0 x first) = dict_get k first).
    { intros x k Hin. rewrite SettingProofs.dict_get_set.
      destruct (k0 =? k) eqn:Hk; [|reflexivity].
      apply String.eqb_eq in Hk. subst k. contradiction. }
    assert (Hstep : forall x,
               DC.merge_items DC._mergeDicts (before ++ (key, JObj v) :: after)%list
                 (JObj (dict_set k0 x first)) = Raise e).
    { intro x. apply IH; [exact Hrest| | |exact Hraise].
      - intros k old' v' Hold' Hv'.
        assert (Hin : In k (keys (before ++ (key, JObj v) :: after)%list)).
        { apply dict_get_some_in in Hv'. unfold keys in *. rewrite map_app.
          apply in_or_app. now left. }
        rewrite (Hother x k Hin) in Hold'.
        apply (Hok k old' v' Hold'). simpl.
        destruct (k0 =? k) eqn:Hk; [|exact Hv'].
        apply String.eqb_eq in Hk. subst k. contradiction.
      - rewrite Hother; [exact Hold|].
        unfold keys. rewrite map_app. apply in_or_app. right. now left. }
    simpl app. rewrite merge_round.
    destruct v0 as [| b | z | s | l | v0]; try apply Hstep.
    destruct (dict_get k0 first) as [old0|] eqn:Hold0; [|apply Hstep].
    destruct (Hok k0 old0 v0 Hold0) as [merged Hmerged].
    { simpl. now rewrite String.eqb_refl. }
    rewrite Hmerged. apply Hstep.
Qed.

Lemma mergeDicts_failure_witness :
  DC._mergeDicts (JObj [("speed", JInt 1)])
    (JObj ([("name", JStr "derived")] ++ ("speed", JObj [("value", JInt 2)]) :: [])%list)
  = Raise TypeError.
Proof.
  apply (mergeDicts_stops_at_first_failure [("speed", JInt 1)] [("name", JStr "derived")] []
           "speed" (JInt 1) [("value", JInt 2)] TypeError).
  - repeat constructor; simpl; intuition discriminate.
  - intros k old' v' _ Hv'. cbn [dict_get] in Hv'. destruct ("name" =? k); discriminate Hv'.
  - reflexivity.
  - reflexivity.
Defined.

End DefinitionExtras.

(* ===================================================================== *)
(** ** Further properties of the setting definition *)
(* ===================================================================== *)

Module SettingExtras.
Import Py SettingDefinition.

(** *** The schema *)

(** The class after [__property_definitions] has become [table]. *)
Definition with_properties (E : Env) (table : dict PropertyDefinition) : Env :=
  {| __property_definitions := table;
     __type_definitions := __type_definitions E;
     json_loads := json_loads E;
     str := str E;
     new_SettingFunction := new_SettingFunction E |}.

Lemma In_dict_set {A} (k : string) (v : A) (d : dict A) : In (k, v) (dict_set k v d).
Proof.
  induction d as [|[k' v'] d IH]; simpl; [now left|].
  destruct (k' =? k); [now left|now right].
Qed.

(** X15.  Registering a property.  After
    [addSupportedProperty(name, type, required, read_only)] the class
    knows the property: [hasProperty(name)] holds, [isRequiredProperty] and
    [isReadOnlyProperty] give the two flags, and [getPropertyNames] lists
    the name, also when asked for the names of that type.  What the three
    questions answer for any other name is as before. *)
Theorem addSupportedProperty_registers
    (E : Env) (name : string) (property_type : DefinitionPropertyType)
    (required_ read_only_ : bool) :
  let E' := with_properties E (addSupportedProperty E name property_type required_ read_only_) in
  hasProperty E' name = true
  /\ isRequiredProperty E' name = required_
  /\ isReadOnlyProperty E' name = read_only_
  /\ In name (getPropertyNames E' (Some property_type))
  /\ In name (getPropertyNames E' None)
  /\ (forall other,
        other <> name ->
        hasProperty E' other = hasProperty E other
        /\ isRequiredProperty E' other = isRequiredProperty E other
        /\ isReadOnlyProperty E' other = isReadOnlyProperty E other).
Proof.
  intro E'. unfold E', hasProperty, isRequiredProperty, isReadOnlyProperty, getPropertyNames,
    addSupportedProperty, dict_in. simpl __property_definitions.
  rewrite !SettingProofs.dict_get_set, !String.eqb_refl.
  split; [reflexivity|]. split; [reflexivity|]. split; [reflexivity|].
  split; [|split].
  - apply in_map_iff. exists (name, Property property_type required_ read_only_).
    split; [reflexivity|]. apply filter_In. split; [apply In_dict_set|].
    now destruct property_type.
  - apply in_map_iff. exists (name, Property property_type required_ read_only_).
    split; [reflexivity|]. apply filter_In. split; [apply In_dict_set|reflexivity].
  - intros other Hother. rewrite !SettingProofs.dict_get_set.
    assert (Hneq : (name =? other) = false) by (apply String.eqb_neq; congruence).
    rewrite Hneq. repeat split.
Qed.

Section Reading.
Variable E : Env.

Lemma deserialize_items_cons dict_case text key value rest self :
  deserialize_items E dict_case text ((key, value) :: rest) self
  = let r := if key =? "children" then
               match value with
               | JObj children => deserialize_children dict_case text children self
               | _ => fail self (AttributeError (NoAttribute "items"))
               end
             else store_property E self key value in
    match raised r with
    | Some e => r
    | None =>
        let r' := deserialize_items E dict_case text rest (state r) in
        Run (state r') (logged r ++ logged r') (raised r')
    end.
Proof. reflexivity. Qed.

Lemma check_required_ok r : raised (check_required E r) = None -> raised r = None.
Proof.
  unfold check_required. destruct (raised r) eqn:Hr; [now rewrite Hr|reflexivity].
Qed.

Lemma deserialize_unfold depth self items :
  deserialize E depth self (JObj items) = check_required E (process_keys E depth self items).
Proof. reflexivity. Qed.

(** *** The key of the setting *)

Lemma deserialize_dict_key text self serialized :
  _key (state (_deserialize_dict E text self serialized)) = _key self.
Proof.
  destruct serialized as [| b | z | s | l | items]; try reflexivity.
  change (_deserialize_dict E text self (JObj items))
    with (check_required E
            (deserialize_items E (_deserialize_dict E text) text items (reset self))).
  rewrite RelationProofs.check_required_state.
  apply (SettingProofs.deserialize_items_values E (_deserialize_dict E text) text items
           (reset self)).
Qed.

Lemma deserialize_text_key depth self text :
  _key (state (deserialize_text E depth self text)) = _key self.
Proof.
  destruct depth; simpl; (destruct (json_loads E text); [apply deserialize_dict_key|reflexivity]).
Qed.


Lemma deserialize_key depth self serialized :
  _key (state (deserialize E depth self serialized)) = _key self.
Proof.
  destruct serialized; try reflexivity.
  - apply deserialize_text_key.
  - apply deserialize_dict_key.
Qed.

(** *** Which property values a document touches *)

Lemma store_property_get self key value p :
  (key =? p) && dict_in key (__property_definitions E) = false ->
  dict_get p (property_values (state (store_property E self key value)))
  = dict_get p (property_values self).
Proof.
  unfold store_property, dict_in.
  destruct (dict_get key (__property_definitions E)) as [d|]; [|reflexivity].
  rewrite andb_true_r. intro Hp.
  destruct (if key =? "type" then check_type E value else None); [reflexivity|].
  destruct (type d); simpl; rewrite ?SettingProofs.dict_get_set, ?Hp; try reflexivity.
  destruct (new_SettingFunction E (str E value)); simpl;
    rewrite ?SettingProofs.dict_get_set, ?Hp; reflexivity.
Qed.

Lemma deserialize_items_get dict_case text items p :
  forall self,
    SettingProofs.given items p && dict_in p (__property_definitions E) = false ->
    dict_get p (property_values (state (deserialize_items E dict_case text items self)))
    = dict_get p (property_values self).
Proof.
  induction items as [|[key value] rest IH]; intros self Hp; [reflexivity|].
  rewrite deserialize_items_cons.
  set (step := if key =? "children"
               then match value with
                    | JObj children => deserialize_children dict_case text children self
                    | _ => fail self (AttributeError (NoAttribute "items"))
                    end
               else store_property E self key value).
  assert (Hstep : dict_get p (property_values (state step)) = dict_get p (property_values self)).
  { unfold step. destruct (key =? "children") eqn:Hc.
    - destruct value as [| b | z | s | l | children]; try reflexivity.
      now rewrite (proj2 (SettingProofs.deserialize_children_frame dict_case text children self)).
    - apply store_property_get.
      destruct (key =? p) eqn:Hk; [|reflexivity].
      apply String.eqb_eq in Hk. subst p.
      unfold SettingProofs.given in Hp. rewrite SettingProofs.dict_in_cons in Hp.
      rewrite String.eqb_refl, Hc in Hp. exact Hp. }
  cbv zeta. destruct (raised step); [exact Hstep|].
  simpl state. rewrite IH; [exact Hstep|].
  destruct (dict_in p (__property_definitions E)); [|apply andb_false_r].
  rewrite andb_true_r in *. unfold SettingProofs.given in *.
  rewrite SettingProofs.dict_in_cons in Hp.
  destruct (dict_in p rest); [|reflexivity].
  rewrite orb_true_r in Hp. exact Hp.
Qed.

(** X16.  What a document leaves alone.  [deserialize] of a dictionary
    changes the value of a property only when the document gives the
    property and the schema supports it.  So a key of the document that the
    schema does not know is never stored, and the values that the setting
    held before, and that the document does not give, are still there
    afterwards, whether the call raises or not. *)
Theorem deserialize_leaves_other_properties
    (depth : nat) (self : SettingDefinition) (items : dict json) (p : string) :
  SettingProofs.given items p && hasProperty E p = false ->
  dict_get p (property_values (state (deserialize E depth self (JObj items))))
  = dict_get p (property_values self).
Proof.
  intro Hp. rewrite deserialize_unfold, RelationProofs.check_required_state.
  unfold process_keys. now rewrite deserialize_items_get.
Qed.

(** *** The children *)

Lemma store_property_children self key value :
  _children (state (store_property E self key value)) = _children self
  /\ _type (state (store_property E self key value)) = _type self.
Proof.
  unfold store_property.
  destruct (dict_get key (__property_definitions E)) as [d|]; [|split; reflexivity].
  destruct (if key =? "type" then check_type E value else None); [split; reflexivity|].
  destruct (type d); try (split; reflexivity).
  destruct (new_SettingFunction E (str E value)); split; reflexivity.
Qed.

Section Children.
Variable dict_case : SettingDefinition -> json -> run SettingDefinition.
Variable text : SettingDefinition -> string -> run SettingDefinition.
Hypothesis dict_case_key : forall c j, _key (state (dict_case c j)) = _key c.
Hypothesis text_key : forall c t, _key (state (text c t)) = _key c.


Lemma deserialize_children_type children :
  forall self,
    _type (state (deserialize_children dict_case text children self)) = _type self.
Proof.
  induction children as [|[child_key child_dict] rest IH]; intro self; [reflexivity|].
  cbn [deserialize_children]. fold (deserialize_children dict_case text).
  cbv zeta.
  match goal with |- context [raised ?x] => destruct (raised x) end; [reflexivity|].
  simpl. now rewrite IH.
Qed.


Lemma deserialize_items_type items :
  forall self,
    _type (state (deserialize_items E dict_case text items self)) = _type self.
Proof.
  induction items as [|[key value] rest IH]; intro self; [reflexivity|].
  rewrite deserialize_items_cons. cbv zeta.
  set (step := if key =? "children" then _ else _).
  assert (Hstep : _type (state step) = _type self).
  { unfold step. destruct (key =? "children").
    - destruct value; try reflexivity. apply deserialize_children_type.
    - apply store_property_children. }
  destruct (raised step); [exact Hstep|]. simpl. now rewrite IH.
Qed.

(** A document that is read to the end gives a [type] that the class
    knows. *)
Lemma deserialize_items_checks_type items v :
  hasProperty E "type" = true ->
  forall self,
    raised (deserialize_items E dict_case text items self) = None ->
    dict_get "type" items = Some v ->
    check_type E v = None.
Proof.
  intro Hsupported. induction items as [|[key value] rest IH]; intros self; [discriminate|].
  rewrite deserialize_items_cons. cbv zeta. cbn [dict_get].
  destruct (key =? "type") eqn:Ht.
  - apply String.eqb_eq in Ht. subst key. simpl String.eqb.
    intros Hok Hv. inversion Hv; subst v.
    unfold store_property in Hok. unfold hasProperty, dict_in in Hsupported.
    destruct (dict_get "type" (__property_definitions E)); [|discriminate].
    simpl String.eqb in Hok. cbv iota in Hok.
    destruct (check_type E value); [discriminate|reflexivity].
  - set (step := if key =? "children" then _ else _).
    destruct (raised step) eqn:Hr; [now rewrite Hr|].
    simpl. apply IH.
Qed.

End Children.



(** X18.  The type of a setting.  When [deserialize] of a dictionary
    succeeds and the class supports the property [type], the [type] that
    the document gives is a string that names a registered setting type.
    The attribute [_type] does not take it: it is ["unknown"] after every
    [deserialize] of a dictionary. *)
Theorem document_type_is_registered
    (depth : nat) (self : SettingDefinition) (items : dict json) (v : json) :
  hasProperty E "type" = true ->
  dict_get "type" items = Some v ->
  raised (deserialize E depth self (JObj items)) = None ->
  (exists s, v = JStr s /\ dict_in s (__type_definitions E) = true)
  /\ _type (state (deserialize E depth self (JObj items))) = Some "unknown".
Proof.
  intros Hsupported Hv Hok. split.
  - rewrite deserialize_unfold in Hok. apply check_required_ok in Hok.
    unfold process_keys in Hok.
    pose proof (deserialize_items_checks_type _ _ items v Hsupported _ Hok Hv) as Hcheck.
    unfold check_type in Hcheck.
    destruct v as [| b | z | s | l | o]; try discriminate.
    exists s. split; [reflexivity|].
    now destruct (dict_in s (__type_definitions E)).
  - rewrite deserialize_unfold, RelationProofs.check_required_state.
    unfold process_keys. now rewrite deserialize_items_type.
Qed.

End Reading.

(** A setting that already holds a unit, a document with two children and
    a key that the schema does not know. *)
Definition with_unit : SettingDefinition :=
  {| _key := "speed";
     _i18n_catalog := None;
     _children := [__init__ "old" None];
     _relations := [];
     _type := None;
     property_values := [("unit", VJson (JStr "mm/s"))] |}.

Definition leaf (label : string) : json :=
  JObj [("label", JStr label); ("type", JStr "int"); ("description", JStr "d")].

Definition with_children : dict json :=
  [("label", JStr "Speed"); ("type", JStr "category"); ("description", JStr "d");
   ("colour", JStr "red");
   ("children", JObj [("infill", leaf "Infill"); ("wall", leaf "Wall")])].

Lemma deserialize_leaves_other_properties_witness :
  dict_get "unit"
    (property_values (state (deserialize (Sample.settings []) 8 with_unit (JObj with_children))))
  = Some (VJson (JStr "mm/s")).
Proof.
  apply (deserialize_leaves_other_properties (Sample.settings []) 8 with_unit with_children
           "unit").
  reflexivity.
Defined.


Lemma document_type_witness :
  (exists s, JStr "category" = JStr s
             /\ dict_in s (__type_definitions (Sample.settings [])) = true)
  /\ _type (state (deserialize (Sample.settings []) 8 with_unit (JObj with_children)))
     = Some "unknown".
Proof.
  apply (document_type_is_registered (Sample.settings []) 8 with_unit with_children
           (JStr "category")); reflexivity.
Defined.

End SettingExtras.

(* ===================================================================== *)
(** ** Further properties of the definition container: loading *)
(* ===================================================================== *)

Module LoadingExtras.
Import Py.
Module SD := SettingDefinition.
Module SR := SettingRelation.
Module DC := DefinitionContainer.

(** *** What building the relations leaves alone *)

(** The object without its relations and without those of the objects
    below it. *)
Fixpoint without_relations (d : SD.SettingDefinition) : SD.SettingDefinition :=
  {| SD._key := SD._key d;
     SD._i18n_catalog := SD._i18n_catalog d;
     SD._children := map without_relations (SD._children d);
     SD._relations := [];
     SD._type := SD._type d;
     SD.property_values := SD.property_values d |}.

(** The container with the relation lists of all its objects emptied. *)
Definition bare (self : DC.DefinitionContainer) : DC.DefinitionContainer :=
  DC.with_definitions self (map without_relations (DC._definitions self)).

Lemma map_change_nth {A B} (g : A -> B) (h : A -> A) (i : nat) (l : list A) :
  (forall x, g (h x) = g x) -> map g (DC.change_nth h i l) = map g l.
Proof.
  intro H. revert i. induction l as [|x l IH]; intros [|i]; simpl; try reflexivity.
  - now rewrite H.
  - now rewrite IH.
Qed.

Lemma without_relations_mutate_below (relation : SR.SettingRelation) (q : SR.ref) :
  forall d,
    without_relations (DC.mutate_below (fun d => SD.append_relation d relation) q d)
    = without_relations d.
Proof.
  induction q as [|i q IH]; intro d.
  - now destruct d.
  - destruct d as [k cat children rel t pv]. simpl.
    now rewrite (map_change_nth without_relations _ i children IH).
Qed.

Lemma bare_append_relation self p relation :
  bare (DC.append_relation self p relation) = bare self.
Proof.
  unfold bare, DC.append_relation, DC.with_definitions. simpl. f_equal.
  destruct p as [|i q]; [reflexivity|]. simpl.
  apply map_change_nth. apply without_relations_mutate_below.
Qed.

Lemma map_key_without_relations (l : list SD.SettingDefinition) :
  map SD.key (map without_relations l) = map SD.key l.
Proof. rewrite map_map. apply map_ext. now intros []. Qed.

Lemma bare_keys self self' :
  bare self = bare self' ->
  DC.getName self = DC.getName self'
  /\ DC.getMetaData self = DC.getMetaData self'
  /\ map SD.key (DC._definitions self) = map SD.key (DC._definitions self').
Proof.
  intro H. unfold bare, DC.with_definitions in H. injection H as _ Hname Hmeta Hdefs _.
  repeat split; try assumption.
  now rewrite <- (map_key_without_relations (DC._definitions self)), Hdefs,
    map_key_without_relations.
Qed.

Section Frame.
Variable E : SD.Env.

Lemma for_each_frame {A} (body : A -> DC.DefinitionContainer -> run DC.DefinitionContainer)
    (l : list A) :
  (forall x self, bare (state (body x self)) = bare self) ->
  forall self, bare (state (for_each body l self)) = bare self.
Proof.
  intro Hbody. induction l as [|x l IH]; intro self; [reflexivity|].
  change (for_each body (x :: l) self) with (and_then (body x self) (for_each body l)).
  unfold and_then. destruct (raised (body x self)); [apply Hbody|].
  simpl. now rewrite IH.
Qed.

Lemma for_each_from_frame {A}
    (body : nat -> A -> DC.DefinitionContainer -> run DC.DefinitionContainer) (l : list A) :
  Forall (fun x => forall i self, bare (state (body i x self)) = bare self) l ->
  forall i self, bare (state (for_each_from body i l self)) = bare self.
Proof.
  induction 1 as [|x l Hx _ IH]; intros i self; [reflexivity|].
  change (for_each_from body i (x :: l) self)
    with (and_then (body i x self) (for_each_from body (S i) l)).
  unfold and_then. destruct (raised (body i x self)); [apply Hx|].
  simpl. now rewrite IH.
Qed.

Lemma relate_frame at_ d property setting self :
  bare (state (DC.relate E at_ d property setting self)) = bare self.
Proof.
  unfold DC.relate.
  destruct (DC.findDefinitions E self _) as [|[other x] rest]; [reflexivity|].
  simpl. now rewrite !bare_append_relation.
Qed.

Lemma processFunction_frame at_ d property self :
  bare (state (DC._processFunction E at_ d property self)) = bare self.
Proof.
  unfold DC._processFunction.
  destruct (SD.getattr E d property) as [[j|fn]|e]; try reflexivity.
  apply for_each_frame. intros. apply relate_frame.
Qed.

Lemma updateRelations_frame d :
  forall at_ self, bare (state (DC._updateRelations E at_ d self)) = bare self.
Proof.
  induction d as [d IH] using RelationProofs.definition_ind. intros at_ self.
  rewrite RelationProofs.updateRelations_unfold. unfold and_then.
  set (own := for_each _ _ self).
  assert (Hown : bare (state own) = bare self).
  { apply for_each_frame. intros property self'.
    destruct (SD.hasattr E d property); [apply processFunction_frame|reflexivity]. }
  destruct (raised own); [exact Hown|].
  simpl. rewrite <- Hown. apply for_each_from_frame.
  unfold SD.children. eapply Forall_impl; [|exact IH].
  intros child Hchild i self'. apply Hchild.
Qed.

(** X19.  Building the relations touches nothing else.
    [_updateRelations], whether it completes or raises, leaves a container
    that differs from the one it started with in the relation lists only:
    the name, the metadata, and the keys, property values and children of
    every definition are the same. *)
Theorem updateRelations_touches_relations_only
    (at_ : SR.ref) (d : SD.SettingDefinition) (self : DC.DefinitionContainer) :
  let after := state (DC._updateRelations E at_ d self) in
  bare after = bare self
  /\ DC.getName after = DC.getName self
  /\ DC.getMetaData after = DC.getMetaData self
  /\ map SD.key (DC._definitions after) = map SD.key (DC._definitions self).
Proof.
  intros after. pose proof (updateRelations_frame d at_ self) as H. fold after in H.
  split; [exact H|]. now apply bare_keys.
Qed.

(** X20.  References to settings that do not exist.  When none of the
    settings that a function uses is the key of a definition of the
    container, [_processFunction] adds no relation: it leaves the container
    as it was, raises nothing, and logs one warning for each of the
    settings, in order. *)
Theorem unknown_settings_are_only_logged
    (at_ : SR.ref) (d : SD.SettingDefinition) (property : string)
    (function : SettingFunction.SettingFunction) (self : DC.DefinitionContainer) :
  SD.getattr E d property = Ok (SD.VFunction function) ->
  (forall setting,
      In setting (SettingFunction.getUsedSettings function) ->
      DC.findDefinitions E self [("key", SD.VJson (JStr setting))] = []) ->
  DC._processFunction E at_ d property self
  = Run self
        (map (fun setting =>
                Log "w" "Function for definition %s references unknown definition %s"
                    [SD.key d; setting])
             (SettingFunction.getUsedSettings function))
        None.
Proof.
  intros Hget. unfold DC._processFunction. rewrite Hget.
  induction (SettingFunction.getUsedSettings function) as [|setting used IH]; intro Hunknown.
  - reflexivity.
  - change (for_each (DC.relate E at_ d property) (setting :: used) self)
      with (and_then (DC.relate E at_ d property setting self)
              (for_each (DC.relate E at_ d property) used)).
    unfold DC.relate at 1. rewrite (Hunknown setting (or_introl eq_refl)).
    unfold and_then, warn. simpl.
    rewrite IH by (intros s Hs; apply Hunknown; now right). reflexivity.
Qed.

(** *** The loop over the settings *)

(** The definitions that the loop over [items] makes. *)
Definition loaded (depth : nat) (catalog : option SD.i18nCatalog) (items : dict json)
    : list SD.SettingDefinition :=
  map (fun entry => state (SD.deserialize E depth (SD.__init__ (fst entry) catalog) (snd entry)))
      items.

(** [deserialize] accepts the document of the setting [entry]. *)
Definition accepted (depth : nat) (catalog : option SD.i18nCatalog) (entry : string * json)
    : Prop :=
  raised (SD.deserialize E depth (SD.__init__ (fst entry) catalog) (snd entry)) = None.

Lemma keys_loaded depth catalog items :
  map SD.key (loaded depth catalog items) = keys items.
Proof.
  unfold loaded, keys. rewrite map_map. apply map_ext. intros [k v].
  unfold SD.key. now rewrite SettingExtras.deserialize_key.
Qed.

Lemma with_definitions_same (self : DC.DefinitionContainer) :
  DC.with_definitions self (DC._definitions self) = self.
Proof. now destruct self. Qed.

Lemma load_setting_accepted depth entry self :
  accepted depth (DC._i18n_catalog self) entry ->
  raised (DC.load_setting E depth entry self) = None
  /\ state (DC.load_setting E depth entry self)
     = DC.with_definitions self
         (DC._definitions self ++ loaded depth (DC._i18n_catalog self) [entry]).
Proof.
  unfold accepted, DC.load_setting, loaded. intro H. rewrite H. split; reflexivity.
Qed.

Lemma load_settings_accepted depth items :
  forall self,
    Forall (accepted depth (DC._i18n_catalog self)) items ->
    raised (for_each (DC.load_setting E depth) items self) = None
    /\ state (for_each (DC.load_setting E depth) items self)
       = DC.with_definitions self
           (DC._definitions self ++ loaded depth (DC._i18n_catalog self) items).
Proof.
  induction items as [|entry items IH]; intros self H.
  - simpl. unfold loaded. simpl. rewrite app_nil_r, with_definitions_same. now split.
  - inversion H as [|? ? Hentry Hitems]; subst.
    change (for_each (DC.load_setting E depth) (entry :: items) self)
      with (and_then (DC.load_setting E depth entry self)
              (for_each (DC.load_setting E depth) items)).
    destruct (load_setting_accepted depth entry self Hentry) as [Hok Hstate].
    unfold and_then. rewrite Hok. cbv zeta. cbn [raised state]. rewrite Hstate.
    set (self1 := DC.with_definitions self
                    (DC._definitions self ++ loaded depth (DC._i18n_catalog self) [entry])).
    destruct (IH self1) as [IHok IHstate]; [exact Hitems|].
    split; [exact IHok|]. rewrite IHstate.
    unfold self1, loaded, DC.with_definitions. simpl. now rewrite <- app_assoc.
Qed.

Lemma load_settings_refused depth before bad after e :
  forall self,
    Forall (accepted depth (DC._i18n_catalog self)) before ->
    raised (SD.deserialize E depth (SD.__init__ (fst bad) (DC._i18n_catalog self)) (snd bad))
    = Some e ->
    raised (for_each (DC.load_setting E depth) (before ++ bad :: after) self) = Some e
    /\ state (for_each (DC.load_setting E depth) (before ++ bad :: after) self)
       = DC.with_definitions self
           (DC._definitions self ++ loaded depth (DC._i18n_catalog self) before).
Proof.
  induction before as [|entry before IH]; intros self H Hbad.
  - simpl app.
    change (for_each (DC.load_setting E depth) (bad :: after) self)
      with (and_then (DC.load_setting E depth bad self)
              (for_each (DC.load_setting E depth) after)).
    assert (Hstep : exists log, DC.load_setting E depth bad self = Run self log (Some e)).
    { unfold DC.load_setting. cbv zeta. rewrite Hbad. now eexists. }
    destruct Hstep as [log Hstep].
    unfold and_then. rewrite Hstep. cbn [raised state].
    unfold loaded. cbn [map]. rewrite app_nil_r, with_definitions_same. now split.
  - inversion H as [|? ? Hentry Hitems]; subst.
    change (for_each (DC.load_setting E depth) ((entry :: before) ++ bad :: after) self)
      with (and_then (DC.load_setting E depth entry self)
              (for_each (DC.load_setting E depth) (before ++ bad :: after))).
    destruct (load_setting_accepted depth entry self Hentry) as [Hok Hstate].
    unfold and_then. rewrite Hok. cbv zeta. cbn [raised state]. rewrite Hstate.
    set (self1 := DC.with_definitions self
                    (DC._definitions self ++ loaded depth (DC._i18n_catalog self) [entry])).
    destruct (IH self1) as [IHraised IHstate]; [exact Hitems|exact Hbad|].
    split; [exact IHraised|]. rewrite IHstate.
    unfold self1, loaded, DC.with_definitions. simpl. now rewrite <- app_assoc.
Qed.

End Frame.

(** *** [deserialize] *)

Section Deserialize.
Variable E : SD.Env.
Variable read_resource : string -> result json.

Lemma getitem_in (parsed : json) (key : string) (value : json) :
  py_getitem parsed key = Ok value -> py_in key parsed = Ok true.
Proof.
  destruct parsed; try discriminate. simpl. unfold dict_in.
  now destruct (dict_get key items).
Qed.

(** What is left of [deserialize] for a document that passes the checks and
    has a name, metadata and settings. *)
Lemma deserialize_settings limit self serialized parsed parsed' name metadata items :
  SD.json_loads E serialized = Ok parsed ->
  DC._verifyJson parsed = None ->
  DC.preprocess read_resource limit parsed = Ok parsed' ->
  py_getitem parsed' "name" = Ok name ->
  py_getitem parsed' "metadata" = Ok metadata ->
  py_getitem parsed' "settings" = Ok (JObj items) ->
  DC.deserialize E read_resource limit self serialized
  = and_then
      (for_each (DC.load_setting E limit) items
         (DC.set_metadata (DC.set_name self name) metadata))
      (fun self3 =>
         for_each_from (fun i definition => DC._updateRelations E [i] definition)
           0%nat (DC._definitions self3) self3).
Proof.
  intros Hloads Hverify Hpre Hname Hmeta Hsettings.
  unfold DC.deserialize, DC.load.
  rewrite Hloads, Hverify, Hpre.
  rewrite (getitem_in _ _ _ Hmeta), (getitem_in _ _ _ Hsettings), Hname, Hmeta, Hsettings.
  reflexivity.
Qed.

(** X21.  [deserialize] is not atomic.  Take a document that passes the
    checks and has a name, metadata and settings.  When the documents of
    the settings before [bad] are accepted and the one of [bad] makes the
    definition's [deserialize] raise, the container's [deserialize] raises
    the same, and the container it leaves has the name and the metadata of
    the document and, after the definitions it had, those of the settings
    before [bad]. *)
Theorem definitions_are_loaded_until_one_fails
    (limit : nat) (self : DC.DefinitionContainer) (serialized : string)
    (parsed parsed' name metadata : json) (before after : dict json)
    (bad : string * json) (e : exn) :
  SD.json_loads E serialized = Ok parsed ->
  DC._verifyJson parsed = None ->
  DC.preprocess read_resource limit parsed = Ok parsed' ->
  py_getitem parsed' "name" = Ok name ->
  py_getitem parsed' "metadata" = Ok metadata ->
  py_getitem parsed' "settings" = Ok (JObj (before ++ bad :: after)) ->
  Forall (accepted E limit (DC._i18n_catalog self)) before ->
  raised (SD.deserialize E limit (SD.__init__ (fst bad) (DC._i18n_catalog self)) (snd bad))
  = Some e ->
  let r := DC.deserialize E read_resource limit self serialized in
  raised r = Some e
  /\ DC.getName (state r) = name
  /\ DC.getMetaData (state r) = metadata
  /\ DC._definitions (state r)
     = (DC._definitions self ++ loaded E limit (DC._i18n_catalog self) before)%list.
Proof.
  intros Hloads Hverify Hpre Hname Hmeta Hsettings Hbefore Hbad r. unfold r.
  rewrite (deserialize_settings _ _ _ _ _ _ _ _ Hloads Hverify Hpre Hname Hmeta Hsettings).
  destruct (load_settings_refused E limit before bad after e
              (DC.set_metadata (DC.set_name self name) metadata) Hbefore Hbad)
    as [Hraised Hstate].
  unfold and_then. rewrite Hraised. rewrite Hraised, Hstate. repeat split.
Qed.

(** X22.  The settings in order.  Take a document that passes the checks
    and has a name, metadata and settings whose documents are all
    accepted.  After [deserialize], whether building the relations raised
    or not, the container has the name and the metadata of the document,
    and its definitions are those it had followed by one for each setting,
    with the keys of the settings in the order of the document; apart from
    the relation lists they are as the definitions' [deserialize] made
    them. *)
Theorem settings_are_loaded_in_order
    (limit : nat) (self : DC.DefinitionContainer) (serialized : string)
    (parsed parsed' name metadata : json) (items : dict json) :
  SD.json_loads E serialized = Ok parsed ->
  DC._verifyJson parsed = None ->
  DC.preprocess read_resource limit parsed = Ok parsed' ->
  py_getitem parsed' "name" = Ok name ->
  py_getitem parsed' "metadata" = Ok metadata ->
  py_getitem parsed' "settings" = Ok (JObj items) ->
  Forall (accepted E limit (DC._i18n_catalog self)) items ->
  let r := DC.deserialize E read_resource limit self serialized in
  DC.getName (state r) = name
  /\ DC.getMetaData (state r) = metadata
  /\ map SD.key (DC._definitions (state r))
     = (map SD.key (DC._definitions self) ++ keys items)%list
  /\ bare (state r)
     = bare (DC.with_definitions (DC.set_metadata (DC.set_name self name) metadata)
               (DC._definitions self ++ loaded E limit (DC._i18n_catalog self) items)).
Proof.
  intros Hloads Hverify Hpre Hname Hmeta Hsettings Hitems r. unfold r.
  rewrite (deserialize_settings _ _ _ _ _ _ _ _ Hloads Hverify Hpre Hname Hmeta Hsettings).
  destruct (load_settings_accepted E limit items
              (DC.set_metadata (DC.set_name self name) metadata) Hitems)
    as [Hok Hstate].
  simpl DC._i18n_catalog in Hstate. simpl DC._definitions in Hstate.
  set (c1 := DC.with_definitions (DC.set_metadata (DC.set_name self name) metadata)
               (DC._definitions self ++ loaded E limit (DC._i18n_catalog self) items)) in *.
  assert (Hbare :
    bare (state (and_then
                   (for_each (DC.load_setting E limit) items
                      (DC.set_metadata (DC.set_name self name) metadata))
                   (fun self3 =>
                      for_each_from (fun i definition => DC._updateRelations E [i] definition)
                        0%nat (DC._definitions self3) self3)))
    = bare c1).
  { unfold and_then. rewrite Hok, Hstate. simpl state.
    apply for_each_from_frame. apply Forall_forall.
    intros d _ i self'. apply updateRelations_frame. }
  destruct (bare_keys _ _ Hbare) as (Hn & Hm & Hk).
  split; [exact Hn|]. split; [exact Hm|]. split; [|exact Hbare].
  rewrite Hk. unfold c1. simpl. now rewrite map_app, keys_loaded.
Qed.

(** X23.  Documents that are turned away.  [deserialize] raises what
    [json.loads] raises; [InvalidDefinitionError] for a dictionary without
    [version], and for one with [version] and without [name]; what
    resolving inheritance and overrides raises; and
    [InvalidDefinitionError] when the document has no [metadata], or has
    [metadata] and no [settings].  In each case the container is left as it
    was. *)
Theorem definition_is_turned_away
    (limit : nat) (self : DC.DefinitionContainer) (serialized : string) :
  (forall e, SD.json_loads E serialized = Raise e ->
             DC.deserialize E read_resource limit self serialized = fail self e)
  /\ (forall fields,
        SD.json_loads E serialized = Ok (JObj fields) ->
        dict_in "version" fields = false ->
        DC.deserialize E read_resource limit self serialized
        = fail self (InvalidDefinitionError "Missing required property 'version'"))
  /\ (forall fields,
        SD.json_loads E serialized = Ok (JObj fields) ->
        dict_in "version" fields = true ->
        dict_in "name" fields = false ->
        DC.deserialize E read_resource limit self serialized
        = fail self (InvalidDefinitionError "Missing required property 'name'"))
  /\ (forall parsed e,
        SD.json_loads E serialized = Ok parsed ->
        DC._verifyJson parsed = None ->
        DC.preprocess read_resource limit parsed = Raise e ->
        DC.deserialize E read_resource limit self serialized = fail self e)
  /\ (forall parsed fields,
        SD.json_loads E serialized = Ok parsed ->
        DC._verifyJson parsed = None ->
        DC.preprocess read_resource limit parsed = Ok (JObj fields) ->
        dict_in "metadata" fields = false ->
        DC.deserialize E read_resource limit self serialized
        = fail self (InvalidDefinitionError "Missing required metadata section"))
  /\ (forall parsed fields,
        SD.json_loads E serialized = Ok parsed ->
        DC._verifyJson parsed = None ->
        DC.preprocess read_resource limit parsed = Ok (JObj fields) ->
        dict_in "metadata" fields = true ->
        dict_in "settings" fields = false ->
        DC.deserialize E read_resource limit self serialized
        = fail self (InvalidDefinitionError "Missing required settings section")).
Proof.
  unfold DC.deserialize. repeat split.
  - intros e ->. reflexivity.
  - intros fields -> H. unfold DC._verifyJson. simpl. now rewrite H.
  - intros fields -> Hv Hn. unfold DC._verifyJson. simpl. now rewrite Hv, Hn.
  - intros parsed e -> -> ->. reflexivity.
  - intros parsed fields -> -> -> H. unfold DC.load. simpl. now rewrite H.
  - intros parsed fields -> -> -> Hm Hs. unfold DC.load. simpl. now rewrite Hm, Hs.
Qed.

End Deserialize.

(** A definition whose [value] is a function of a setting that no
    definition has, in a container without definitions. *)
Definition haunted : SD.SettingDefinition :=
  {| SD._key := "speed";
     SD._i18n_catalog := None;
     SD._children := [];
     SD._relations := [];
     SD._type := Some "unknown";
     SD.property_values := [("value", SD.VFunction (SettingFunction.Build "ghost" ["ghost"]))] |}.

Lemma unknown_settings_witness :
  DC._processFunction (Sample.settings []) [0%nat] haunted "value"
    (DC.__init__ "printer" None)
  = Run (DC.__init__ "printer" None)
        [Log "w" "Function for definition %s references unknown definition %s"
             ["speed"; "ghost"]]
        None.
Proof.
  apply (unknown_settings_are_only_logged (Sample.settings []) [0%nat] haunted "value"
           (SettingFunction.Build "ghost" ["ghost"]) (DC.__init__ "printer" None)).
  - reflexivity.
  - intros setting _. reflexivity.
Defined.

(** A document with three settings, the second of which has no label. *)
Definition three_settings : json :=
  JObj [("version", JInt 2); ("name", JStr "printer"); ("metadata", JObj [("author", JStr "me")]);
        ("settings",
         JObj ([("machine", DefinitionProofs.category "Machine")]
               ++ ("broken", JObj [("type", JStr "int"); ("description", JStr "d")])
               :: [("material", DefinitionProofs.category "Material")])%list)].

Definition three_settings_env : SD.Env := Sample.settings [("three", three_settings)].

Lemma definitions_are_loaded_until_one_fails_witness :
  let r := DC.deserialize three_settings_env Sample.no_resources 8
             (DC.__init__ "printer" None) "three" in
  raised r = Some (AttributeError (MissingRequiredProperty "broken" "label"))
  /\ DC.getName (state r) = JStr "printer"
  /\ DC.getMetaData (state r) = JObj [("author", JStr "me")]
  /\ DC._definitions (state r)
     = ([] ++ loaded three_settings_env 8 None
                [("machine", DefinitionProofs.category "Machine")])%list.
Proof.
  apply (definitions_are_loaded_until_one_fails three_settings_env Sample.no_resources 8
           (DC.__init__ "printer" None) "three" three_settings three_settings
           (JStr "printer") (JObj [("author", JStr "me")])
           [("machine", DefinitionProofs.category "Machine")]
           [("material", DefinitionProofs.category "Material")]
           ("broken", JObj [("type", JStr "int"); ("description", JStr "d")])
           (AttributeError (MissingRequiredProperty "broken" "label")));
    try reflexivity.
  constructor; [reflexivity|constructor].
Defined.

(** A document with two settings. *)
Definition two_settings : json :=
  JObj [("version", JInt 2); ("name", JStr "printer"); ("metadata", JObj []);
        ("settings",
         JObj [("machine", DefinitionProofs.category "Machine");
               ("material", DefinitionProofs.category "Material")])].

Definition two_settings_env : SD.Env := Sample.settings [("two", two_settings)].

Lemma settings_are_loaded_in_order_witness :
  let r := DC.deserialize two_settings_env Sample.no_resources 8
             (DC.__init__ "printer" None) "two" in
  DC.getName (state r) = JStr "printer"
  /\ DC.getMetaData (state r) = JObj []
  /\ map SD.key (DC._definitions (state r)) = ([] ++ ["machine"; "material"])%list
  /\ bare (state r)
     = bare (DC.with_definitions
               (DC.set_metadata (DC.set_name (DC.__init__ "printer" None) (JStr "printer"))
                  (JObj []))
               ([] ++ loaded two_settings_env 8 None
                        [("machine", DefinitionProofs.category "Machine");
                         ("material", DefinitionProofs.category "Material")])).
Proof.
  apply (settings_are_loaded_in_order two_settings_env Sample.no_resources 8
           (DC.__init__ "printer" None) "two" two_settings two_settings
           (JStr "printer") (JObj [])
           [("machine", DefinitionProofs.category "Machine");
            ("material", DefinitionProofs.category "Material")]);
    try reflexivity.
  repeat constructor.
Defined.

End LoadingExtras.
